(** * Expense Intelligence Pipeline: receipt parser, rule classifier,
      anomaly detector and forecast engine

    A shallow embedding of the services of [backend/services] and of the
    constants of [backend/config/constants.py] they read.

    Numbers.  The confidence scores of the parser and of the classifier are
    Python floats built from literals with [+], [*] and [min] only; they are
    embedded as binary64 values ([PrimFloat]), so that every score is the very
    value the interpreter computes.  Amounts read from a receipt are decimal
    numerals with two fractional digits and are kept as rationals.  The
    anomaly detector decides on the binary64 values of [np.mean] and
    [np.std]; both are embedded with the order in which numpy adds.  The
    forecast of [prediction_service] is taken in exact arithmetic over the
    real numbers, from which the code differs by the rounding of its values;
    where the code decides on a number that a library returns (the slope of
    [LinearRegression] in [detect_trend], the sums of the database in
    [_calculate_trend]), that number is an input of the embedding, a
    binary64 value that is not derived from the data.

    Text.  A Python [str] is embedded as a [string]; the character tests
    ([str.lower], [str.isupper], [str.strip], the classes of [re]) are those
    of the ASCII range, characters above it count as caseless symbols. *)

From Stdlib Require Import Bool Arith ZArith QArith Lia List String Ascii.
From Stdlib Require Import Floats Uint63.
From Stdlib Require Import Reals Lra Permutation Sorted.
Import ListNotations.

Set Warnings "-inexact-float".

Close Scope R_scope.
Close Scope Q_scope.
Close Scope Z_scope.
Open Scope nat_scope.

(* ================================================================= *)
(** ** Python strings *)

Module PyStr.

Open Scope string_scope.

Definition code (c : ascii) : nat := nat_of_ascii c.

Definition is_upper_char (c : ascii) : bool :=
  (65 <=? code c)%nat && (code c <=? 90)%nat.

Definition is_lower_char (c : ascii) : bool :=
  (97 <=? code c)%nat && (code c <=? 122)%nat.

Definition is_digit (c : ascii) : bool :=
  (48 <=? code c)%nat && (code c <=? 57)%nat.

(** [str.isspace] on one character: TAB, LF, VT, FF, CR, the four
    separators FS, GS, RS, US, and the space. *)
Definition is_space (c : ascii) : bool :=
  ((9 <=? code c)%nat && (code c <=? 13)%nat)
  || ((28 <=? code c)%nat && (code c <=? 32)%nat).

Definition lower_char (c : ascii) : ascii :=
  if is_upper_char c then ascii_of_nat (code c + 32) else c.

Definition upper_char (c : ascii) : ascii :=
  if is_lower_char c then ascii_of_nat (code c - 32) else c.

Fixpoint map_chars (f : ascii -> ascii) (s : string) : string :=
  match s with
  | EmptyString => EmptyString
  | String c s' => String (f c) (map_chars f s')
  end.

Fixpoint filter_chars (p : ascii -> bool) (s : string) : string :=
  match s with
  | EmptyString => EmptyString
  | String c s' => if p c then String c (filter_chars p s') else filter_chars p s'
  end.

Fixpoint all_chars (p : ascii -> bool) (s : string) : bool :=
  match s with
  | EmptyString => true
  | String c s' => p c && all_chars p s'
  end.

Fixpoint any_char (p : ascii -> bool) (s : string) : bool :=
  match s with
  | EmptyString => false
  | String c s' => p c || any_char p s'
  end.

(** [s.lower()] and [s.upper()]. *)
Definition lower (s : string) : string := map_chars lower_char s.
Definition upper (s : string) : string := map_chars upper_char s.

(** [s.isupper()]: no cased character is lowercase and there is at least
    one cased character. *)
Definition isupper (s : string) : bool :=
  all_chars (fun c => negb (is_lower_char c)) s && any_char is_upper_char s.

Fixpoint lstrip (s : string) : string :=
  match s with
  | EmptyString => EmptyString
  | String c s' => if is_space c then lstrip s' else s
  end.

Fixpoint rstrip (s : string) : string :=
  match s with
  | EmptyString => EmptyString
  | String c s' =>
      match rstrip s' with
      | EmptyString => if is_space c then EmptyString else String c EmptyString
      | r => String c r
      end
  end.

(** [s.strip()]. *)
Definition strip (s : string) : string := rstrip (lstrip s).

(** [len(s)]. *)
Definition len (s : string) : nat := String.length s.

(** [needle in hay]. *)
Fixpoint contains (needle hay : string) : bool :=
  String.prefix needle hay
  || match hay with
     | EmptyString => false
     | String _ hay' => contains needle hay'
     end.

(** [s[:n]]. *)
Fixpoint take (n : nat) (s : string) : string :=
  match n, s with
  | O, _ => EmptyString
  | S _, EmptyString => EmptyString
  | S n', String c s' => String c (take n' s')
  end.

(** [s.split(sep)] for a one-character separator: the pieces between the
    separators, empty pieces kept; never an empty list. *)
Fixpoint split (sep : ascii) (s : string) : list string :=
  match s with
  | EmptyString => [EmptyString]
  | String c s' =>
      if Ascii.eqb c sep then EmptyString :: split sep s'
      else match split sep s' with
           | [] => [String c EmptyString]
           | piece :: pieces => String c piece :: pieces
           end
  end.

(** [sep.join(parts)]. *)
Fixpoint join (sep : string) (parts : list string) : string :=
  match parts with
  | [] => EmptyString
  | [p] => p
  | p :: rest => p ++ sep ++ join sep rest
  end.

(** Truth value of a string: non-empty. *)
Definition truthy (s : string) : bool :=
  match s with EmptyString => false | _ => true end.

(** [s.replace(a, b)] for single characters. *)
Definition replace_char (a b : ascii) (s : string) : string :=
  map_chars (fun c => if Ascii.eqb c a then b else c) s.

Definition newline : ascii := ascii_of_nat 10.

End PyStr.

(* ================================================================= *)
(** ** Python floats *)

Module PyFloat.

Open Scope float_scope.

(** [float(n)] for a non-negative [int]. *)
Definition of_nat (n : nat) : float := of_uint63 (Uint63.of_Z (Z.of_nat n)).

(** [min(a, b)] of the builtins: [b] when [b < a], else [a]. *)
Definition min (a b : float) : float := if PrimFloat.ltb b a then b else a.

(** The comparisons, as the booleans Python computes. *)
Definition gt (a b : float) : bool := PrimFloat.ltb b a.
Definition lt (a b : float) : bool := PrimFloat.ltb a b.
Definition ge (a b : float) : bool := PrimFloat.leb b a.
Definition le (a b : float) : bool := PrimFloat.leb a b.
Definition eq (a b : float) : bool := PrimFloat.eqb a b.

(** The place of a number in the order of the comparisons: the sign class,
    then the exponent and the mantissa; [None] for NaN. *)
Definition key (x : float) : option (Z * Z * Z) :=
  match Prim2SF x with
  | S754_zero _ => Some (0, 0, 0)%Z
  | S754_infinity true => Some (-2, 0, 0)%Z
  | S754_infinity false => Some (2, 0, 0)%Z
  | S754_finite true m e => Some (-1, - e, Z.neg m)%Z
  | S754_finite false m e => Some (1, e, Z.pos m)%Z
  | S754_nan => None
  end.

Definition key_lt (a b : Z * Z * Z) : Prop :=
  let '(a1, a2, a3) := a in
  let '(b1, b2, b3) := b in
  (a1 < b1 \/ (a1 = b1 /\ (a2 < b2 \/ (a2 = b2 /\ a3 < b3))))%Z.

(** The exact rational value of a finite binary64 number. *)
Definition to_Q (x : float) : option Q :=
  match Prim2SF x with
  | S754_zero _ => Some 0%Q
  | S754_finite s m e =>
      let v := (inject_Z (Zpos m) * Qpower 2 e)%Q in
      Some (if s then Qopp v else v)
  | _ => None
  end.

End PyFloat.

(* ================================================================= *)
(** ** The fragment of [re] the receipt patterns use *)

Module Regex.

Open Scope string_scope.

Inductive regex :=
| Eps
| Chr (p : ascii -> bool)   (* one character of a class *)
| Seq (r1 r2 : regex)
| Star (r : regex)          (* greedy [r*] *)
| Opt (r : regex)           (* greedy [r?] *)
| Group (r : regex).        (* the capturing group, [group(1)] *)

(** [r+] and [r{n}]. *)
Definition Plus (r : regex) : regex := Seq r (Star r).

Fixpoint Rep (n : nat) (r : regex) : regex :=
  match n with
  | O => Eps
  | S n' => Seq r (Rep n' r)
  end.

(** A literal character, and a literal word, under [re.IGNORECASE]. *)
Definition lit_ci (c : ascii) : regex :=
  Chr (fun x => Ascii.eqb (PyStr.lower_char x) (PyStr.lower_char c)).

Fixpoint word_ci (w : string) : regex :=
  match w with
  | EmptyString => Eps
  | String c w' => Seq (lit_ci c) (word_ci w')
  end.

Section Matcher.

Context {X : Type}.

(** Backtracking matcher in continuation-passing style: [k] receives the
    text still to be read and the text captured by the group so far.
    Alternatives are tried in the order of [re]: a quantifier first
    takes one more repetition, then gives it back. *)
Fixpoint run (r : regex) (s : string) (g : option string)
         (k : string -> option string -> option X) {struct r} : option X :=
  match r with
  | Eps => k s g
  | Chr p =>
      match s with
      | String c s' => if p c then k s' g else None
      | EmptyString => None
      end
  | Seq r1 r2 => run r1 s g (fun s' g' => run r2 s' g' k)
  | Opt r1 =>
      match run r1 s g k with
      | Some x => Some x
      | None => k s g
      end
  | Star r1 =>
      (fix star (fuel : nat) (s : string) (g : option string) : option X :=
         match fuel with
         | O => k s g
         | S fuel' =>
             match run r1 s g
                     (fun s' g' =>
                        if (String.length s' <? String.length s)%nat
                        then star fuel' s' g' else None) with
             | Some x => Some x
             | None => k s g
             end
         end) (String.length s) s g
  | Group r1 =>
      run r1 s g
          (fun s' _ =>
             k s' (Some (PyStr.take (String.length s - String.length s') s)))
  end.

End Matcher.

(** A match of [r] at the start of [s]: the group and the rest of [s]. *)
Definition match_here (r : regex) (s : string) : option (option string * string) :=
  run r s None (fun s' g => Some (g, s')).

(** The scan of [re.finditer]: matches are sought from left to right and
    do not overlap; after a match the scan resumes where it ended. *)
Fixpoint scan (fuel : nat) (r : regex) (s : string) : list string :=
  match fuel with
  | O => []
  | S fuel' =>
      let skip := match s with
                  | String _ s' => scan fuel' r s'
                  | EmptyString => []
                  end in
      match match_here r s with
      | Some (g, rest) =>
          let found := match g with Some t => [t] | None => [] end in
          if (String.length rest <? String.length s)%nat
          then found ++ scan fuel' r rest
          else found ++ skip
      | None => skip
      end
  end.

(** [[m.group(1) for m in re.finditer(r, s)]], which is also
    [re.findall(r, s)] for a pattern with one group. *)
Definition findall (r : regex) (s : string) : list string :=
  scan (S (String.length s)) r s.

(** The classes [[0-9]] (also [\d]), [\s], [[:\s]] and [[.,]]. *)
Definition digit : regex := Chr PyStr.is_digit.
Definition space : regex := Chr PyStr.is_space.
Definition colon_or_space : regex :=
  Chr (fun c => Ascii.eqb c ":" || PyStr.is_space c).
Definition point_or_comma : regex :=
  Chr (fun c => Ascii.eqb c "." || Ascii.eqb c ",").

(** [[0-9]+[.,][0-9]{2}], also [\d+[.,]\d{2}]. *)
Definition amount : regex := Seq (Plus digit) (Seq point_or_comma (Rep 2 digit)).

End Regex.

(* ================================================================= *)
(** ** [backend/config/constants.py] *)

Module Constants.

Open Scope string_scope.

(** One entry of [EXPENSE_CATEGORIES]; the colour and the icon, which no
    service reads, are left out. *)
Record category_info := {
  name : string;
  subcategories : list string;
  keywords : list string
}.

(** [EXPENSE_CATEGORIES], in declaration order (the order in which a
    Python dict is iterated). *)
Definition EXPENSE_CATEGORIES : list (string * category_info) :=
  [ ("food",
     {| name := "Food & Dining";
        subcategories := ["groceries"; "restaurant"; "cafe"; "fast_food"];
        keywords := ["walmart"; "target"; "whole foods"; "kroger"; "safeway";
                     "restaurant"; "bar"; "cafe"; "starbucks"; "mcdonalds";
                     "subway"] |});
    ("transportation",
     {| name := "Transportation";
        subcategories := ["gas"; "public_transport"; "taxi"; "parking"];
        keywords := ["gas"; "shell"; "chevron"; "exxon"; "bp"; "metro"; "bus";
                     "train"; "uber"; "lyft"; "parking"] |});
    ("housing",
     {| name := "Housing";
        subcategories := ["rent"; "mortgage"; "utilities"; "maintenance"];
        keywords := ["rent"; "water"; "electricity"; "gas"; "internet";
                     "phone"; "at&t"; "verizon"; "comcast"] |});
    ("health",
     {| name := "Health & Fitness";
        subcategories := ["pharmacy"; "doctor"; "gym"; "health_insurance"];
        keywords := ["pharmacy"; "cvs"; "walgreens"; "doctor"; "hospital";
                     "clinic"; "gym"; "fitness"; "planet fitness"] |});
    ("entertainment",
     {| name := "Entertainment";
        subcategories := ["movies"; "events"; "hobbies"; "travel"];
        keywords := ["cinema"; "theater"; "concert"; "spotify"; "netflix";
                     "hulu"; "disney"; "steam"; "playstation"; "xbox"] |});
    ("shopping",
     {| name := "Shopping";
        subcategories := ["clothing"; "electronics"; "home"; "other"];
        keywords := ["amazon"; "ebay"; "best buy"; "target"; "macy";
                     "nordstrom"; "ikea"; "home depot"] |});
    ("education",
     {| name := "Education";
        subcategories := ["courses"; "books"; "supplies"];
        keywords := ["university"; "college"; "school"; "course"; "udemy";
                     "coursera"; "book"; "amazon books"] |});
    ("other",
     {| name := "Other"; subcategories := []; keywords := [] |}) ].

(** The closed set of category slugs: the keys of the table. *)
Definition category_slugs : list string := map fst EXPENSE_CATEGORIES.

Definition is_category_slug (s : string) : bool :=
  existsb (String.eqb s) category_slugs.

(** [OCR_PATTERNS["total"]]; the service compiles them with
    [re.IGNORECASE]:
    - [total[:\s]+([0-9]+[.,][0-9]{2})]
    - [amount[:\s]+([0-9]+[.,][0-9]{2})]
    - [\$\s*([0-9]+[.,][0-9]{2})]
    - [([0-9]+[.,][0-9]{2})\s*\$] *)
Definition OCR_PATTERNS_total : list Regex.regex :=
  [ Regex.Seq (Regex.word_ci "total")
      (Regex.Seq (Regex.Plus Regex.colon_or_space) (Regex.Group Regex.amount));
    Regex.Seq (Regex.word_ci "amount")
      (Regex.Seq (Regex.Plus Regex.colon_or_space) (Regex.Group Regex.amount));
    Regex.Seq (Regex.lit_ci "$")
      (Regex.Seq (Regex.Star Regex.space) (Regex.Group Regex.amount));
    Regex.Seq (Regex.Group Regex.amount)
      (Regex.Seq (Regex.Star Regex.space) (Regex.lit_ci "$")) ].

(** [ANOMALY_THRESHOLDS] *)
Definition ANOMALY_THRESHOLDS_z_score : float := 3.0%float.
Definition ANOMALY_THRESHOLDS_iqr_multiplier : R := 1.5%R.

(** [PREDICTION_CONFIG] *)
Definition PREDICTION_CONFIG_min_data_points : nat := 30.
Definition PREDICTION_CONFIG_forecast_periods : nat := 3.
Definition PREDICTION_CONFIG_confidence_interval : R := 0.95%R.

(** [PAYMENT_METHODS] *)
Definition PAYMENT_METHODS : list string :=
  [ "cash"; "debit_card"; "credit_card"; "transfer"; "paypal"; "venmo"; "other" ].

End Constants.

(* ================================================================= *)
(** ** [backend/services/classifier_service.py] *)

Module Classifier.

Import Constants.
Open Scope string_scope.

(** The entries of [self.category_map]. *)
Record map_entry := { entry_name : string; entry_keywords : list string }.

Definition category_map_t := list (string * map_entry).

(** [_build_category_map]: the name and the keywords of every category. *)
Definition _build_category_map (table : list (string * category_info))
  : category_map_t :=
  map (fun '(slug, info) =>
         (slug, {| entry_name := name info; entry_keywords := keywords info |}))
      table.

Definition category_map : category_map_t :=
  _build_category_map EXPENSE_CATEGORIES.

(** *** The bootstrap model *)

(** A fitted pipeline is represented by the rows it was fitted on. *)
Definition training_set := list (string * string).

Inductive model :=
| Unfitted
| Fitted (rows : training_set).

(** The two rows one keyword adds to [X_train], [y_train]. *)
Definition keyword_rows (category keyword : string) : training_set :=
  [ (keyword, category); ("purchase at " ++ keyword, category) ].

(** The loops of [_create_default_model] that fill [X_train], [y_train]. *)
Definition default_training_rows (cmap : category_map_t) : training_set :=
  fold_left
    (fun (rows : training_set) '(category, info) =>
       fold_left
         (fun (rows : training_set) keyword =>
            (rows ++ keyword_rows category keyword)%list)
         (entry_keywords info) rows)
    cmap [].

(** [_create_default_model]: the pipeline is fitted when [X_train] is not
    empty. *)
Definition _create_default_model (cmap : category_map_t) : model :=
  match default_training_rows cmap with
  | [] => Unfitted
  | rows => Fitted rows
  end.

(** What lies at [settings.classifier_model_path]. *)
Inductive snapshot :=
| NoSnapshot
| UnreadableSnapshot
| Snapshot (m : model).

(** [_load_or_create_model]. *)
Definition _load_or_create_model (cmap : category_map_t) (file : snapshot)
  : model :=
  match file with
  | Snapshot m => m
  | UnreadableSnapshot => _create_default_model cmap
  | NoSnapshot => _create_default_model cmap
  end.

(** *** The rule stage *)

(** The points one keyword adds to [matches] for the (lower-cased) text. *)
Definition keyword_points (text keyword : string) : nat :=
  if PyStr.contains (PyStr.lower keyword) text then
    if String.eqb (PyStr.lower keyword) (PyStr.strip text) then 3 else 1
  else 0.

(** One turn of the inner loop. *)
Definition add_points (text : string) (matches : nat) (keyword : string) : nat :=
  matches + keyword_points text keyword.

(** The inner loop: [matches] after all the keywords of a category. *)
Definition count_matches (text : string) (kws : list string) : nat :=
  fold_left (add_points text) kws 0.

(** One turn of the outer loop on [(best_category, max_matches)]. *)
Definition visit_category (text : string) (st : option string * nat)
           (e : string * map_entry) : option string * nat :=
  let '(best_category, max_matches) := st in
  let '(category, info) := e in
  let matches := count_matches text (entry_keywords info) in
  if (max_matches <? matches)%nat then (Some category, matches)
  else (best_category, max_matches).

(** The outer loop: [(best_category, max_matches)] after all categories. *)
Definition scan_categories (cmap : category_map_t) (text : string)
  : option string * nat :=
  fold_left (visit_category text) cmap (None, 0).

(** [min(0.5 + (max_matches * 0.2), 1.0)]. *)
Definition rule_confidence (max_matches : nat) : float :=
  PyFloat.min (0.5 + PyFloat.of_nat max_matches * 0.2)%float 1.0%float.

Definition rules_on (cmap : category_map_t) (text : string) : string * float :=
  let text := PyStr.lower text in
  match scan_categories cmap text with
  | (Some best_category, max_matches) =>
      if PyStr.truthy best_category && (0 <? max_matches)%nat
      then (best_category, rule_confidence max_matches)
      else ("others", 0.0%float)
  | (None, _) => ("others", 0.0%float)
  end.

(** [_classify_by_rules]. *)
Definition _classify_by_rules (text : string) : string * float :=
  rules_on category_map text.

(** [max_matches] as [_classify_by_rules] computes it for a text. *)
Definition max_matches_of (text : string) : nat :=
  snd (scan_categories category_map (PyStr.lower text)).

(** Whether some keyword of the map occurs in the text as a substring. *)
Definition keyword_occurs (cmap : category_map_t) (text : string) : bool :=
  existsb
    (fun e => existsb (fun keyword =>
                         PyStr.contains (PyStr.lower keyword) (PyStr.lower text))
                      (entry_keywords (snd e)))
    cmap.

(** The number of keywords of the map. *)
Definition keyword_count (cmap : category_map_t) : nat :=
  list_sum (map (fun e => List.length (entry_keywords (snd e))) cmap).

(** *** The hybrid classifier *)

(** The statistical stage, seen from [classify]: on the combined text it
    yields a label and its top-class probability, or raises. *)
Definition ml_stage := string -> option (string * float).

(** [" ".join(filter(None, [text, merchant, description]))] *)
Definition combine (text : string) (merchant description : option string)
  : string :=
  let present (o : option string) :=
    match o with Some s => if PyStr.truthy s then [s] else [] | None => [] end in
  PyStr.join " "
    (present (Some text) ++ present merchant ++ present description)%list.

Definition rules_or_default (rule_based : string * float) : string * float :=
  if PyFloat.gt (snd rule_based) 0%float then rule_based
  else ("others", 0.3%float).

(** [classify]; [ml = None] stands for [self.model] being unset. *)
Definition classify (ml : option ml_stage) (text : string)
           (merchant description : option string) : string * float :=
  let combined_text := PyStr.lower (combine text merchant description) in
  let rule_based := _classify_by_rules combined_text in
  if PyFloat.gt (snd rule_based) 0.8%float then rule_based
  else
    match ml with
    | Some predict =>
        match predict combined_text with
        | Some (prediction, confidence) =>
            if PyFloat.lt confidence 0.5%float
               && PyFloat.gt (snd rule_based) 0%float
            then rule_based
            else (prediction, confidence)
        | None => rules_or_default rule_based
        end
    | None => rules_or_default rule_based
    end.

(** *** Vocabulary of the properties *)

(** What the outer loop maintains: a best category is recorded exactly when
    the best score is positive, it is one of [slugs], and the score stays
    below [bound]. *)
Definition scan_ok (slugs : list string) (bound : nat)
           (st : option string * nat) : Prop :=
  (snd st = 0 -> fst st = None)
  /\ (0 < snd st -> exists c, fst st = Some c /\ In c slugs)
  /\ snd st <= bound.

(** The facts about the confidence of a positive best score [m], as one
    test on binary64 values. *)
Definition confidence_row_ok (m : nat) : bool :=
  let c := rule_confidence m in
  PyFloat.ge c 0.7%float && PyFloat.gt c 0%float && negb (PyFloat.lt c 0.7%float)
  && Bool.eqb (PyFloat.gt c 0.8%float) (2 <=? m)%nat.

Definition row_eqb (a b : string * string) : bool :=
  String.eqb (fst a) (fst b) && String.eqb (snd a) (snd b).

End Classifier.

(* ================================================================= *)
(** ** Dates *)

Module PyDate.

Record datetime := { year : Z; month : Z; day : Z }.

(** Calendar months counted from year 0: the bucket of [pd.Grouper(freq='M')]
    a date falls in. *)
Definition month_index (d : datetime) : Z := (year d * 12 + (month d - 1))%Z.

End PyDate.

(* ================================================================= *)
(** ** [backend/services/parser_service.py] *)

Module Parser.

Import Regex.
Open Scope string_scope.

(** *** Patterns *)

(** [self.total_patterns = OCR_PATTERNS["total"]] *)
Definition total_patterns : list regex := Constants.OCR_PATTERNS_total.

(** The euro sign lies outside the characters of the embedding: no
    character of a text is one. *)
Definition euro : regex := Chr (fun _ => false).

(** [€?\s*(\d+[.,]\d{2})\s*€?] *)
Definition currency_pattern : regex :=
  Seq (Opt euro) (Seq (Star space) (Seq (Group amount) (Seq (Star space) (Opt euro)))).

(** *** [float] on decimal numerals *)

Fixpoint digits_value (acc : Z) (s : string) : option Z :=
  match s with
  | EmptyString => Some acc
  | String c s' =>
      if PyStr.is_digit c
      then digits_value (acc * 10 + Z.of_nat (PyStr.code c - 48))%Z s'
      else None
  end.

Fixpoint split_point (s : string) : string * option string :=
  match s with
  | EmptyString => (EmptyString, None)
  | String c s' =>
      if Ascii.eqb c "." then (EmptyString, Some s')
      else let '(i, f) := split_point s' in (String c i, f)
  end.

(** [float(s)] for [s] a plain decimal numeral (digits, at most one point,
    at least one digit); any other text raises [ValueError], here [None].
    The value is kept exact, in lowest terms. *)
Definition float_of_string (s : string) : option Q :=
  let '(int_part, frac) := split_point s in
  let frac_part := match frac with Some f => f | None => EmptyString end in
  if (String.length int_part + String.length frac_part =? 0)%nat then None
  else
    match digits_value 0 (int_part ++ frac_part) with
    | Some n => Some (Qred (n # Pos.of_nat (10 ^ String.length frac_part)))
    | None => None
    end.

Definition Qlt_bool (a b : Q) : bool := negb (Qle_bool b a).

(** [max] of a non-empty list: the first of the greatest elements. *)
Definition py_max (first : Q) (rest : list Q) : Q :=
  fold_left (fun best x => if Qlt_bool best x then x else best) rest first.

(** *** [extract_total] *)

(** The conversion of one captured text: [float(amount_str.replace(',', '.'))]. *)
Definition to_amount (amount_str : string) : option Q :=
  float_of_string (PyStr.replace_char "," "." amount_str).

(** [amounts] after the loop over [self.total_patterns]; a text that does
    not convert is skipped. *)
Definition primary_amounts (text : string) : list Q :=
  flat_map
    (fun pattern =>
       flat_map
         (fun amount_str =>
            match to_amount amount_str with
            | Some a => [a]
            | None => []
            end)
         (findall pattern text))
    total_patterns.

(** [[float(m.replace(',', '.')) for m in matches]]: fails as a whole. *)
Fixpoint convert_all (matches : list string) : option (list Q) :=
  match matches with
  | [] => Some []
  | m :: rest =>
      match to_amount m, convert_all rest with
      | Some v, Some vs => Some (v :: vs)
      | _, _ => None
      end
  end.

(** The part of [extract_total] after [if amounts:]. *)
Definition fallback_total (text : string) : option Q :=
  match findall currency_pattern text with
  | [] => None
  | matches =>
      match convert_all matches with
      | Some (v :: vs) => Some (py_max v vs)
      | _ => None
      end
  end.

Definition extract_total (text : string) : option Q :=
  match primary_amounts text with
  | a :: rest => Some (py_max a rest)
  | [] => fallback_total text
  end.

(** *** [extract_merchant] *)

Definition known_merchants : list string :=
  [ "mercadona"; "carrefour"; "lidl"; "dia"; "alcampo";
    "eroski"; "aldi"; "hipercor"; "el corte ingles";
    "decathlon"; "media markt"; "fnac"; "ikea"; "zara";
    "mcdonalds"; "burger king"; "telepizza"; "dominos" ].

(** [re.sub(r'[^A-Z\s]', '', line)] *)
Definition clean_special (line : string) : string :=
  PyStr.filter_chars (fun c => PyStr.is_upper_char c || PyStr.is_space c) line.

(** The first test of the loop body: an uppercase line. *)
Definition uppercase_name (line : string) : option string :=
  if (3 <? PyStr.len line)%nat && PyStr.isupper line then
    let cleaned := clean_special line in
    if (3 <? PyStr.len cleaned)%nat then Some (PyStr.strip cleaned) else None
  else None.

(** The second test of the loop body: a known merchant. *)
Definition known_name (line : string) : option string :=
  let line_lower := PyStr.lower line in
  match find (fun merchant => PyStr.contains merchant line_lower) known_merchants with
  | Some merchant => Some (PyStr.upper merchant)
  | None => None
  end.

(** One turn of the loop over [lines[:5]]. *)
Definition scan_line (line : string) : option string :=
  let line := PyStr.strip line in
  match uppercase_name line with
  | Some m => Some m
  | None => known_name line
  end.

Fixpoint first_hit (lines : list string) : option string :=
  match lines with
  | [] => None
  | line :: rest =>
      match scan_line line with
      | Some m => Some m
      | None => first_hit rest
      end
  end.

(** The last loop: the first line longer than 3 once stripped. *)
Fixpoint first_long_line (lines : list string) : option string :=
  match lines with
  | [] => None
  | line :: rest =>
      let line := PyStr.strip line in
      if (3 <? PyStr.len line)%nat then Some (PyStr.take 50 line)
      else first_long_line rest
  end.

Definition extract_merchant (text : string) : option string :=
  let lines := PyStr.split PyStr.newline text in
  match first_hit (firstn 5 lines) with
  | Some m => Some m
  | None => first_long_line lines
  end.

(** *** [calculate_confidence] *)

Record item := { description : string; price : Q }.

(** The dict built by [parse_receipt]. *)
Record parsed_data := {
  date : option PyDate.datetime;
  merchant : option string;
  total : option Q;
  items : list item;
  payment_method : option string;
  raw_text : string
}.

(** The four tests of [calculate_confidence], as truth values. *)
Definition date_found (p : parsed_data) : bool :=
  match date p with Some _ => true | None => false end.

Definition total_found (p : parsed_data) : bool :=
  match total p with
  | Some t => negb (Qeq_bool t 0) && Qlt_bool 0 t
  | None => false
  end.

Definition merchant_found (p : parsed_data) : bool :=
  match merchant p with Some m => PyStr.truthy m | None => false end.

Definition items_found (p : parsed_data) : bool :=
  match items p with [] => false | _ => true end.

(** The body of [calculate_confidence], given the outcome of its four
    tests. *)
Definition score_of (d t m i : bool) : float :=
  let confidence := 0.0%float in
  let confidence := if d then (confidence + 0.3)%float else confidence in
  let confidence := if t then (confidence + 0.4)%float else confidence in
  let confidence := if m then (confidence + 0.2)%float else confidence in
  let confidence := if i then (confidence + 0.1)%float else confidence in
  PyFloat.min confidence 1.0%float.

Definition calculate_confidence (p : parsed_data) : float :=
  score_of (date_found p) (total_found p) (merchant_found p) (items_found p).

(** The outcome of the four tests for a receipt. *)
Definition signals (p : parsed_data) : bool * bool * bool * bool :=
  (date_found p, total_found p, merchant_found p, items_found p).

(** The weighted sum of the specification, in exact arithmetic. *)
Definition exact_score (d t m i : bool) : Q :=
  ((if d then 3 # 10 else 0) + (if t then 4 # 10 else 0)
   + (if m then 2 # 10 else 0) + (if i then 1 # 10 else 0))%Q.

(** Whether a binary64 value lies within [eps] of a rational. *)
Definition within (eps : Q) (x : float) (q : Q) : bool :=
  match PyFloat.to_Q x with
  | Some v => Qle_bool (Qabs.Qabs (v - q)) eps
  | None => false
  end.

(** The difference of two binary64 values, exactly. *)
Definition drop (x y : float) : option Q :=
  match PyFloat.to_Q x, PyFloat.to_Q y with
  | Some a, Some b => Some (a - b)%Q
  | _, _ => None
  end.

Definition drop_within (eps : Q) (x y : float) (w : Q) : bool :=
  match drop x y with
  | Some dq => Qle_bool (Qabs.Qabs (dq - w)) eps
  | None => false
  end.

End Parser.

(* ================================================================= *)
(** ** numpy and scikit-learn, in exact arithmetic *)

Module Numpy.

Open Scope R_scope.

Definition sum (l : list R) : R := fold_right Rplus 0 l.

(** [np.mean]. *)
Definition mean (l : list R) : R := sum l / INR (List.length l).

(** The mean of the squared deviations from the mean. *)
Definition variance (l : list R) : R :=
  mean (map (fun x => (x - mean l) * (x - mean l)) l).

(** [np.std], the population standard deviation ([ddof = 0]). *)
Definition std (l : list R) : R := sqrt (variance l).

(** A fitted [LinearRegression] with one feature. *)
Record linear_model := { coef : R; intercept : R }.

(** [LinearRegression().fit(X, y)] for a single feature column: ordinary
    least squares on centred data; a feature without spread gets the
    minimum-norm coefficient 0. *)
Definition fit (X y : list R) : linear_model :=
  let x_mean := mean X in
  let y_mean := mean y in
  let sxx := sum (map (fun x => (x - x_mean) * (x - x_mean)) X) in
  let sxy := sum (map (fun xy => (fst xy - x_mean) * (snd xy - y_mean))
                      (combine X y)) in
  let slope := if Req_dec_T sxx 0 then 0 else sxy / sxx in
  {| coef := slope; intercept := y_mean - slope * x_mean |}.

(** [model.predict]. *)
Definition predict (m : linear_model) (X : list R) : list R :=
  map (fun x => coef m * x + intercept m) X.

(** [range(n)] as a feature column. *)
Definition arange (n : nat) : list R := map INR (seq 0 n).

End Numpy.

(* ================================================================= *)
(** ** numpy on binary64 arrays *)

Module Np64.

Open Scope float_scope.

(** [r[j] += a[i + j]] for [j] from 0 to 7. *)
Fixpoint add_each (r a : list float) : list float :=
  match r, a with
  | x :: r', y :: a' => (x + y) :: add_each r' a'
  | _, _ => r
  end.

(** The unrolled loop of [pairwise_sum] over [blocks] rows of eight
    elements: the eight accumulators and what is left of the array. *)
Fixpoint add_blocks (blocks : nat) (r a : list float) : list float * list float :=
  match blocks with
  | O => (r, a)
  | S blocks' => add_blocks blocks' (add_each r (firstn 8 a)) (skipn 8 a)
  end.

(** [((r[0] + r[1]) + (r[2] + r[3])) + ((r[4] + r[5]) + (r[6] + r[7]))] *)
Definition add_accumulators (r : list float) : float :=
  match r with
  | [r0; r1; r2; r3; r4; r5; r6; r7] =>
      ((r0 + r1) + (r2 + r3)) + ((r4 + r5) + (r6 + r7))
  | _ => 0
  end.

(** [res += a[i]] over the rest of the array. *)
Definition add_rest (res : float) (a : list float) : float :=
  fold_left PrimFloat.add a res.

(** [DOUBLE_pairwise_sum] of numpy's [loops_utils.h.src]: a plain loop
    below 8 elements, eight accumulators up to the block size of 128, two
    halves above it.  [fuel] bounds the depth of the halving; the length
    of the array is enough.  The plain loop starts from 0, or from -0.0 in
    later versions of numpy, which gives the same [sum]: the halves are
    never shorter than 64, and [sum] adds the result to 0. *)
Fixpoint pairwise_sum (fuel : nat) (a : list float) : float :=
  let n := List.length a in
  if (n <? 8)%nat then add_rest 0 a
  else if (n <=? 128)%nat then
    let '(r, rest) := add_blocks (n / 8 - 1) (firstn 8 a) (skipn 8 a) in
    add_rest (add_accumulators r) rest
  else
    match fuel with
    | O => 0
    | S fuel' =>
        let n2 := (n / 2 - (n / 2) mod 8)%nat in
        pairwise_sum fuel' (firstn n2 a) + pairwise_sum fuel' (skipn n2 a)
    end.

(** [np.add.reduce] on a contiguous array of doubles: the pairwise sum
    added to the initial value 0. *)
Definition sum (a : list float) : float := 0 + pairwise_sum (List.length a) a.

(** [np.mean]: [umr_sum(arr) / rcount]. *)
Definition mean (a : list float) : float :=
  sum a / PyFloat.of_nat (List.length a).

(** [_var] with [ddof = 0]: the mean, the deviations [arr - arrmean], their
    squares [umr_multiply(x, x)], and [umr_sum(x) / rcount]. *)
Definition var (a : list float) : float :=
  let arrmean := sum a / PyFloat.of_nat (List.length a) in
  let x := map (fun v => v - arrmean) a in
  let x := map (fun v => v * v) x in
  sum x / PyFloat.of_nat (List.length a).

(** [np.std]: [um.sqrt] of the variance. *)
Definition std (a : list float) : float := PrimFloat.sqrt (var a).

End Np64.

(* ================================================================= *)
(** ** [backend/services/analytics_service.py] *)

Module Analytics.

Open Scope float_scope.

(** A row of [tables.Expense], with the name of its category. *)
Record expense := {
  id : nat;
  user_id : nat;
  date : PyDate.datetime;
  merchant : option string;
  amount : float;
  category_name : string
}.

(** One entry of the result. *)
Record anomaly := {
  expense_id : nat;
  a_date : PyDate.datetime;
  a_merchant : option string;
  a_amount : float;
  a_category : string;
  z_score : float;
  deviation : float
}.

(** [db.query(tables.Expense).filter(tables.Expense.user_id == user_id).all()] *)
Definition query_expenses (db : list expense) (uid : nat) : list expense :=
  filter (fun e => Nat.eqb (user_id e) uid) db.

(** [abs((expense.amount - mean) / std)] *)
Definition z_of (mean std : float) (e : expense) : float :=
  PrimFloat.abs ((amount e - mean) / std).

(** [z_score > threshold] *)
Definition exceeds (z threshold : float) : bool := PyFloat.gt z threshold.

Definition to_anomaly (mean std : float) (e : expense) : anomaly :=
  {| expense_id := id e;
     a_date := date e;
     a_merchant := merchant e;
     a_amount := amount e;
     a_category := category_name e;
     z_score := z_of mean std e;
     deviation := amount e - mean |}.

(** The detection loop: the anomalies in the order of the expenses. *)
Definition collect (mean std threshold : float) (expenses : list expense)
  : list anomaly :=
  map (to_anomaly mean std)
      (filter (fun e => exceeds (z_of mean std e) threshold) expenses).

(** [list.sort(key=lambda x: x["z_score"], reverse=True)]: a stable sort,
    greatest key first, entries of equal key in their original order. *)
Fixpoint insert_desc (a : anomaly) (l : list anomaly) : list anomaly :=
  match l with
  | [] => [a]
  | b :: l' =>
      if PyFloat.lt (z_score a) (z_score b) then b :: insert_desc a l'
      else a :: b :: l'
  end.

Fixpoint sort_desc (l : list anomaly) : list anomaly :=
  match l with
  | [] => []
  | a :: l' => insert_desc a (sort_desc l')
  end.

Definition detect_anomalies (db : list expense) (uid : nat)
           (threshold : option float) : list anomaly :=
  let threshold :=
    match threshold with
    | Some t => t
    | None => Constants.ANOMALY_THRESHOLDS_z_score
    end in
  let expenses := query_expenses db uid in
  if (List.length expenses <? 10)%nat then []
  else
    let amounts := map amount expenses in
    let mean := Np64.mean amounts in
    let std := Np64.std amounts in
    if PyFloat.eq std 0 then []
    else firstn 20 (sort_desc (collect mean std threshold expenses)).

(** Greatest z-score first. *)
Definition by_z_desc (a b : anomaly) : Prop :=
  PyFloat.le (z_score b) (z_score a) = true.

(** An entry whose z-score is not NaN. *)
Definition is_number (a : anomaly) : Prop := PyFloat.key (z_score a) <> None.

(** The mean and the population variance of the specification, in exact
    arithmetic on the rational values of the amounts; [exact_values] is
    [None] when an amount is not finite. *)
Fixpoint exact_values (a : list float) : option (list Q) :=
  match a with
  | [] => Some []
  | x :: a' =>
      match PyFloat.to_Q x, exact_values a' with
      | Some q, Some qs => Some (q :: qs)
      | _, _ => None
      end
  end.

Definition exact_mean (qs : list Q) : Q :=
  (fold_right Qplus 0 qs / inject_Z (Z.of_nat (List.length qs)))%Q.

Definition exact_variance (qs : list Q) : Q :=
  let m := exact_mean qs in
  (fold_right Qplus 0 (map (fun q => (q - m) * (q - m)) qs)
   / inject_Z (Z.of_nat (List.length qs)))%Q.

End Analytics.

(* ================================================================= *)
(** ** [backend/services/prediction_service.py] *)

Module Prediction.

Import Numpy.
Open Scope R_scope.

(** One row of the [expenses_data] frame. *)
Record row := { date : PyDate.datetime; amount : R; category : string }.

Definition DataFrame := list row.

(** *** Aggregation by month *)

Definition bucket_of (r : row) : Z := PyDate.month_index (date r).

Definition first_bucket (r : row) (rest : DataFrame) : Z :=
  fold_left (fun lo x => Z.min lo (bucket_of x)) rest (bucket_of r).

Definition last_bucket (r : row) (rest : DataFrame) : Z :=
  fold_left (fun hi x => Z.max hi (bucket_of x)) rest (bucket_of r).

(** The sum of the amounts of one calendar month (0 for a month without
    rows). *)
Definition bucket_sum (data : DataFrame) (k : Z) : R :=
  sum (map amount (filter (fun r => Z.eqb (bucket_of r) k) data)).

(** The month indices of [groupby(pd.Grouper(key='date', freq='M'))]:
    every calendar month from the earliest to the latest date. *)
Definition buckets (data : DataFrame) : list Z :=
  match data with
  | [] => []
  | r :: rest =>
      let lo := first_bucket r rest in
      let hi := last_bucket r rest in
      map (fun i => (lo + Z.of_nat i)%Z) (seq 0 (Z.to_nat (hi - lo + 1)))
  end.

(** [...['amount'].sum()]: the monthly totals in chronological order. *)
Definition monthly_amounts (data : DataFrame) : list R :=
  map (bucket_sum data) (buckets data).

(** *** Forecast *)

Record forecast_point := {
  month : Z;                (* the month index behind the ["%Y-%m"] label *)
  predicted_amount : R;
  lower_bound : R;
  upper_bound : R;
  confidence : R
}.

(** The result dict; [r_squared] of [model_info] is not represented. *)
Inductive outcome :=
| Failure (error : string)
| Success (predictions : list forecast_point) (training_samples : nat).

(** [1.96 if confidence == 0.95 else 2.576] *)
Definition z_score_of (confidence : R) : R :=
  if Req_dec_T confidence 0.95 then 1.96 else 2.576.

(** [expenses_data[expenses_data['category'] == category]] under
    [if category:]. *)
Definition filter_category (data : DataFrame) (cat : option string) : DataFrame :=
  match cat with
  | Some c =>
      if PyStr.truthy c then filter (fun r => String.eqb (category r) c) data
      else data
  | None => data
  end.

(** [last_month + i for i in range(1, periods + 1)] *)
Definition future_months (last_month periods : nat) : list R :=
  map (fun i => INR (last_month + i)) (seq 1 periods).

(** [std_error] of the fit on the observed months. *)
Definition residual_std (y : list R) : R :=
  let X := arange (List.length y) in
  let m := fit X y in
  std (map (fun p => fst p - snd p) (combine y (predict m X))).

(** The body of the loop that formats the results, for the [i]-th
    prediction ([i] from 1). *)
Definition format_point (base : Z) (margin_of_error : R) (i : nat) (pred : R)
  : forecast_point :=
  {| month := (base + Z.of_nat i)%Z;
     predicted_amount := Rmax 0 pred;
     lower_bound := Rmax 0 (pred - margin_of_error);
     upper_bound := pred + margin_of_error;
     confidence := Constants.PREDICTION_CONFIG_confidence_interval |}.

Fixpoint format_from (base : Z) (margin_of_error : R) (i : nat)
         (predictions : list R) : list forecast_point :=
  match predictions with
  | [] => []
  | pred :: rest =>
      format_point base margin_of_error i pred
      :: format_from base margin_of_error (S i) rest
  end.

(** The raw predictions of the fitted line for the future months. *)
Definition raw_predictions (y : list R) (periods : nat) : list R :=
  let X := arange (List.length y) in
  predict (fit X y) (future_months (List.length y) periods).

(** [predict_future_expenses].  The [try] fails, and the call reports the
    failure, when there is no month to fit or no month to predict. *)
Definition predict_future_expenses (expenses_data : DataFrame)
           (periods : nat) (cat : option string) : outcome :=
  if (List.length expenses_data <? Constants.PREDICTION_CONFIG_min_data_points)%nat then
    Failure "Insufficient data. Need at least 30 records."
  else
    let expenses_data := filter_category expenses_data cat in
    let y := monthly_amounts expenses_data in
    match buckets expenses_data, periods with
    | [], _ => Failure "Found array with 0 sample(s)"
    | _, O => Failure "Expected 2D array"
    | _ :: _, S _ =>
        let predictions := raw_predictions y periods in
        let confidence := Constants.PREDICTION_CONFIG_confidence_interval in
        let margin_of_error := z_score_of confidence * residual_std y in
        let base := last (buckets expenses_data) 0%Z in
        Success (format_from base margin_of_error 1 predictions) (List.length y)
    end.

(** *** Trend *)

Inductive trend_report :=
| InsufficientData
| Trend (trend : string) (slope : float).

(** The tests on [slope], a binary64 value. *)
Definition classify_slope (slope : float) : string :=
  if PyFloat.gt slope 10%float then "increasing"%string
  else if PyFloat.lt slope (-10)%float then "decreasing"%string
  else "stable"%string.

(** [LinearRegression().fit(X, y).coef_[0]] for the monthly amounts of a
    frame: the binary64 slope that scikit-learn returns.  It is an input
    of the embedding, not derived from the amounts. *)
Definition regression := DataFrame -> float.

(** [detect_trend]; the description text of the report is left out. *)
Definition detect_trend (coef_ : regression) (expenses_data : DataFrame)
  : trend_report :=
  let monthly_data := monthly_amounts expenses_data in
  if (List.length monthly_data <? 2)%nat then InsufficientData
  else
    let slope := coef_ expenses_data in
    Trend (classify_slope slope) slope.

End Prediction.

(* ================================================================= *)
(** ** [backend/services/parser_service.py], the other extractors *)

Module Receipts.

Import Regex.
Open Scope string_scope.

(** *** [extract_payment_method] *)

(** [payment_keywords], in declaration order. *)
Definition payment_keywords : list (string * list string) :=
  [ ("cash", ["efectivo"; "cash"; "metalico"]);
    ("card", ["tarjeta"; "card"; "visa"; "mastercard"]);
    ("debit_card", ["debito"; "debit"]);
    ("credit_card", ["credito"; "credit"]);
    ("bizum", ["bizum"]);
    ("transfer", ["transferencia"; "transfer"]) ].

(** Whether one of the keywords occurs in the lower-cased text. *)
Definition mentions (text_lower : string) (kws : list string) : bool :=
  existsb (fun keyword => PyStr.contains keyword text_lower) kws.

(** The nested loops return at the first keyword found: the first method,
    in table order, one of whose keywords occurs. *)
Definition extract_payment_method (text : string) : option string :=
  let text_lower := PyStr.lower text in
  match find (fun e => mentions text_lower (snd e)) payment_keywords with
  | Some e => Some (fst e)
  | None => None
  end.

(** *** [extract_items] *)

(** What follows the description in [item_pattern],
    [\s+(\d+[.,]\d{2})\s*€?$], the group being the price. *)
Definition price_tail : regex :=
  Seq (Plus space) (Seq (Group amount) (Seq (Star space) (Opt Parser.euro))).

(** A match of [r] that ends where the line ends. *)
Definition match_to_end (r : regex) (s : string) : option (option string) :=
  run r s None
      (fun s' g => match s' with EmptyString => Some g | _ => None end).

(** The lazy [(.+?)] of [item_pattern]: the description grows by one
    character, never a newline, until the rest of the line matches
    [price_tail].  [taken] is the description so far. *)
Fixpoint lazy_description (taken rest : string) : option (string * string) :=
  match match_to_end price_tail rest with
  | Some (Some price_str) => Some (taken, price_str)
  | _ =>
      match rest with
      | String c rest' =>
          if Ascii.eqb c PyStr.newline then None
          else lazy_description (taken ++ String c EmptyString) rest'
      | EmptyString => None
      end
  end.

(** [re.match(item_pattern, line)]: the two groups. *)
Definition match_item (line : string) : option (string * string) :=
  match line with
  | String c rest =>
      if Ascii.eqb c PyStr.newline then None
      else lazy_description (String c EmptyString) rest
  | EmptyString => None
  end.

(** The body of the loop over the lines. *)
Definition item_of_line (line : string) : list Parser.item :=
  let line := PyStr.strip line in
  match match_item line with
  | Some (group1, group2) =>
      let description := PyStr.strip group1 in
      let price_str := PyStr.replace_char "," "." group2 in
      match Parser.float_of_string price_str with
      | Some price =>
          [ {| Parser.description := description; Parser.price := price |} ]
      | None => []
      end
  | None => []
  end.

Definition extract_items (text : string) : list Parser.item :=
  flat_map item_of_line (PyStr.split PyStr.newline text).

(** *** [validate_parsed_data] *)



End Receipts.

(* ================================================================= *)
(** ** [backend/services/classifier_service.py], retraining and the
       owners of the keywords *)

Module Retraining.

Import Classifier.
Open Scope string_scope.

(** What [train_with_user_data] reads of an expense: the merchant, the
    description and [expense.category.slug]. *)
Record labelled_expense := {
  le_merchant : option string;
  le_description : option string;
  le_slug : string
}.

(** [" ".join(filter(None, [expense.merchant, expense.description]))] *)
Definition sample_text (e : labelled_expense) : string :=
  let present (o : option string) :=
    match o with Some s => if PyStr.truthy s then [s] else [] | None => [] end in
  PyStr.join " " (present (le_merchant e) ++ present (le_description e))%list.

(** The rows one expense adds to [X] and [y]: none when its text is blank. *)
Definition sample_rows (e : labelled_expense) : training_set :=
  let text := sample_text e in
  if PyStr.truthy (PyStr.strip text) then [(PyStr.lower text, le_slug e)] else [].

Definition collect_rows (expenses : list labelled_expense) : training_set :=
  flat_map sample_rows expenses.

(** What a call of [train_with_user_data] does. *)
Inductive retraining :=
| Skipped                          (* a guard fails: the method returns at once *)
| Refitted (m : model)             (* [fit] returns: [m] is handed to [save_model] *)
| FitFailed (rows : training_set). (* [fit] raises: the error is logged,
                                      [save_model] is not called *)

(** [train_with_user_data].  [fits] tells whether [self.model.fit(X, y)]
    returns on the rows it is given or raises, which is for scikit-learn to
    decide; what is left of the model after a fit that raised is not
    represented. *)
Definition train_with_user_data (fits : training_set -> bool)
           (expenses : list labelled_expense) : retraining :=
  if (List.length expenses <? 10)%nat then Skipped
  else
    let rows := collect_rows expenses in
    if (10 <=? List.length rows)%nat then
      if fits rows then Refitted (Fitted rows) else FitFailed rows
    else Skipped.

(** The points of one entry of the map on a text. *)
Definition score (text : string) (e : string * map_entry) : nat :=
  count_matches text (entry_keywords (snd e)).

(** The state of the outer loop of the rule stage after the categories
    [seen]: nothing scored yet, or the first of the best-scoring ones. *)
Definition first_best (text : string) (seen : category_map_t)
           (st : option string * nat) : Prop :=
  (st = (None, 0) /\ forall e, In e seen -> score text e = 0)
  \/ exists before c info after,
       seen = (before ++ (c, info) :: after)%list
       /\ st = (Some c, score text (c, info))
       /\ 0 < score text (c, info)
       /\ (forall e, In e before -> score text e < score text (c, info))
       /\ (forall e, In e after -> score text e <= score text (c, info)).

(** The first category of a map that lists a keyword. *)
Definition first_owner (cmap : category_map_t) (keyword : string) : option string :=
  match find (fun e => existsb (String.eqb keyword) (entry_keywords (snd e))) cmap with
  | Some e => Some (fst e)
  | None => None
  end.

(** The test that a keyword, classified on its own, scores at least two
    points and gets its first owner with confidence 1.0. *)
Definition keyword_alone_ok (keyword : string) : bool :=
  (2 <=? max_matches_of (PyStr.lower (combine keyword None None)))%nat
  && match first_owner category_map keyword with
     | Some owner =>
         let r := _classify_by_rules (PyStr.lower (combine keyword None None)) in
         String.eqb (fst r) owner && PrimFloat.Leibniz.eqb (snd r) 1.0%float
     | None => false
     end.

(** The test that a category is the first owner of a keyword, the two
    shadowed keywords apart. *)
Definition owner_ok (category keyword : string) : bool :=
  match first_owner category_map keyword with
  | Some owner =>
      String.eqb owner category
      || (String.eqb keyword "target" && String.eqb category "shopping"
          && String.eqb owner "food")
      || (String.eqb keyword "gas" && String.eqb category "housing"
          && String.eqb owner "transportation")
  | None => false
  end.

End Retraining.

(* ================================================================= *)
(** ** [backend/services/prediction_service.py], forecasts per category *)

Module ByCategory.

Import Prediction.

(** [expenses_data['category'].unique()]: the distinct values in the order
    of their first appearance. *)
Fixpoint unique (l : list string) : list string :=
  match l with
  | [] => []
  | c :: rest => c :: filter (fun x => negb (String.eqb x c)) (unique rest)
  end.

(** [predict_by_category]: the dict as the list of its items, in insertion
    order. *)
Definition predict_by_category (expenses_data : DataFrame) (periods : nat)
  : list (string * outcome) :=
  map (fun category => (category, predict_future_expenses expenses_data periods
                                    (Some category)))
      (unique (map category expenses_data)).

End ByCategory.

(* ================================================================= *)
(** ** [backend/ml/predictor/model.py] *)

Module Predictor.

Import Numpy.
Open Scope R_scope.

(** An [ExpensePredictorModel]: the fitted line, [None] while [is_fitted]
    is false. *)
Definition ExpensePredictorModel := option linear_model.

Definition fit (X y : list R) : ExpensePredictorModel := Some (Numpy.fit X y).

(** [predict]; [None] stands for the exception raised on a model that is
    not fitted and on an input without rows. *)
Definition predict (m : ExpensePredictorModel) (X : list R) : option (list R) :=
  match m, X with
  | None, _ => None
  | Some _, [] => None
  | Some lm, _ :: _ => Some (map (fun p => Rmax p 0) (Numpy.predict lm X))
  end.

Record interval := {
  period : Z;
  predicted_amount : R;
  lower_bound : R;
  upper_bound : R;
  confidence : R
}.

(** The loop over [enumerate(predictions)], from index [i]. *)
Fixpoint results_from (last_period : Z) (confidence_level : R) (i : nat)
         (predictions margin : list R) : list interval :=
  match predictions, margin with
  | pred :: predictions', m :: margin' =>
      {| period := (last_period + Z.of_nat i + 1)%Z;
         predicted_amount := pred;
         lower_bound := Rmax 0 (pred - m);
         upper_bound := pred + m;
         confidence := confidence_level |}
      :: results_from last_period confidence_level (S i) predictions' margin'
  | _, _ => []
  end.

Definition predict_future (m : ExpensePredictorModel) (n_periods : nat)
           (last_period : Z) (confidence_level : R) : option (list interval) :=
  match m with
  | None => None
  | Some _ =>
      let future_periods :=
        map (fun i => IZR (last_period + Z.of_nat i)) (seq 1 n_periods) in
      match predict m future_periods with
      | None => None
      | Some predictions =>
          let std_error := map (fun p => p * 0.1) predictions in
          let z_score := if Req_dec_T confidence_level 0.95 then 1.96 else 2.576 in
          let margin := map (fun s => z_score * s) std_error in
          Some (results_from last_period confidence_level 0 predictions margin)
      end
  end.

End Predictor.

(* ================================================================= *)
(** ** [backend/services/analytics_service.py], insights per category *)

Module Insights.

Import Numpy.
Open Scope R_scope.

(** A row of [tables.Expense] as the insight queries read it; a date is
    the number of microseconds since the epoch, an amount a binary64
    value. *)
Record entry := { user_id : nat; category_id : nat; date : Z; amount : float }.

(** [timedelta(days=days)] *)
Definition timedelta (days : Z) : Z := (days * 86400000000)%Z.

Definition mid_date (now period_days : Z) : Z := (now - timedelta (period_days / 2))%Z.

Definition start_date (now period_days : Z) : Z := (now - timedelta period_days)%Z.

(** The rows a [filter(and_(...))] on the user, the category and the date
    selects. *)
Definition selected (db : list entry) (uid cid : nat) (within : Z -> bool)
  : list entry :=
  filter (fun e => Nat.eqb (user_id e) uid && Nat.eqb (category_id e) cid
                   && within (date e)) db.

(** The rows of the first half: [date >= start_date] and [date < mid_date]. *)
Definition first_half_rows (now : Z) (db : list entry) (uid cid : nat)
           (period_days : Z) : list entry :=
  selected db uid cid
    (fun d => (start_date now period_days <=? d)%Z && (d <? mid_date now period_days)%Z).

(** The rows of the second half: [date >= mid_date] and [date <= end_date]. *)
Definition second_half_rows (now : Z) (db : list entry) (uid cid : nat)
           (period_days : Z) : list entry :=
  selected db uid cid
    (fun d => (mid_date now period_days <=? d)%Z && (d <=? now)%Z).

(** The sum the database returns for [func.sum] over the amounts of the
    selected rows, when there is one: a binary64 value that the database
    computes.  It is an input of the embedding. *)
Definition sql_sum := list float -> float.

(** [db.query(func.sum(...)).filter(...).scalar()]: [None] when no row is
    selected. *)
Definition scalar (sum_ : sql_sum) (rows : list entry) : option float :=
  match rows with
  | [] => None
  | _ :: _ => Some (sum_ (map amount rows))
  end.

(** [x or 0] *)
Definition or_zero (x : option float) : float :=
  match x with
  | None => 0%float
  | Some v => if PyFloat.eq v 0%float then 0%float else v
  end.

(** [_calculate_trend], with [now] for [datetime.now()]. *)
Definition _calculate_trend (sum_ : sql_sum) (now : Z) (db : list entry)
           (uid cid : nat) (period_days : Z) : string :=
  let first_half := or_zero (scalar sum_ (first_half_rows now db uid cid period_days)) in
  let second_half := or_zero (scalar sum_ (second_half_rows now db uid cid period_days)) in
  if PyFloat.eq first_half 0%float then "new"%string
  else
    let change := ((second_half - first_half) / first_half * 100)%float in
    if PyFloat.gt change 10%float then "up"%string
    else if PyFloat.lt change (-10)%float then "down"%string
    else "stable"%string.

(** A row of the grouped query of [calculate_category_insights]. *)
Record category_row := {
  id : nat;
  name : string;
  icon : string;
  total : R;
  count : nat;
  average : R;
  max_expense : R
}.

Record insight := {
  i_category_id : nat;
  i_category_name : string;
  i_icon : string;
  i_total : R;
  i_count : nat;
  i_average : R;
  i_max_expense : R;
  percentage : R;
  trend : string
}.

(** The part of [calculate_category_insights] after the grouped query,
    whose rows are [query]. *)
Definition calculate_category_insights (sum_ : sql_sum) (now : Z)
           (db : list entry) (uid : nat)
           (period_days : Z) (query : list category_row) : list insight :=
  let total_spending := sum (map total query) in
  map (fun row =>
         let percentage :=
           if Rgt_dec total_spending 0 then total row / total_spending * 100
           else 0 in
         {| i_category_id := id row;
            i_category_name := name row;
            i_icon := icon row;
            i_total := total row;
            i_count := count row;
            i_average := average row;
            i_max_expense := max_expense row;
            percentage := percentage;
            trend := _calculate_trend sum_ now db uid (id row) period_days |})
      query.

End Insights.

(* ================================================================= *)
(** ** [backend/ml/classifier/train.py] *)

Module Training.

Import Constants.
Open Scope string_scope.

(** The three rows one keyword adds to [X], [y]. *)
Definition synthetic_rows (category_slug keyword : string)
  : Classifier.training_set :=
  [ (PyStr.lower keyword, category_slug);
    (PyStr.lower ("purchase at " ++ keyword), category_slug);
    (PyStr.lower (keyword ++ " store"), category_slug) ].

(** [create_synthetic_data], the loops over the categories and their
    keywords. *)
Definition synthetic_data (table : list (string * category_info))
  : Classifier.training_set :=
  flat_map (fun e => flat_map (synthetic_rows (fst e)) (keywords (snd e))) table.

Definition create_synthetic_data : Classifier.training_set :=
  synthetic_data EXPENSE_CATEGORIES.

Definition row_in (r : string * string) (rows : Classifier.training_set) : bool :=
  existsb (Classifier.row_eqb r) rows.

(** The texts that occur under more than one label. *)
Definition relabelled (rows : Classifier.training_set) : list string :=
  map fst
      (filter (fun r => existsb (fun r' => String.eqb (fst r) (fst r')
                                           && negb (String.eqb (snd r) (snd r')))
                                rows)
              rows).

End Training.

(* ================================================================= *)
(** ** [backend/api/routes/upload.py], the call of the classifier *)

Module Upload.

Import Classifier.
Open Scope string_scope.

(** [" ".join([item["description"] for item in parsed_data.get("items", [])])] *)
Definition items_text (p : Parser.parsed_data) : string :=
  PyStr.join " " (map Parser.description (Parser.items p)).

(** The call of [expense_classifier.classify] in [upload_receipt]: the
    merchant is passed as [text] and as [merchant].  A merchant that is
    [None] is dropped from the combined text like an empty one. *)
Definition classify_receipt (ml : option ml_stage) (p : Parser.parsed_data)
  : string * float :=
  classify ml
           (match Parser.merchant p with Some m => m | None => "" end)
           (Parser.merchant p)
           (Some (items_text p)).

(** The text the classifier scores for a receipt. *)
Definition classified_text (p : Parser.parsed_data) : string :=
  PyStr.lower
    (combine (match Parser.merchant p with Some m => m | None => "" end)
             (Parser.merchant p)
             (Some (items_text p))).

(** Whether a text starts with one of its own prefixes, a space and that
    prefix again, blanks at its end apart. *)
Definition doubled_start (s : string) : bool :=
  existsb (fun n => String.prefix
                      (PyStr.take n s ++ " " ++ PyStr.rstrip (PyStr.take n s)) s)
          (seq 1 (String.length s)).

End Upload.

(* ================================================================= *)
(** ** [backend/api/routes/predictions.py] *)

Module Routes.

Import Prediction.

(** A row of [tables.Expense] with the slug of its category
    ([exp.category.slug]). *)
Record expense_row := {
  user_id : nat;
  category_id : nat;
  slug : string;
  date : PyDate.datetime;
  amount : R
}.

(** [tables.Category]: the id and the slug of every category. *)
Definition category_table := list (nat * string).

(** [pd.DataFrame(data)] *)
Definition to_frame (expenses : list expense_row) : DataFrame :=
  map (fun exp => {| Prediction.date := date exp;
                     Prediction.amount := amount exp;
                     Prediction.category := slug exp |}) expenses.

(** The query of the user's expenses, filtered by [category_id] when it is
    given and not 0. *)
Definition query_expenses (db : list expense_row) (uid : nat)
           (category_id_filter : option nat) : list expense_row :=
  let query := filter (fun e => Nat.eqb (user_id e) uid) db in
  match category_id_filter with
  | Some cid =>
      if Nat.eqb cid 0 then query
      else filter (fun e => Nat.eqb (category_id e) cid) query
  | None => query
  end.

(** [db.query(tables.Category).filter(tables.Category.id == category_id).first()] *)
Definition category_slug (cats : category_table) (cid : nat) : option string :=
  match find (fun c => Nat.eqb (fst c) cid) cats with
  | Some c => Some (snd c)
  | None => None
  end.

Inductive forecast_response :=
| NoExpenseData
| Forecast (predictions : outcome).

(** [get_expense_forecast]; [periods] has passed the validation of the
    query parameter, between 1 and 12. *)
Definition get_expense_forecast (db : list expense_row) (cats : category_table)
           (periods : nat) (category_id_filter : option nat) (uid : nat)
  : forecast_response :=
  match query_expenses db uid category_id_filter with
  | [] => NoExpenseData
  | expenses =>
      let df := to_frame expenses in
      let category :=
        match category_id_filter with
        | Some cid => if Nat.eqb cid 0 then None else category_slug cats cid
        | None => None
        end in
      Forecast (predict_future_expenses df periods category)
  end.

Inductive by_category_response :=
| NoData
| ByCategory (periods : nat) (predictions : list (string * outcome)).

(** [get_forecast_by_category]. *)
Definition get_forecast_by_category (db : list expense_row) (periods : nat)
           (uid : nat) : by_category_response :=
  match query_expenses db uid None with
  | [] => NoData
  | expenses =>
      ByCategory periods (ByCategory.predict_by_category (to_frame expenses) periods)
  end.

(** [get_spending_trend]. *)
Definition get_spending_trend (coef_ : regression) (db : list expense_row)
           (category_id_filter : option nat) (uid : nat) : trend_report :=
  let expenses := query_expenses db uid category_id_filter in
  if (List.length expenses <? 2)%nat then InsufficientData
  else detect_trend coef_ (to_frame expenses).

End Routes.

(* ================================================================= *)
(** ** Sample inputs *)

Module Samples.

Open Scope string_scope.

(** A text of several lines. *)
Definition text_of_lines (lines : list string) : string :=
  PyStr.join (String PyStr.newline EmptyString) lines.

Definition subtotal_and_total : string :=
  text_of_lines ["Subtotal: 10.00"; "Total: 12.50"].

Definition total_then_larger_number : string := "Total: 5.00 and 99.99".

Definition two_short_lines : string := text_of_lines ["ab"; "cd"].

Definition short_then_long_line : string := text_of_lines ["ab"; "hello"].

Definition walmart_receipt : string :=
  text_of_lines ["WALMART"; "123 MAIN ST"; "MILK 2.50"; "BREAD 3.00"; "Total: 5.50$"].

(** A receipt with the four signals of the confidence score. *)
Definition full_receipt : Parser.parsed_data :=
  {| Parser.date := Some {| PyDate.year := 2024; PyDate.month := 1; PyDate.day := 15 |};
     Parser.merchant := Some "WALMART";
     Parser.total := Some (11 # 2)%Q;
     Parser.items := [ {| Parser.description := "MILK"; Parser.price := (5 # 2)%Q |};
                       {| Parser.description := "BREAD"; Parser.price := 3%Q |} ];
     Parser.payment_method := None;
     Parser.raw_text := walmart_receipt |}.

Definition food_entry : Classifier.map_entry :=
  {| Classifier.entry_name := "Food & Dining";
     Classifier.entry_keywords :=
       ["walmart"; "target"; "whole foods"; "kroger"; "safeway"; "restaurant";
        "bar"; "cafe"; "starbucks"; "mcdonalds"; "subway"] |}.

(** Expense frames: [count] rows of one amount in one month. *)
Definition month_rows (y m : Z) (count : nat) (amt : R) : Prediction.DataFrame :=
  repeat {| Prediction.date := {| PyDate.year := y; PyDate.month := m; PyDate.day := 1 |};
            Prediction.amount := amt;
            Prediction.category := "food" |} count.

(** Thirty rows over January to March 2024, monthly totals 100, 200, 300. *)
Definition rising_series : Prediction.DataFrame :=
  (month_rows 2024 1 10 10 ++ month_rows 2024 2 10 20 ++ month_rows 2024 3 10 30)%list.

(** Thirty rows over January to March 2024, monthly totals 300, 200, 100. *)
Definition falling_series : Prediction.DataFrame :=
  (month_rows 2024 1 10 30 ++ month_rows 2024 2 10 20 ++ month_rows 2024 3 10 10)%list.

(** Thirty rows over January to March 2024, monthly totals 100, 200, 400,
    which do not lie on a line. *)
Definition bent_series : Prediction.DataFrame :=
  (month_rows 2024 1 10 10 ++ month_rows 2024 2 10 20 ++ month_rows 2024 3 10 40)%list.

(** Two months, totals 100 and 200. *)
Definition two_month_series : Prediction.DataFrame :=
  (month_rows 2024 1 1 100 ++ month_rows 2024 2 1 200)%list.

(** Expenses of user 1, ten of amount 10 and one of amount 1000, and one
    expense of user 2. *)
Definition expense_of (i u : nat) (amt : float) : Analytics.expense :=
  {| Analytics.id := i; Analytics.user_id := u;
     Analytics.date := {| PyDate.year := 2024; PyDate.month := 1; PyDate.day := 1 |};
     Analytics.merchant := Some "shop";
     Analytics.amount := amt;
     Analytics.category_name := "Food & Dining" |}.

Definition outlier_db : list Analytics.expense :=
  (map (fun i => expense_of i 1 10%float) (seq 1 10)
   ++ [expense_of 11 2 5%float; expense_of 12 1 1000%float])%list.

(** Twelve expenses of user 1, each of 19.99. *)
Definition identical_db : list Analytics.expense :=
  map (fun i => expense_of i 1 19.99%float) (seq 1 12).

(** Nine expenses of 15.75 and one of 1575.0: in exact arithmetic the mean
    is 171.675, the deviation 467.775 and the z-score of the last one 3. *)
Definition boundary_db : list Analytics.expense :=
  (map (fun i => expense_of i 1 15.75%float) (seq 1 9)
   ++ [expense_of 10 1 1575.0%float])%list.

(** Thirty expenses of user 1, twenty-nine of the category 1 ("food") and
    one of the category 2 ("shopping"). *)
Definition route_row (cid : nat) (s : string) : Routes.expense_row :=
  {| Routes.user_id := 1; Routes.category_id := cid; Routes.slug := s;
     Routes.date := {| PyDate.year := 2024; PyDate.month := 1; PyDate.day := 1 |};
     Routes.amount := 10 |}.

Definition route_db : list Routes.expense_row :=
  (repeat (route_row 1 "food") 29 ++ [route_row 2 "shopping"])%list.

Definition route_categories : Routes.category_table :=
  [(1, "food"%string); (2, "shopping"%string)].

(** A history of [n] monthly totals on the line [a + b k]. *)
Definition on_line (a b : R) (n : nat) : list R :=
  map (fun k => (a + b * INR k)%R) (seq 0 n).

Definition no_point : Prediction.forecast_point :=
  {| Prediction.month := 0; Prediction.predicted_amount := 0;
     Prediction.lower_bound := 0; Prediction.upper_bound := 0;
     Prediction.confidence := 0 |}.

End Samples.

(* ================================================================= *)
(** * Properties *)

(* ----------------------------------------------------------------- *)
(** ** The order of the binary64 comparisons *)

Section FloatOrder.

Import PyFloat.
Open Scope Z_scope.
Open Scope float_scope.

Lemma compare_key (x y : float) (a b : Z * Z * Z) :
  key x = Some a -> key y = Some b ->
  exists c, SFcompare (Prim2SF x) (Prim2SF y) = Some c
            /\ (c = Lt <-> key_lt a b) /\ (c = Eq <-> a = b) /\ (c = Gt <-> key_lt b a).
Proof.
  unfold key.
  destruct (Prim2SF x) as [sx|[]| |[] mx ex]; intro Hx; try discriminate;
    injection Hx as <-;
    destruct (Prim2SF y) as [sy|[]| |[] my ey]; intro Hy; try discriminate;
    injection Hy as <-; cbn [SFcompare];
    try (eexists; split; [reflexivity|]; cbn [key_lt];
         repeat split; intro H; try discriminate; try reflexivity;
         try (injection H; lia); lia).
  - change (PosDef.Pos.compare_cont Eq mx my) with (Pos.compare mx my).
    destruct (Z.compare_spec ex ey) as [E|E|E];
      [destruct (Pos.compare_spec mx my) as [Em|Em|Em]|..];
      cbn [CompOpp]; eexists; (split; [reflexivity|]); cbn [key_lt];
      repeat split; intro H; try discriminate; try reflexivity;
      try (injection H; lia); try lia; subst; try reflexivity; try lia.
  - change (PosDef.Pos.compare_cont Eq mx my) with (Pos.compare mx my).
    destruct (Z.compare_spec ex ey) as [E|E|E];
      [destruct (Pos.compare_spec mx my) as [Em|Em|Em]|..];
      eexists; (split; [reflexivity|]); cbn [key_lt];
      repeat split; intro H; try discriminate; try reflexivity;
      try (injection H; lia); try lia; subst; try reflexivity; try lia.
Qed.

Lemma key_none (x : float) : key x = None -> Prim2SF x = S754_nan.
Proof.
  unfold key. destruct (Prim2SF x) as [s|[]| |[] m e]; intro H; try discriminate.
  reflexivity.
Qed.

Lemma compare_nan_l (y : spec_float) : SFcompare S754_nan y = None.
Proof. reflexivity. Qed.

Lemma compare_nan_r (x : spec_float) : SFcompare x S754_nan = None.
Proof. destruct x as [s|s| |s m e]; reflexivity. Qed.

Lemma ltb_key (x y : float) :
  PrimFloat.ltb x y = true
  <-> exists a b, key x = Some a /\ key y = Some b /\ key_lt a b.
Proof.
  rewrite FloatAxioms.ltb_spec. unfold SFltb.
  destruct (key x) as [a|] eqn:Ex.
  - destruct (key y) as [b|] eqn:Ey.
    + destruct (compare_key x y a b Ex Ey) as (c & -> & Hlt & _ & _).
      split.
      * intro H. exists a, b. split; [reflexivity|]. split; [reflexivity|].
        apply Hlt. destruct c; try discriminate. reflexivity.
      * intros (a' & b' & [= <-] & [= <-] & H). apply Hlt in H. now rewrite H.
    + rewrite (key_none y Ey), compare_nan_r.
      split; [discriminate|]. intros (a' & b' & _ & H & _). discriminate.
  - rewrite (key_none x Ex), compare_nan_l.
    split; [discriminate|]. intros (a' & b' & H & _). discriminate.
Qed.

Lemma leb_key (x y : float) :
  PrimFloat.leb x y = true
  <-> exists a b, key x = Some a /\ key y = Some b /\ (key_lt a b \/ a = b).
Proof.
  rewrite FloatAxioms.leb_spec. unfold SFleb.
  destruct (key x) as [a|] eqn:Ex.
  - destruct (key y) as [b|] eqn:Ey.
    + destruct (compare_key x y a b Ex Ey) as (c & -> & Hlt & Heq & _).
      split.
      * intro H. exists a, b. split; [reflexivity|]. split; [reflexivity|].
        destruct c; try discriminate; [right; now apply Heq|left; now apply Hlt].
      * intros (a' & b' & [= <-] & [= <-] & [H|H]).
        -- apply Hlt in H. now rewrite H.
        -- apply Heq in H. now rewrite H.
    + rewrite (key_none y Ey), compare_nan_r.
      split; [discriminate|]. intros (a' & b' & _ & H & _). discriminate.
  - rewrite (key_none x Ex), compare_nan_l.
    split; [discriminate|]. intros (a' & b' & H & _). discriminate.
Qed.

Lemma key_lt_trans (a b c : Z * Z * Z) : key_lt a b -> key_lt b c -> key_lt a c.
Proof. destruct a as [[a1 a2] a3], b as [[b1 b2] b3], c as [[c1 c2] c3]. cbn. lia. Qed.

Lemma key_lt_irrefl (a : Z * Z * Z) : ~ key_lt a a.
Proof. destruct a as [[a1 a2] a3]. cbn. lia. Qed.

Lemma key_total (a b : Z * Z * Z) : key_lt a b \/ a = b \/ key_lt b a.
Proof.
  destruct a as [[a1 a2] a3], b as [[b1 b2] b3]. cbn.
  destruct (Z.lt_total a1 b1) as [H|[H|H]]; [lia| |lia].
  destruct (Z.lt_total a2 b2) as [H2|[H2|H2]]; [lia| |lia].
  destruct (Z.lt_total a3 b3) as [H3|[H3|H3]]; [lia| |lia].
  right. left. now subst.
Qed.

(** What the comparisons of numbers obey. *)
Lemma lt_is_number (x y : float) :
  lt x y = true -> key x <> None /\ key y <> None.
Proof.
  unfold lt. rewrite ltb_key. intros (a & b & -> & -> & _). split; discriminate.
Qed.

Lemma lt_le (x y : float) : lt x y = true -> le x y = true.
Proof.
  unfold lt, le. rewrite ltb_key, leb_key.
  intros (a & b & Ha & Hb & H). exists a, b. tauto.
Qed.

Lemma not_lt_le (x y : float) :
  key x <> None -> key y <> None -> lt x y = false -> le y x = true.
Proof.
  unfold lt, le. intros Hx Hy H. apply leb_key.
  destruct (key x) as [a|] eqn:Ex; [|contradiction].
  destruct (key y) as [b|] eqn:Ey; [|contradiction].
  exists b, a. split; [reflexivity|]. split; [reflexivity|].
  destruct (key_total a b) as [Hlt|[Heq|Hgt]]; [|now right|now left].
  exfalso. assert (PrimFloat.ltb x y = true) by (apply ltb_key; now exists a, b).
  congruence.
Qed.

Lemma le_trans (x y z : float) : le x y = true -> le y z = true -> le x z = true.
Proof.
  unfold le. rewrite !leb_key.
  intros (a & b & Ha & Hb & H1) (b' & c & Hb' & Hc & H2).
  rewrite Hb in Hb'. injection Hb' as <-.
  exists a, c. split; [exact Ha|]. split; [exact Hc|].
  destruct H1 as [H1|<-]; destruct H2 as [H2|<-]; try tauto.
  left. now apply (key_lt_trans a b c).
Qed.

Lemma lt_trans (x y z : float) : lt x y = true -> lt y z = true -> lt x z = true.
Proof.
  unfold lt. rewrite !ltb_key.
  intros (a & b & Ha & Hb & H1) (b' & c & Hb' & Hc & H2).
  rewrite Hb in Hb'. injection Hb' as <-.
  exists a, c. split; [exact Ha|]. split; [exact Hc|].
  now apply (key_lt_trans a b c).
Qed.

Lemma lt_asym (x y : float) : lt x y = true -> lt y x = false.
Proof.
  unfold lt. intro H. destruct (PrimFloat.ltb y x) eqn:E; [|reflexivity].
  apply ltb_key in H, E.
  destruct H as (a & b & Ha & Hb & H1). destruct E as (b' & a' & Hb' & Ha' & H2).
  rewrite Hb in Hb'. injection Hb' as <-. rewrite Ha in Ha'. injection Ha' as <-.
  exfalso. apply (key_lt_irrefl a). now apply (key_lt_trans a b a).
Qed.

End FloatOrder.

(* ----------------------------------------------------------------- *)
(** ** The rule stage of the classifier *)

Section RuleStage.

Import Classifier.

Variable text : string.

Lemma keyword_points_le3 (keyword : string) : keyword_points text keyword <= 3.
Proof.
  unfold keyword_points.
  destruct (PyStr.contains _ _); [destruct (String.eqb _ _)|]; lia.
Qed.

Lemma fold_points_bound (kws : list string) (acc : nat) :
  fold_left (add_points text) kws acc <= acc + 3 * List.length kws.
Proof.
  revert acc; induction kws as [|kw kws IH]; intro acc; simpl; [lia|].
  specialize (IH (add_points text acc kw)).
  assert (add_points text acc kw <= acc + 3)
    by (unfold add_points; pose proof (keyword_points_le3 kw); lia).
  lia.
Qed.

Lemma count_matches_bound (kws : list string) :
  count_matches text kws <= 3 * List.length kws.
Proof. unfold count_matches. apply (fold_points_bound kws 0). Qed.

Lemma fold_points_none (kws : list string) (acc : nat) :
  (forall kw, In kw kws -> PyStr.contains (PyStr.lower kw) text = false) ->
  fold_left (add_points text) kws acc = acc.
Proof.
  revert acc; induction kws as [|kw kws IH]; intros acc H; simpl; [reflexivity|].
  rewrite IH by (intros; apply H; now right).
  unfold add_points, keyword_points. rewrite (H kw) by now left. lia.
Qed.

Lemma count_matches_none (kws : list string) :
  (forall kw, In kw kws -> PyStr.contains (PyStr.lower kw) text = false) ->
  count_matches text kws = 0.
Proof. intro H. unfold count_matches. now apply (fold_points_none kws 0). Qed.

Lemma scan_fold_ok (slugs : list string) (bound : nat) (cmap : category_map_t) :
  (forall c info, In (c, info) cmap ->
                  In c slugs /\ 3 * List.length (entry_keywords info) <= bound) ->
  forall st, scan_ok slugs bound st ->
             scan_ok slugs bound (fold_left (visit_category text) cmap st).
Proof.
  induction cmap as [|[c info] cmap IH]; intros Hmap st Hst; simpl; [exact Hst|].
  apply IH; [intros; apply Hmap; now right|].
  destruct st as [best mx]. unfold visit_category.
  destruct (Hmap c info (or_introl eq_refl)) as [Hc Hlen].
  pose proof (count_matches_bound (entry_keywords info)) as Hb.
  destruct (Nat.ltb_spec mx (count_matches text (entry_keywords info))) as [Hlt|Hge];
    [|exact Hst].
  repeat split; simpl; [lia | intros _; now exists c | lia].
Qed.

Lemma scan_fold_none (cmap : category_map_t) :
  (forall c info kw, In (c, info) cmap -> In kw (entry_keywords info) ->
                     PyStr.contains (PyStr.lower kw) text = false) ->
  forall st, fold_left (visit_category text) cmap st = st.
Proof.
  induction cmap as [|[c info] cmap IH]; intros Hmap st; simpl; [reflexivity|].
  rewrite IH by (intros c' i' kw' Hin; apply (Hmap c' i' kw'); now right).
  destruct st as [best mx]. unfold visit_category.
  rewrite count_matches_none by (intros kw Hkw; apply (Hmap c info kw); [now left|exact Hkw]).
  now destruct mx.
Qed.

End RuleStage.

(** The map of the service: every key is a non-empty slug of the table and
    no category has more than 11 keywords. *)
Lemma category_map_shape :
  forall c info, In (c, info) Classifier.category_map ->
    In c Constants.category_slugs
    /\ 3 * List.length (Classifier.entry_keywords info) <= 33.
Proof.
  intros c info H.
  assert (Hall : forallb
            (fun e => Constants.is_category_slug (fst e)
                      && (3 * List.length (Classifier.entry_keywords (snd e)) <=? 33)%nat)
            Classifier.category_map = true) by (vm_compute; reflexivity).
  rewrite forallb_forall in Hall. specialize (Hall _ H). simpl in Hall.
  apply andb_true_iff in Hall. destruct Hall as [Hslug Hlen].
  split; [|now apply Nat.leb_le].
  unfold Constants.is_category_slug in Hslug.
  apply existsb_exists in Hslug. destruct Hslug as (x & Hx & Heq).
  apply String.eqb_eq in Heq. now subst.
Qed.

Lemma category_slugs_truthy :
  forall c, In c Constants.category_slugs -> PyStr.truthy c = true.
Proof.
  intros c H.
  assert (Hall : forallb PyStr.truthy Constants.category_slugs = true)
    by (vm_compute; reflexivity).
  rewrite forallb_forall in Hall. now apply Hall.
Qed.

(** The scan of a text over the service's map. *)
Lemma scan_category_map (text : string) :
  Classifier.scan_ok Constants.category_slugs 33
          (Classifier.scan_categories Classifier.category_map text).
Proof.
  unfold Classifier.scan_categories.
  apply scan_fold_ok; [apply category_map_shape|].
  repeat split; simpl; [intro H; inversion H | lia].
Qed.

(** The result of the rule stage in terms of the best score. *)
Lemma rules_by_score (text : string) :
  let m := Classifier.max_matches_of text in
  (m = 0 /\ Classifier._classify_by_rules text = ("others"%string, 0%float))
  \/ (0 < m <= 33
      /\ exists c, In c Constants.category_slugs
           /\ Classifier._classify_by_rules text = (c, Classifier.rule_confidence m)).
Proof.
  unfold Classifier.max_matches_of, Classifier._classify_by_rules, Classifier.rules_on.
  destruct (scan_category_map (PyStr.lower text)) as (H0 & Hpos & Hb).
  destruct (Classifier.scan_categories Classifier.category_map (PyStr.lower text))
    as [best m]; simpl in *.
  destruct m as [|m].
  - left. rewrite H0 by reflexivity. split; reflexivity.
  - right. destruct Hpos as (c & -> & Hc); [lia|].
    split; [lia|]. exists c. split; [exact Hc|].
    rewrite (category_slugs_truthy c Hc). reflexivity.
Qed.

(** The scores a rule result can carry, checked one by one on binary64. *)
Lemma confidence_rows (m : nat) :
  0 < m <= 33 ->
  let c := Classifier.rule_confidence m in
  PyFloat.ge c 0.7%float = true /\ PyFloat.gt c 0%float = true
  /\ PyFloat.lt c 0.7%float = false
  /\ (PyFloat.gt c 0.8%float = true <-> 2 <= m).
Proof.
  assert (H : forallb Classifier.confidence_row_ok (seq 1 33) = true) by (vm_compute; reflexivity).
  rewrite forallb_forall in H.
  intros Hm c. assert (Hin : In m (seq 1 33)) by (apply in_seq; lia).
  specialize (H m Hin). unfold Classifier.confidence_row_ok in H. fold c in H.
  repeat (apply andb_true_iff in H; destruct H as [H ?]).
  match goal with E : Bool.eqb _ _ = true |- _ => apply Bool.eqb_prop in E; rename E into Hgt end.
  repeat split; try assumption.
  - now apply negb_true_iff.
  - intro Hc. rewrite Hc in Hgt. symmetry in Hgt. now apply Nat.leb_le in Hgt.
  - intro Hle. rewrite Hgt. now apply Nat.leb_le.
Qed.

(** The confidence of the rule stage by cases on the best score. *)
Lemma rule_result_cases (text : string) :
  let c := snd (Classifier._classify_by_rules text) in
  let m := Classifier.max_matches_of text in
  (m = 0 /\ c = 0%float) \/ (0 < m <= 33 /\ c = Classifier.rule_confidence m).
Proof.
  cbv zeta.
  destruct (rules_by_score text) as [[H0 Hr]|[Hk (c & _ & Hr)]]; rewrite Hr; simpl;
    [left|right]; now split.
Qed.

(** [C4] For a text in which no configured keyword occurs as a substring the
    rule stage returns confidence 0 under the label "others", which is not a
    key of the category table; the slug of the table is "other". *)
Theorem rules_without_keyword_return_others (text : string) :
  Classifier.keyword_occurs Classifier.category_map text = false ->
  Classifier._classify_by_rules text = ("others"%string, 0%float)
  /\ Constants.is_category_slug (fst (Classifier._classify_by_rules text)) = false
  /\ Constants.is_category_slug "other" = true.
Proof.
  intro Hno.
  assert (Hscan : Classifier.scan_categories Classifier.category_map (PyStr.lower text)
                  = (None, 0)).
  { unfold Classifier.scan_categories. apply scan_fold_none.
    intros c info kw Hin Hkw.
    unfold Classifier.keyword_occurs in Hno.
    destruct (PyStr.contains (PyStr.lower kw) (PyStr.lower text)) eqn:E; [|reflexivity].
    assert (Classifier.keyword_occurs Classifier.category_map text = true) as Hyes.
    { unfold Classifier.keyword_occurs. apply existsb_exists.
      exists (c, info). split; [exact Hin|]. apply existsb_exists.
      exists kw. split; [exact Hkw|exact E]. }
    unfold Classifier.keyword_occurs in Hyes. congruence. }
  assert (Hres : Classifier._classify_by_rules text = ("others"%string, 0%float)).
  { unfold Classifier._classify_by_rules, Classifier.rules_on. now rewrite Hscan. }
  rewrite Hres. repeat split; reflexivity.
Qed.

Lemma rules_without_keyword_witness :
  Classifier._classify_by_rules "unknown merchant xyz123" = ("others"%string, 0%float)
  /\ Constants.is_category_slug
       (fst (Classifier._classify_by_rules "unknown merchant xyz123")) = false
  /\ Constants.is_category_slug "other" = true.
Proof.
  apply (rules_without_keyword_return_others "unknown merchant xyz123").
  vm_compute. reflexivity.
Defined.

(** [classify] returns the rule result as soon as the best score of the
    combined text has two points. *)
Lemma classify_short_circuit (ml : option Classifier.ml_stage) (text : string)
      (merchant description : option string) :
  2 <= Classifier.max_matches_of
         (PyStr.lower (Classifier.combine text merchant description)) ->
  Classifier.classify ml text merchant description
  = Classifier._classify_by_rules
      (PyStr.lower (Classifier.combine text merchant description)).
Proof.
  intro H2. unfold Classifier.classify.
  set (t := PyStr.lower (Classifier.combine text merchant description)) in *.
  destruct (rule_result_cases t) as [[H0 Hc]|[Hm Hc]]; [lia|].
  cbv zeta in Hc. rewrite Hc.
  destruct (confidence_rows _ Hm) as (_ & _ & _ & Hgt).
  apply Hgt in H2. rewrite H2. reflexivity.
Qed.

(** With fewer than two points the statistical stage is asked, and its
    answer is returned when its probability is not below 0.5. *)
Lemma classify_statistical (ml : option Classifier.ml_stage) (text : string)
      (merchant description : option string) :
  Classifier.max_matches_of
    (PyStr.lower (Classifier.combine text merchant description)) < 2 ->
  forall predict label p,
    ml = Some predict ->
    predict (PyStr.lower (Classifier.combine text merchant description))
    = Some (label, p) ->
    PyFloat.lt p 0.5%float = false ->
    Classifier.classify ml text merchant description = (label, p).
Proof.
  intros H2 predict label p -> Hp Hge. unfold Classifier.classify.
  set (t := PyStr.lower (Classifier.combine text merchant description)) in *.
  assert (Hno : PyFloat.gt (snd (Classifier._classify_by_rules t)) 0.8%float = false).
  { destruct (rule_result_cases t) as [[H0 Hc]|[Hm Hc]]; cbv zeta in Hc; rewrite Hc.
    - vm_compute. reflexivity.
    - destruct (confidence_rows _ Hm) as (_ & _ & _ & Hgt).
      destruct (PyFloat.gt _ _) eqn:E; [|reflexivity].
      assert (2 <= Classifier.max_matches_of t) by (apply Hgt; reflexivity). lia. }
  rewrite Hno, Hp, Hge. reflexivity.
Qed.

(** [C10] The confidence of a rule result is 0 (no match point) or at least
    0.7 (one point gives exactly 0.7), never strictly between; a non-zero
    confidence passes the test [rule_based[1] > 0] of the arbitration; the
    short-circuit [rule_based[1] > 0.8] of [classify] is taken exactly when
    the best score has at least two points. *)
Theorem rule_confidence_zero_or_at_least_07 (text : string) :
  let conf := snd (Classifier._classify_by_rules text) in
  let m := Classifier.max_matches_of text in
  ((m = 0 /\ conf = 0%float) \/ (0 < m /\ PyFloat.ge conf 0.7%float = true))
  /\ PyFloat.gt conf 0%float && PyFloat.lt conf 0.7%float = false
  /\ (PyFloat.eq conf 0%float = false -> PyFloat.gt conf 0%float = true)
  /\ (m = 1 -> conf = 0.7%float)
  /\ (PyFloat.gt conf 0.8%float = true <-> 2 <= m)
  /\ (forall ml merchant description,
        let combined := PyStr.lower (Classifier.combine text merchant description) in
        (2 <= Classifier.max_matches_of combined ->
         Classifier.classify ml text merchant description
         = Classifier._classify_by_rules combined)
        /\ (Classifier.max_matches_of combined < 2 ->
            forall predict label p,
              ml = Some predict -> predict combined = Some (label, p) ->
              PyFloat.lt p 0.5%float = false ->
              Classifier.classify ml text merchant description = (label, p))).
Proof.
  cbv zeta.
  destruct (rule_result_cases text) as [[H0 Hc]|[Hm Hc]]; cbv zeta in Hc; rewrite Hc.
  - (* no match point *)
    repeat split; try (intros; lia).
    + left; now split.
    + intro H; vm_compute in H; discriminate.
    + intro H; vm_compute in H; discriminate.
    + apply classify_short_circuit.
    + apply classify_statistical.
  - (* at least one match point *)
    destruct (confidence_rows _ Hm) as (Hge & Hpos & Hlt & Hgt).
    repeat split.
    + right; split; [lia|exact Hge].
    + rewrite Hlt. apply andb_false_r.
    + intros _; exact Hpos.
    + intros ->. vm_compute. reflexivity.
    + apply Hgt.
    + apply Hgt.
    + apply classify_short_circuit.
    + apply classify_statistical.
Qed.

(* ----------------------------------------------------------------- *)
(** ** The bootstrap training set *)

Lemma fold_append_flat_map {A B : Type} (f : A -> list B) (l : list A) (acc : list B) :
  fold_left (fun rows x => rows ++ f x) l acc = acc ++ flat_map f l.
Proof.
  revert acc; induction l as [|x l IH]; intro acc; simpl.
  - now rewrite app_nil_r.
  - rewrite IH. now rewrite app_assoc.
Qed.

(** The rows of the bootstrap model, category by category and keyword by
    keyword. *)
Lemma default_training_rows_flat (cmap : Classifier.category_map_t) :
  Classifier.default_training_rows cmap
  = flat_map (fun e => flat_map (Classifier.keyword_rows (fst e))
                                (Classifier.entry_keywords (snd e))) cmap.
Proof.
  unfold Classifier.default_training_rows.
  change (flat_map _ cmap) with
    ([] ++ flat_map (fun e => flat_map (Classifier.keyword_rows (fst e))
                                       (Classifier.entry_keywords (snd e))) cmap).
  generalize (@nil (string * string)).
  induction cmap as [|[c info] cmap IH]; intro acc; cbn [fold_left flat_map fst snd].
  - now rewrite app_nil_r.
  - rewrite IH, (fold_append_flat_map (Classifier.keyword_rows c)).
    now rewrite !app_assoc.
Qed.

Lemma flat_keyword_rows_length (c : string) (kws : list string) :
  List.length (flat_map (Classifier.keyword_rows c) kws) = 2 * List.length kws.
Proof. induction kws as [|k kws IH]; simpl; [reflexivity|]. rewrite IH. lia. Qed.

Lemma default_training_rows_length (cmap : Classifier.category_map_t) :
  List.length (Classifier.default_training_rows cmap)
  = 2 * Classifier.keyword_count cmap.
Proof.
  rewrite default_training_rows_flat. unfold Classifier.keyword_count.
  induction cmap as [|[c info] cmap IH]; simpl; [reflexivity|].
  rewrite length_app, IH, flat_keyword_rows_length. lia.
Qed.

Lemma row_eqb_refl (a : string * string) : Classifier.row_eqb a a = true.
Proof. unfold Classifier.row_eqb. now rewrite !String.eqb_refl. Qed.

(** [C6], as stated, fails: the keyword "walmart" of the category "food" has
    no row "walmart store", and the 66 keywords of the table give 132 rows,
    not 198. *)
Lemma bootstrap_lacks_store_variant :
  In "walmart"%string (Classifier.entry_keywords Samples.food_entry)
  /\ In ("food"%string, Samples.food_entry) Classifier.category_map
  /\ ~ In ("walmart store"%string, "food"%string)
          (Classifier.default_training_rows Classifier.category_map)
  /\ Classifier.keyword_count Classifier.category_map = 66
  /\ List.length (Classifier.default_training_rows Classifier.category_map) = 132.
Proof.
  split; [now left|]. split; [now left|]. split; [|split; vm_compute; reflexivity].
  intro H.
  assert (E : existsb (Classifier.row_eqb ("walmart store"%string, "food"%string))
                      (Classifier.default_training_rows Classifier.category_map) = true).
  { apply existsb_exists. eexists. split; [exact H|apply row_eqb_refl]. }
  vm_compute in E. discriminate.
Qed.

(** [C6], amended: the bootstrap training set, on which the classifier is
    fitted when no snapshot exists, holds for every keyword of every
    category the keyword itself and the one variant "purchase at X", both
    labelled with the category; every row is one of these, and there are two
    rows for each keyword. *)
Theorem bootstrap_rows_two_per_keyword
        (cmap : Classifier.category_map_t) (category : string)
        (info : Classifier.map_entry) (keyword : string) :
  In (category, info) cmap ->
  In keyword (Classifier.entry_keywords info) ->
  let rows := Classifier.default_training_rows cmap in
  In (keyword, category) rows
  /\ In (("purchase at " ++ keyword)%string, category) rows
  /\ (forall r, In r rows ->
        exists c i k, In (c, i) cmap /\ In k (Classifier.entry_keywords i)
                      /\ (r = (k, c) \/ r = (("purchase at " ++ k)%string, c)))
  /\ List.length rows = 2 * Classifier.keyword_count cmap
  /\ Classifier._load_or_create_model cmap Classifier.NoSnapshot
     = Classifier.Fitted rows.
Proof.
  intros Hc Hk rows.
  assert (Hin : forall r, In r (Classifier.keyword_rows category keyword) -> In r rows).
  { intros r Hr. unfold rows. rewrite default_training_rows_flat.
    apply in_flat_map. exists (category, info). split; [exact Hc|].
    apply in_flat_map. exists keyword. split; [exact Hk|exact Hr]. }
  assert (H1 : In (keyword, category) rows) by (apply Hin; now left).
  repeat split.
  - exact H1.
  - apply Hin. right. now left.
  - intros r Hr. unfold rows in Hr. rewrite default_training_rows_flat in Hr.
    apply in_flat_map in Hr. destruct Hr as ([c i] & Hci & Hr).
    apply in_flat_map in Hr. destruct Hr as (k & Hki & Hr).
    exists c, i, k. repeat split; try assumption.
    simpl in Hr. destruct Hr as [<-|[<-|[]]]; [now left|now right].
  - apply default_training_rows_length.
  - simpl. unfold Classifier._create_default_model. fold rows.
    destruct rows; [contradiction|reflexivity].
Qed.

Lemma bootstrap_rows_witness :
  let rows := Classifier.default_training_rows Classifier.category_map in
  In ("walmart"%string, "food"%string) rows
  /\ In ("purchase at walmart"%string, "food"%string) rows
  /\ (forall r, In r rows ->
        exists c i k, In (c, i) Classifier.category_map
                      /\ In k (Classifier.entry_keywords i)
                      /\ (r = (k, c) \/ r = (("purchase at " ++ k)%string, c)))
  /\ List.length rows = 2 * Classifier.keyword_count Classifier.category_map
  /\ Classifier._load_or_create_model Classifier.category_map Classifier.NoSnapshot
     = Classifier.Fitted rows.
Proof.
  apply (bootstrap_rows_two_per_keyword
           Classifier.category_map "food" Samples.food_entry "walmart").
  - left. reflexivity.
  - left. reflexivity.
Defined.

(* ----------------------------------------------------------------- *)
(** ** The receipt parser *)

(** [C5] On a text whose lines all have at most three characters
    [extract_merchant] returns [None] although the text has non-empty lines,
    and a short first line is passed over for a later, longer one. *)
Theorem extract_merchant_skips_short_lines :
  Parser.extract_merchant Samples.two_short_lines = None
  /\ PyStr.split PyStr.newline Samples.two_short_lines = ["ab"%string; "cd"%string]
  /\ Parser.first_hit (firstn 5 (PyStr.split PyStr.newline Samples.short_then_long_line))
     = None
  /\ Parser.extract_merchant Samples.short_then_long_line = Some "hello"%string.
Proof. repeat split; vm_compute; reflexivity. Qed.

(** [max] returns an element of the list that no element exceeds. *)
Lemma py_max_spec (rest : list Q) (first : Q) :
  In (Parser.py_max first rest) (first :: rest)
  /\ forall x, In x (first :: rest) -> (x <= Parser.py_max first rest)%Q.
Proof.
  revert first; induction rest as [|y rest IH]; intro first.
  - split; [now left|]. intros x [<-|[]]. apply Qle_refl.
  - unfold Parser.py_max. cbn [fold_left].
    set (best := if Parser.Qlt_bool first y then y else first).
    fold (Parser.py_max best rest).
    destruct (IH best) as [Hin Hmax].
    assert (Hbest : (first <= best)%Q /\ (y <= best)%Q /\ (best = first \/ best = y)).
    { unfold best, Parser.Qlt_bool.
      destruct (Qle_bool y first) eqn:E; simpl.
      - apply Qle_bool_iff in E. repeat split; [apply Qle_refl|exact E|now left].
      - assert (~ (y <= first)%Q) as Hn
            by (intro Hle; apply Qle_bool_iff in Hle; congruence).
        apply Qnot_le_lt in Hn.
        repeat split; [now apply Qlt_le_weak|apply Qle_refl|now right]. }
    destruct Hbest as (Hf & Hy & Hcase).
    split.
    + destruct Hin as [Hin|Hin]; [|right; now right].
      rewrite <- Hin. destruct Hcase as [->| ->]; [now left|right; now left].
    + intros x [<-|[<-|Hx]].
      * eapply Qle_trans; [exact Hf|]. apply Hmax. now left.
      * eapply Qle_trans; [exact Hy|]. apply Hmax. now left.
      * apply Hmax. now right.
Qed.

(** [C9] When the total patterns yield candidates, [extract_total] returns
    the greatest of them, each candidate being the value of a captured text
    whose comma was turned into a point; the currency fallback decides the
    result only when there is no candidate.  On "Subtotal: 10.00 / Total:
    12.50" the candidates are 10.00 and 12.50 and the result is 12.50. *)
Theorem extract_total_returns_max_candidate (text : string) :
  (forall a rest, Parser.primary_amounts text = a :: rest ->
     exists best, Parser.extract_total text = Some best
       /\ In best (a :: rest)
       /\ forall x, In x (a :: rest) -> (x <= best)%Q)
  /\ (forall x, In x (Parser.primary_amounts text) <->
        exists pattern amount_str,
          In pattern Parser.total_patterns
          /\ In amount_str (Regex.findall pattern text)
          /\ Parser.float_of_string (PyStr.replace_char "," "." amount_str) = Some x)
  /\ (Parser.primary_amounts text = [] ->
      Parser.extract_total text = Parser.fallback_total text)
  /\ (Parser.primary_amounts Samples.subtotal_and_total = [10%Q; (25 # 2)%Q]
      /\ Parser.extract_total Samples.subtotal_and_total = Some (25 # 2)%Q)
  /\ (Parser.extract_total Samples.total_then_larger_number = Some 5%Q
      /\ Parser.fallback_total Samples.total_then_larger_number = Some (9999 # 100)%Q)
  /\ Parser.extract_total "Total: 10,00 and amount 12,50" = Some (25 # 2)%Q.
Proof.
  split; [|split; [|split; [|repeat split; vm_compute; reflexivity]]].
  - intros a rest H. exists (Parser.py_max a rest).
    unfold Parser.extract_total. rewrite H.
    destruct (py_max_spec rest a) as [Hin Hmax]. now repeat split.
  - intro x. unfold Parser.primary_amounts. rewrite in_flat_map. split.
    + intros (pattern & Hp & Hx). apply in_flat_map in Hx.
      destruct Hx as (amount_str & Hs & Hx).
      exists pattern, amount_str. repeat split; try assumption.
      unfold Parser.to_amount in Hx.
      destruct (Parser.float_of_string _) as [v|]; [|contradiction].
      destruct Hx as [<-|[]]. reflexivity.
    + intros (pattern & amount_str & Hp & Hs & Hx).
      exists pattern. split; [exact Hp|]. apply in_flat_map.
      exists amount_str. split; [exact Hs|].
      unfold Parser.to_amount. rewrite Hx. now left.
  - intro H. unfold Parser.extract_total. now rewrite H.
Qed.

(** [C8], as stated, fails: a receipt with a date, a positive total, a
    merchant and items does not score 1.0 but the binary64 number just
    below it. *)
Lemma full_receipt_scores_below_one :
  Parser.signals Samples.full_receipt = (true, true, true, true)
  /\ Parser.calculate_confidence Samples.full_receipt = 0.9999999999999999%float
  /\ PyFloat.eq (Parser.calculate_confidence Samples.full_receipt) 1.0%float = false
  /\ Parser.calculate_confidence Samples.full_receipt <> 1.0%float.
Proof.
  repeat split; try (vm_compute; reflexivity).
  intro H.
  assert (E : PyFloat.eq (Parser.calculate_confidence Samples.full_receipt) 1.0%float = true)
    by (rewrite H; vm_compute; reflexivity).
  vm_compute in E. discriminate.
Qed.

(** [C8], amended: the score is the binary64 sum of the weights 0.3 (date
    found), 0.4 (total found and positive), 0.2 (merchant found) and 0.1
    (items found), added in this order and capped at 1.0.  It lies between 0
    and 1 and within 2^-53 of the exact weighted sum; with the four signals
    it is 0.9999999999999999, and a receipt lacking exactly one of the four
    signals scores strictly less, by the weight of that signal to within
    2^-52. *)
Theorem calculate_confidence_weighted_sum (p : Parser.parsed_data) :
  let d := Parser.date_found p in
  let t := Parser.total_found p in
  let m := Parser.merchant_found p in
  let i := Parser.items_found p in
  let c := Parser.calculate_confidence p in
  c = Parser.score_of d t m i
  /\ Parser.within (1 # 2 ^ 53) c (Parser.exact_score d t m i) = true
  /\ PyFloat.ge c 0%float = true
  /\ PyFloat.le c 1.0%float = true
  /\ (Parser.signals p = (true, true, true, true) ->
      c = 0.9999999999999999%float
      /\ forall q,
          let c' := Parser.calculate_confidence q in
          (Parser.signals q = (false, true, true, true) ->
           PyFloat.lt c' c = true /\ Parser.drop_within (1 # 2 ^ 52) c c' (3 # 10) = true)
          /\ (Parser.signals q = (true, false, true, true) ->
              PyFloat.lt c' c = true /\ Parser.drop_within (1 # 2 ^ 52) c c' (4 # 10) = true)
          /\ (Parser.signals q = (true, true, false, true) ->
              PyFloat.lt c' c = true /\ Parser.drop_within (1 # 2 ^ 52) c c' (2 # 10) = true)
          /\ (Parser.signals q = (true, true, true, false) ->
              PyFloat.lt c' c = true /\ Parser.drop_within (1 # 2 ^ 52) c c' (1 # 10) = true)).
Proof.
  cbv zeta. unfold Parser.calculate_confidence, Parser.signals.
  split; [reflexivity|].
  split; [|split; [|split]].
  - destruct (Parser.date_found p), (Parser.total_found p),
      (Parser.merchant_found p), (Parser.items_found p); vm_compute; reflexivity.
  - destruct (Parser.date_found p), (Parser.total_found p),
      (Parser.merchant_found p), (Parser.items_found p); vm_compute; reflexivity.
  - destruct (Parser.date_found p), (Parser.total_found p),
      (Parser.merchant_found p), (Parser.items_found p); vm_compute; reflexivity.
  - intro Hp. injection Hp as -> -> -> ->.
    split; [vm_compute; reflexivity|].
    intro q. cbv zeta.
    split; [|split; [|split]]; intro Hq; injection Hq as -> -> -> ->;
      split; vm_compute; reflexivity.
Qed.

Lemma calculate_confidence_witness :
  Parser.calculate_confidence Samples.full_receipt = 0.9999999999999999%float.
Proof.
  apply (calculate_confidence_weighted_sum Samples.full_receipt).
  vm_compute. reflexivity.
Defined.

(* ----------------------------------------------------------------- *)
(** ** Monthly aggregation and the fitted line *)

Section Statistics.

Import Numpy Prediction.
Open Scope R_scope.

Lemma sum_app (a b : list R) : sum (a ++ b) = sum a + sum b.
Proof. induction a as [|x a IH]; simpl; [lra|]. rewrite IH. lra. Qed.

Lemma bucket_sum_app (a b : DataFrame) (k : Z) :
  bucket_sum (a ++ b) k = bucket_sum a k + bucket_sum b k.
Proof. unfold bucket_sum. now rewrite filter_app, map_app, sum_app. Qed.

Lemma bucket_sum_month_rows (y m : Z) (count : nat) (amt : R) (k : Z) :
  bucket_sum (Samples.month_rows y m count amt) k
  = if Z.eqb (y * 12 + (m - 1)) k then INR count * amt else 0.
Proof.
  unfold bucket_sum, Samples.month_rows.
  induction count as [|n IH].
  - simpl. destruct (Z.eqb _ _); lra.
  - cbn [repeat filter]. unfold bucket_of at 1, PyDate.month_index at 1.
    cbn [date PyDate.year PyDate.month].
    destruct (Z.eqb (y * 12 + (m - 1)) k) eqn:E.
    + cbn [map sum fold_right amount]. fold (sum (map amount
        (filter (fun r => Z.eqb (bucket_of r) k)
           (repeat {| date := {| PyDate.year := y; PyDate.month := m; PyDate.day := 1 |};
                      amount := amt; category := "food" |} n)))).
      rewrite IH, S_INR. lra.
    + rewrite IH. reflexivity.
Qed.

Lemma std_nonneg (l : list R) : 0 <= std l.
Proof. unfold std. apply sqrt_pos. Qed.

Lemma z_score_of_config :
  z_score_of Constants.PREDICTION_CONFIG_confidence_interval = 1.96.
Proof.
  unfold z_score_of, Constants.PREDICTION_CONFIG_confidence_interval.
  destruct (Req_dec_T 0.95 0.95) as [_|Hne]; [reflexivity|]. now contradiction Hne.
Qed.

(** The least-squares line through three monthly totals. *)
Lemma fit_three (a b c : R) :
  fit (arange 3) [a; b; c]
  = {| coef := (c - a) / 2; intercept := (5 * a + 2 * b - c) / 6 |}.
Proof.
  unfold fit, arange, mean, sum. cbn [seq map combine fold_right List.length fst snd INR].
  destruct (Req_dec_T _ 0) as [E|_]; [exfalso; lra|].
  f_equal; field.
Qed.

(** Three totals on a line leave no residual. *)
Lemma residual_std_linear (a b c : R) :
  c = 2 * b - a -> residual_std [a; b; c] = 0.
Proof.
  intros ->. unfold residual_std. cbn [List.length]. rewrite fit_three.
  unfold predict, arange, std, variance, mean, sum.
  cbn [seq map combine fold_right List.length fst snd INR coef intercept].
  match goal with |- sqrt ?v = 0 => replace v with 0 by field end.
  apply sqrt_0.
Qed.

(** The residuals of three totals, from their second difference. *)
Lemma residual_std_three (a b c : R) :
  residual_std [a; b; c] = sqrt ((a - 2 * b + c) * (a - 2 * b + c) / 18).
Proof.
  unfold residual_std. cbn [List.length]. rewrite fit_three.
  unfold predict, arange, std, variance, mean, sum.
  cbn [seq map combine fold_right List.length fst snd INR coef intercept].
  f_equal. field.
Qed.

(** *** The shape of a successful forecast *)

Lemma predict_success_inv (data : DataFrame) (periods : nat) (cat : option string)
      (pts : list forecast_point) (n : nat) :
  predict_future_expenses data periods cat = Success pts n ->
  let y := monthly_amounts (filter_category data cat) in
  (Constants.PREDICTION_CONFIG_min_data_points <= List.length data)%nat
  /\ (0 < periods)%nat
  /\ n = List.length y
  /\ pts = format_from (last (buckets (filter_category data cat)) 0%Z)
                       (1.96 * residual_std y) 1 (raw_predictions y periods).
Proof.
  unfold predict_future_expenses.
  destruct (Nat.ltb_spec (List.length data) Constants.PREDICTION_CONFIG_min_data_points) as [Hlt|Hge];
    [discriminate|].
  destruct (buckets (filter_category data cat)) eqn:Eb; [discriminate|].
  destruct periods as [|k]; [discriminate|].
  rewrite z_score_of_config. intro H. injection H as <- <-.
  repeat split; [exact Hge|lia].
Qed.

Lemma predict_success (data : DataFrame) (periods : nat) (cat : option string) :
  (Constants.PREDICTION_CONFIG_min_data_points <= List.length data)%nat ->
  buckets (filter_category data cat) <> [] ->
  (0 < periods)%nat ->
  let y := monthly_amounts (filter_category data cat) in
  predict_future_expenses data periods cat
  = Success (format_from (last (buckets (filter_category data cat)) 0%Z)
                         (1.96 * residual_std y) 1 (raw_predictions y periods))
            (List.length y).
Proof.
  intros Hlen Hb Hp. unfold predict_future_expenses.
  destruct (Nat.ltb_spec (List.length data) Constants.PREDICTION_CONFIG_min_data_points) as [Hlt|Hge]; [lia|].
  destruct (buckets (filter_category data cat)) eqn:Eb; [contradiction|].
  destruct periods as [|k]; [lia|].
  rewrite z_score_of_config. reflexivity.
Qed.

Lemma format_from_length (base : Z) (margin : R) (preds : list R) (i : nat) :
  List.length (format_from base margin i preds) = List.length preds.
Proof.
  revert i; induction preds as [|x preds IH]; intro i; simpl; [reflexivity|].
  now rewrite IH.
Qed.

Lemma format_from_nth (base : Z) (margin : R) (preds : list R) (i k : nat)
      (d : forecast_point) :
  (k < List.length preds)%nat ->
  nth k (format_from base margin i preds) d
  = format_point base margin (i + k) (nth k preds 0).
Proof.
  revert i k; induction preds as [|x preds IH]; intros i k Hk; simpl in Hk; [lia|].
  destruct k as [|k]; simpl.
  - now rewrite Nat.add_0_r.
  - rewrite IH by lia. f_equal. lia.
Qed.

Lemma format_from_In (base : Z) (margin : R) (preds : list R) (i : nat)
      (p : forecast_point) :
  In p (format_from base margin i preds) ->
  exists k pred, p = format_point base margin k pred.
Proof.
  revert i; induction preds as [|x preds IH]; intros i H; simpl in H; [contradiction|].
  destruct H as [<-|H]; [now exists i, x|]. now apply (IH (S i)).
Qed.

Lemma raw_predictions_length (y : list R) (periods : nat) :
  List.length (raw_predictions y periods) = periods.
Proof.
  unfold raw_predictions, predict, future_months.
  now rewrite !length_map, length_seq.
Qed.

Lemma raw_predictions_nth (y : list R) (periods k : nat) :
  (k < periods)%nat ->
  nth k (raw_predictions y periods) 0
  = coef (fit (arange (List.length y)) y) * INR (List.length y + (k + 1))
    + intercept (fit (arange (List.length y)) y).
Proof.
  intro Hk. unfold raw_predictions, predict, future_months.
  set (m := fit (arange (List.length y)) y).
  rewrite map_map.
  set (f := fun i : nat => coef m * INR (List.length y + i) + intercept m).
  rewrite (nth_indep _ 0 (f 0%nat)) by (now rewrite length_map, length_seq).
  rewrite (map_nth f), seq_nth by exact Hk.
  unfold f. replace (1 + k)%nat with (k + 1)%nat by lia. reflexivity.
Qed.

(** *** The sample series *)

Lemma rising_buckets :
  buckets Samples.rising_series = [24288; 24289; 24290]%Z.
Proof. vm_compute. reflexivity. Qed.

Lemma bent_buckets :
  buckets Samples.bent_series = [24288; 24289; 24290]%Z.
Proof. vm_compute. reflexivity. Qed.

Lemma falling_buckets :
  buckets Samples.falling_series = [24288; 24289; 24290]%Z.
Proof. vm_compute. reflexivity. Qed.

Lemma two_month_buckets :
  buckets Samples.two_month_series = [24288; 24289]%Z.
Proof. vm_compute. reflexivity. Qed.

Ltac month_sums :=
  cbn [map]; unfold Samples.rising_series, Samples.falling_series, Samples.bent_series,
    Samples.two_month_series;
  rewrite ?bucket_sum_app, ?bucket_sum_month_rows;
  repeat match goal with
         | |- context [Z.eqb ?a ?b] =>
             let v := eval vm_compute in (Z.eqb a b) in
             change (Z.eqb a b) with v
         end;
  cbv iota; cbn [INR]; repeat f_equal; lra.

Lemma rising_monthly :
  monthly_amounts Samples.rising_series = [100; 200; 300].
Proof. unfold monthly_amounts. rewrite rising_buckets. month_sums. Qed.

Lemma bent_monthly :
  monthly_amounts Samples.bent_series = [100; 200; 400].
Proof. unfold monthly_amounts. rewrite bent_buckets. month_sums. Qed.

Lemma falling_monthly :
  monthly_amounts Samples.falling_series = [300; 200; 100].
Proof. unfold monthly_amounts. rewrite falling_buckets. month_sums. Qed.

(** The first forecast point of a frame of three months whose totals lie
    on a line: the line continued to month index 4, with no margin. *)
Lemma first_point_of_linear_series (data : DataFrame) (b0 b1 b2 : Z) (a b c : R) :
  (Constants.PREDICTION_CONFIG_min_data_points <= List.length data)%nat ->
  buckets data = [b0; b1; b2] ->
  monthly_amounts data = [a; b; c] ->
  c = 2 * b - a ->
  exists pts,
    predict_future_expenses data 3 None = Success pts 3
    /\ nth 0 pts Samples.no_point
       = format_point b2 0 1 ((c - a) / 2 * 4 + (5 * a + 2 * b - c) / 6).
Proof.
  intros Hlen Hb Hy Hlin.
  pose proof (predict_success data 3 None Hlen) as H.
  cbn [filter_category] in H. rewrite Hb, Hy in H.
  specialize (H ltac:(discriminate) ltac:(lia)). cbv zeta in H.
  eexists. split; [exact H|].
  rewrite format_from_nth by (rewrite raw_predictions_length; lia).
  rewrite raw_predictions_nth by lia.
  rewrite residual_std_linear by exact Hlin.
  cbn [List.length last]. rewrite fit_three. cbn [coef intercept Nat.add INR].
  f_equal; lra.
Qed.

End Statistics.

(* ----------------------------------------------------------------- *)
(** ** The forecast *)

(** [C1], as stated, fails: on thirty records whose monthly totals are 100,
    200, 300 the first forecast point is 500 with both bounds at 500, not
    500 with a margin of 1.96 * 0.1 * 500. *)
Lemma rising_forecast_has_no_margin :
  exists pts,
    Prediction.predict_future_expenses Samples.rising_series 3 None
    = Prediction.Success pts 3
    /\ (let p := nth 0 pts Samples.no_point in
        Prediction.predicted_amount p = 500
        /\ Prediction.lower_bound p = 500
        /\ Prediction.upper_bound p = 500
        /\ Prediction.upper_bound p
           <> Prediction.predicted_amount p
              + 1.96 * (0.1 * Prediction.predicted_amount p)
        /\ Prediction.lower_bound p
           <> Rmax 0 (Prediction.predicted_amount p
                      - 1.96 * (0.1 * Prediction.predicted_amount p)))%R.
Proof.
  destruct (first_point_of_linear_series Samples.rising_series
              24288 24289 24290 100 200 300) as (pts & Hpts & Hp).
  - apply Nat.leb_le. vm_compute. reflexivity.
  - apply rising_buckets.
  - apply rising_monthly.
  - lra.
  - exists pts. split; [exact Hpts|]. cbv zeta. rewrite Hp.
    unfold Prediction.format_point.
    cbn [Prediction.predicted_amount Prediction.lower_bound Prediction.upper_bound].
    replace ((300 - 100) / 2 * 4 + (5 * 100 + 2 * 200 - 300) / 6)%R with 500%R by lra.
    replace (500 - 0)%R with 500%R by lra.
    rewrite Rmax_right by lra.
    repeat split; try lra.
    rewrite Rmax_right by lra. lra.
Qed.

(** [C1], amended: every forecast point of a successful call has the same
    margin, 1.96 times the population standard deviation of the residuals
    of the fitted line on the observed months, not a function of the
    predicted value.  The predicted amount is the output of the regression
    for the point, clamped at 0; the lower bound is max(0, predicted amount
    - margin), and the upper bound is predicted amount + margin whenever
    the predicted amount is above 0. *)
Theorem forecast_margin_is_residual_based
        (data : Prediction.DataFrame) (periods : nat) (cat : option string)
        (pts : list Prediction.forecast_point) (n : nat) :
  Prediction.predict_future_expenses data periods cat = Prediction.Success pts n ->
  let y := Prediction.monthly_amounts (Prediction.filter_category data cat) in
  let line := Numpy.fit (Numpy.arange (List.length y)) y in
  let residuals :=
    map (fun p => fst p - snd p)%R
        (combine y (Numpy.predict line (Numpy.arange (List.length y)))) in
  let margin := (1.96 * Numpy.std residuals)%R in
  (0 <= margin)%R
  /\ List.length pts = periods
  /\ forall i, i < periods ->
       let p := nth i pts Samples.no_point in
       Prediction.predicted_amount p
       = Rmax 0 (nth i (Prediction.raw_predictions y periods) 0%R)
       /\ Prediction.lower_bound p = Rmax 0 (Prediction.predicted_amount p - margin)
       /\ ((0 < Prediction.predicted_amount p)%R ->
           Prediction.upper_bound p = (Prediction.predicted_amount p + margin)%R)
       /\ Prediction.confidence p = 0.95%R.
Proof.
  intro H. apply predict_success_inv in H. cbv zeta in *.
  destruct H as (Hlen & Hper & -> & ->).
  fold (Prediction.residual_std
          (Prediction.monthly_amounts (Prediction.filter_category data cat))).
  set (y := Prediction.monthly_amounts (Prediction.filter_category data cat)).
  assert (Hm : (0 <= 1.96 * Prediction.residual_std y)%R)
    by (apply Rmult_le_pos; [lra|apply std_nonneg]).
  split; [exact Hm|]. split.
  - now rewrite format_from_length, raw_predictions_length.
  - intros i Hi.
    rewrite format_from_nth by (now rewrite raw_predictions_length).
    set (pred := nth i (Prediction.raw_predictions y periods) 0%R).
    unfold Prediction.format_point.
    cbn [Prediction.predicted_amount Prediction.lower_bound
         Prediction.upper_bound Prediction.confidence].
    split; [reflexivity|]. split; [|split; [|reflexivity]].
    + destruct (Rle_lt_dec 0 pred) as [Hpos|Hneg].
      * now rewrite (Rmax_right 0 pred Hpos).
      * rewrite (Rmax_left 0 pred) by lra.
        rewrite !Rmax_left by lra. reflexivity.
    + intro Hp. destruct (Rle_lt_dec pred 0) as [Hneg|Hpos].
      * rewrite (Rmax_left 0 pred Hneg) in Hp. lra.
      * rewrite (Rmax_right 0 pred) by lra. reflexivity.
Qed.

(** On the monthly totals 100, 200, 400 the residuals are 50/3, -100/3 and
    50/3: the first point is predicted above 0, and its bounds lie
    1.96 * sqrt (5000 / 9) below and above it. *)
Lemma forecast_margin_witness :
  exists pts,
    Prediction.predict_future_expenses Samples.bent_series 3 None
    = Prediction.Success pts 3
    /\ (let p := nth 0 pts Samples.no_point in
        let margin := 1.96 * sqrt (5000 / 9) in
        0 < margin
        /\ 0 < Prediction.predicted_amount p
        /\ Prediction.lower_bound p = Rmax 0 (Prediction.predicted_amount p - margin)
        /\ Prediction.upper_bound p = Prediction.predicted_amount p + margin)%R.
Proof.
  assert (Hex : exists pts,
             Prediction.predict_future_expenses Samples.bent_series 3 None
             = Prediction.Success pts 3).
  { eexists. rewrite predict_success.
    - cbn [Prediction.filter_category]. rewrite bent_monthly. reflexivity.
    - apply Nat.leb_le. vm_compute. reflexivity.
    - cbn [Prediction.filter_category]. rewrite bent_buckets. discriminate.
    - lia. }
  destruct Hex as [pts Hok]. exists pts. split; [exact Hok|].
  destruct (forecast_margin_is_residual_based Samples.bent_series 3 None pts 3 Hok)
    as (_ & _ & Hpts).
  specialize (Hpts 0 ltac:(lia)). cbv zeta in Hpts.
  destruct Hpts as (Hpred & Hlow & Hup & _).
  cbn [Prediction.filter_category] in *. rewrite bent_monthly in *.
  fold (Prediction.residual_std [100; 200; 400]%R) in Hlow, Hup.
  rewrite residual_std_three in Hlow, Hup.
  replace ((100 - 2 * 200 + 400) * (100 - 2 * 200 + 400) / 18)%R
    with (5000 / 9)%R in Hlow, Hup by field.
  rewrite raw_predictions_nth in Hpred by lia.
  cbn [List.length] in Hpred. rewrite fit_three in Hpred.
  cbn [Numpy.coef Numpy.intercept Nat.add INR] in Hpred.
  replace ((400 - 100) / 2 * (1 + 1 + 1 + 1) + (5 * 100 + 2 * 200 - 400) / 6)%R
    with (2050 / 3)%R in Hpred by field.
  rewrite Rmax_right in Hpred by lra.
  cbv zeta.
  assert (Hs : (0 < sqrt (5000 / 9))%R) by (apply sqrt_lt_R0; lra).
  split; [lra|]. split; [rewrite Hpred; lra|]. split; [exact Hlow|].
  apply Hup. rewrite Hpred. lra.
Defined.

(** [C2] On every successful call the predicted amount and the lower bound
    of every point are non-negative, but the upper bound is at least the
    lower bound only when the upper bound is itself non-negative; on thirty
    records whose monthly totals fall 300, 200, 100 the first point has
    predicted amount 0, lower bound 0 and upper bound -100. *)
Theorem forecast_upper_bound_below_lower :
  (forall data periods cat pts n,
      Prediction.predict_future_expenses data periods cat = Prediction.Success pts n ->
      forall p, In p pts ->
        (0 <= Prediction.predicted_amount p
         /\ 0 <= Prediction.lower_bound p
         /\ (Prediction.lower_bound p <= Prediction.upper_bound p
             <-> 0 <= Prediction.upper_bound p))%R)
  /\ exists pts,
      Prediction.predict_future_expenses Samples.falling_series 3 None
      = Prediction.Success pts 3
      /\ (let p := nth 0 pts Samples.no_point in
          Prediction.predicted_amount p = 0
          /\ Prediction.lower_bound p = 0
          /\ Prediction.upper_bound p = -100
          /\ Prediction.upper_bound p < Prediction.lower_bound p)%R.
Proof.
  split.
  - intros data periods cat pts n H p Hp.
    apply predict_success_inv in H. cbv zeta in H.
    destruct H as (_ & _ & _ & ->).
    apply format_from_In in Hp. destruct Hp as (k & pred & ->).
    unfold Prediction.format_point. cbn.
    set (margin := (1.96 * _)%R).
    assert (Hm : (0 <= margin)%R)
      by (apply Rmult_le_pos; [lra|apply std_nonneg]).
    repeat split; try apply Rmax_l.
    + intro Hle. eapply Rle_trans; [apply Rmax_l|exact Hle].
    + intro Hup. apply Rmax_lub; lra.
  - destruct (first_point_of_linear_series Samples.falling_series
                24288 24289 24290 300 200 100) as (pts & Hpts & Hp).
    + apply Nat.leb_le. vm_compute. reflexivity.
    + apply falling_buckets.
    + apply falling_monthly.
    + lra.
    + exists pts. split; [exact Hpts|]. cbv zeta. rewrite Hp.
      unfold Prediction.format_point.
      cbn [Prediction.predicted_amount Prediction.lower_bound Prediction.upper_bound].
      replace ((100 - 300) / 2 * 4 + (5 * 300 + 2 * 200 - 100) / 6)%R
        with (-100)%R by lra.
      rewrite !Rmax_left by lra. repeat split; lra.
Qed.

(* ----------------------------------------------------------------- *)
(** ** The trend *)

Lemma classify_slope_cases (slope : float) :
  (Prediction.classify_slope slope = "increasing"%string
   <-> PyFloat.gt slope 10%float = true)
  /\ (Prediction.classify_slope slope = "decreasing"%string
      <-> PyFloat.lt slope (-10)%float = true)
  /\ (Prediction.classify_slope slope = "stable"%string
      <-> PyFloat.gt slope 10%float = false /\ PyFloat.lt slope (-10)%float = false).
Proof.
  assert (Hex : PyFloat.lt slope (-10)%float = true -> PyFloat.gt slope 10%float = false).
  { intro H. unfold PyFloat.gt. apply (lt_asym slope 10%float).
    apply (lt_trans slope (-10)%float 10%float H). vm_compute. reflexivity. }
  unfold Prediction.classify_slope.
  destruct (PyFloat.gt slope 10%float) eqn:Hgt;
    [|destruct (PyFloat.lt slope (-10)%float) eqn:Hlt].
  - split; [tauto|]. split; split; try discriminate.
    + intro H. apply Hex in H. congruence.
    + intros [H _]. discriminate.
  - split; [split; discriminate|]. split; [tauto|].
    split; [discriminate|]. intros [_ H]. discriminate.
  - split; [split; discriminate|]. split; [split; discriminate|tauto].
Qed.

(** [C3], as stated, fails: a frame whose dates fall into two calendar
    months, fewer than three buckets, gets a trend classification, whatever
    slope the regression returns. *)
Lemma two_months_are_classified :
  List.length (Prediction.buckets Samples.two_month_series) = 2
  /\ ~ (exists coef_ : Prediction.regression,
          Prediction.detect_trend coef_ Samples.two_month_series
          = Prediction.InsufficientData).
Proof.
  split; [now rewrite two_month_buckets|].
  intros (coef_ & H).
  unfold Prediction.detect_trend, Prediction.monthly_amounts in H.
  rewrite length_map, two_month_buckets in H. discriminate.
Qed.

(** [C3], amended: with fewer than 2 calendar-month buckets [detect_trend]
    reports insufficient data; with at least 2 it reports the slope of the
    regression, a binary64 value, classified as increasing exactly when it
    exceeds 10, decreasing exactly when it is below -10 and stable
    otherwise, so that a slope equal to 10 is stable. *)
Theorem detect_trend_needs_two_buckets
        (coef_ : Prediction.regression) (data : Prediction.DataFrame) :
  let n := List.length (Prediction.buckets data) in
  let slope := coef_ data in
  (n < 2 -> Prediction.detect_trend coef_ data = Prediction.InsufficientData)
  /\ (2 <= n ->
      exists label,
        Prediction.detect_trend coef_ data = Prediction.Trend label slope
        /\ (label = "increasing"%string <-> PyFloat.gt slope 10%float = true)
        /\ (label = "decreasing"%string <-> PyFloat.lt slope (-10)%float = true)
        /\ (label = "stable"%string
            <-> PyFloat.gt slope 10%float = false
                /\ PyFloat.lt slope (-10)%float = false)
        /\ (slope = 10%float -> label = "stable"%string)).
Proof.
  cbv zeta.
  assert (Hn : List.length (Prediction.monthly_amounts data)
               = List.length (Prediction.buckets data))
    by (unfold Prediction.monthly_amounts; apply length_map).
  split.
  - intro Hlt. unfold Prediction.detect_trend. rewrite Hn.
    destruct (Nat.ltb_spec (List.length (Prediction.buckets data)) 2); [reflexivity|lia].
  - intro Hge. exists (Prediction.classify_slope (coef_ data)).
    destruct (classify_slope_cases (coef_ data)) as (Hi & Hd & Hs).
    split; [|split; [exact Hi|split; [exact Hd|split; [exact Hs|]]]].
    + unfold Prediction.detect_trend. rewrite Hn.
      destruct (Nat.ltb_spec (List.length (Prediction.buckets data)) 2); [lia|reflexivity].
    + intro H10. apply Hs. rewrite H10. split; vm_compute; reflexivity.
Qed.

(** Two months, with a regression that answers 100. *)
Lemma detect_trend_witness :
  Prediction.detect_trend (fun _ => 100%float) Samples.two_month_series
  = Prediction.Trend "increasing" 100%float.
Proof.
  destruct (proj2 (detect_trend_needs_two_buckets
                     (fun _ => 100%float) Samples.two_month_series))
    as (label & H & Hinc & _).
  - rewrite two_month_buckets. simpl. lia.
  - rewrite H. f_equal. apply Hinc. vm_compute. reflexivity.
Defined.

(* ----------------------------------------------------------------- *)
(** ** The anomaly detector *)

Section Anomalies.

Import Analytics.

Lemma insert_desc_perm (a : anomaly) (l : list anomaly) :
  Permutation (insert_desc a l) (a :: l).
Proof.
  induction l as [|b l IH]; simpl; [reflexivity|].
  destruct (PyFloat.lt (z_score a) (z_score b)); [|reflexivity].
  rewrite IH. apply perm_swap.
Qed.

Lemma sort_desc_perm (l : list anomaly) : Permutation (sort_desc l) l.
Proof.
  induction l as [|a l IH]; simpl; [reflexivity|].
  rewrite insert_desc_perm. now constructor.
Qed.

Lemma insert_desc_sorted (a : anomaly) (l : list anomaly) :
  is_number a -> Forall is_number l ->
  StronglySorted by_z_desc l -> StronglySorted by_z_desc (insert_desc a l).
Proof.
  intros Ha Hl. induction l as [|b l IH]; intro Hs; simpl.
  - repeat constructor.
  - inversion Hs as [|? ? Hsl Hb]; subst.
    inversion Hl as [|? ? Hnb Hnl]; subst.
    destruct (PyFloat.lt (z_score a) (z_score b)) eqn:Hlt.
    + constructor; [now apply IH|].
      rewrite Forall_forall. intros x Hx.
      apply (Permutation_in _ (insert_desc_perm a l)) in Hx.
      destruct Hx as [<-|Hx]; [now apply lt_le|].
      rewrite Forall_forall in Hb. now apply Hb.
    + assert (Hba : by_z_desc a b) by (now apply not_lt_le).
      constructor; [exact Hs|].
      constructor; [exact Hba|].
      rewrite Forall_forall in Hb |- *. intros x Hx.
      specialize (Hb x Hx). unfold by_z_desc in *.
      now apply (le_trans _ (z_score b)).
Qed.

Lemma sort_desc_sorted (l : list anomaly) :
  Forall is_number l -> StronglySorted by_z_desc (sort_desc l).
Proof.
  induction l as [|a l IH]; intro H; simpl; [constructor|].
  inversion H as [|? ? Ha Hl]; subst.
  apply insert_desc_sorted; [exact Ha| |now apply IH].
  rewrite Forall_forall in Hl |- *. intros x Hx. apply Hl.
  now apply (Permutation_in _ (sort_desc_perm l)).
Qed.

(** A z-score above the threshold is a number, not NaN. *)
Lemma collect_numbers (mean std threshold : float) (expenses : list expense) :
  Forall is_number (collect mean std threshold expenses).
Proof.
  unfold collect. rewrite Forall_forall. intros a Ha.
  apply in_map_iff in Ha. destruct Ha as (e & <- & He).
  apply filter_In in He. destruct He as [_ Hz].
  unfold exceeds, PyFloat.gt in Hz.
  now destruct (lt_is_number _ _ Hz) as [_ H].
Qed.

Lemma firstn_sorted (l : list anomaly) (k : nat) :
  StronglySorted by_z_desc l -> StronglySorted by_z_desc (firstn k l).
Proof.
  revert k. induction l as [|a l IH]; intros k Hs; destruct k; simpl; try constructor.
  - inversion Hs; subst. now apply IH.
  - inversion Hs as [|? ? _ Hall]; subst.
    rewrite Forall_forall in Hall |- *. intros x Hx. apply Hall.
    revert Hx. clear. revert k. induction l as [|b l IHl]; intros [|k] Hx; simpl in Hx;
      try contradiction.
    destruct Hx as [<-|Hx]; [now left|right; now apply (IHl k)].
Qed.

(** The halving of [pairwise_sum] never runs out of fuel. *)
Lemma pairwise_sum_fuel (f1 f2 : nat) (a : list float) :
  List.length a <= f1 -> List.length a <= f2 ->
  Np64.pairwise_sum f1 a = Np64.pairwise_sum f2 a.
Proof.
  revert f2 a. induction f1 as [|f1 IH]; intros f2 a H1 H2.
  - destruct a; [|cbn in H1; lia]. now destruct f2.
  - destruct f2 as [|f2].
    + destruct a; [reflexivity|cbn in H2; lia].
    + cbn [Np64.pairwise_sum].
      destruct (Nat.ltb_spec (List.length a) 8) as [|H8]; [reflexivity|].
      destruct (Nat.leb_spec (List.length a) 128) as [|H128]; [reflexivity|].
      set (n := List.length a) in *.
      assert (Hn2 : 64 <= n / 2 - (n / 2) mod 8 < n).
      { pose proof (Nat.Div0.div_mod n 2). pose proof (Nat.mod_upper_bound n 2).
        pose proof (Nat.Div0.div_mod (n / 2) 8).
        pose proof (Nat.mod_upper_bound (n / 2) 8). lia. }
      f_equal; apply IH.
      * rewrite length_firstn. fold n. lia.
      * rewrite length_firstn. fold n. lia.
      * rewrite length_skipn. fold n. lia.
      * rewrite length_skipn. fold n. lia.
Qed.

End Anomalies.

(** [C7], as stated, fails on the binary64 values the code decides on.
    Twelve expenses of 19.99 have, in exact arithmetic, the deviation 0, but
    [np.std] returns 3.55e-15 and every z-score is 1.0: at the threshold 0.5
    all twelve are reported.  Nine expenses of 15.75 and one of 1575.0 give
    the last one the z-score 3 in exact arithmetic, which does not exceed
    the threshold 3.0, but the code computes 3.0000000000000004 and reports
    it. *)
Lemma identical_amounts_are_flagged :
  let amounts := map Analytics.amount (Analytics.query_expenses Samples.identical_db 1) in
  let edge := map Analytics.amount (Analytics.query_expenses Samples.boundary_db 1) in
  (amounts = repeat 19.99%float 12
   /\ (exists qs, Analytics.exact_values amounts = Some qs
                  /\ (Analytics.exact_variance qs == 0)%Q)
   /\ Np64.std amounts = 3.552713678800501e-15%float
   /\ PyFloat.eq (Np64.std amounts) 0 = false
   /\ map Analytics.z_score
          (Analytics.detect_anomalies Samples.identical_db 1 (Some 0.5%float))
      = repeat 1%float 12)
  /\ ((exists qs, Analytics.exact_values edge = Some qs
                  /\ ((1575 - Analytics.exact_mean qs) * (1575 - Analytics.exact_mean qs)
                      == 3 * 3 * Analytics.exact_variance qs)%Q)
      /\ map (fun a => (Analytics.expense_id a, Analytics.z_score a))
             (Analytics.detect_anomalies Samples.boundary_db 1 None)
         = [(10, 3.0000000000000004%float)]).
Proof.
  cbv zeta. split; [split; [|split; [|split; [|split]]]|split].
  - vm_compute. reflexivity.
  - eexists. split; [vm_compute; reflexivity|]. vm_compute. reflexivity.
  - vm_compute. reflexivity.
  - vm_compute. reflexivity.
  - vm_compute. reflexivity.
  - eexists. split; [vm_compute; reflexivity|]. vm_compute. reflexivity.
  - vm_compute. reflexivity.
Qed.

(** [C7], amended: [detect_anomalies] returns the empty list when the user
    has fewer than 10 expenses or the binary64 value of [np.std] of the
    amounts equals 0.  Otherwise the result is the first 20 entries of a
    ranking that holds exactly the expenses whose z-score
    [abs((amount - mean) / std)], computed in binary64 from [np.mean] and
    [np.std], is above the threshold (3.0 when none is given), greatest
    z-score first. *)
Theorem detect_anomalies_ranks_outliers
        (db : list Analytics.expense) (uid : nat) (threshold : option float) :
  let expenses := Analytics.query_expenses db uid in
  let limit := match threshold with Some t => t | None => 3.0%float end in
  let amounts := map Analytics.amount expenses in
  let mean := Np64.mean amounts in
  let std := Np64.std amounts in
  let z := fun e => PrimFloat.abs ((Analytics.amount e - mean) / std)%float in
  let result := Analytics.detect_anomalies db uid threshold in
  (List.length expenses < 10 \/ PyFloat.eq std 0 = true -> result = [])
  /\ (10 <= List.length expenses -> PyFloat.eq std 0 = false ->
      exists ranked,
        result = firstn 20 ranked
        /\ Permutation ranked
             (map (Analytics.to_anomaly mean std)
                  (filter (fun e => PyFloat.gt (z e) limit) expenses))
        /\ StronglySorted Analytics.by_z_desc ranked
        /\ (forall a, In a ranked <->
              exists e, In e expenses /\ PyFloat.gt (z e) limit = true
                        /\ a = Analytics.to_anomaly mean std e)
        /\ (forall e, In e expenses ->
              Analytics.z_score (Analytics.to_anomaly mean std e) = z e))
  /\ List.length result <= 20
  /\ StronglySorted Analytics.by_z_desc result.
Proof.
  cbv zeta.
  set (expenses := Analytics.query_expenses db uid).
  set (limit := match threshold with Some t => t | None => 3.0%float end).
  set (mean := Np64.mean (map Analytics.amount expenses)).
  set (std := Np64.std (map Analytics.amount expenses)).
  assert (Hdef : Analytics.detect_anomalies db uid threshold
                 = if (List.length expenses <? 10)%nat then []
                   else if PyFloat.eq std 0 then []
                        else firstn 20 (Analytics.sort_desc
                               (Analytics.collect mean std limit expenses))).
  { unfold Analytics.detect_anomalies, Constants.ANOMALY_THRESHOLDS_z_score.
    fold expenses. fold mean. fold std. unfold limit.
    destruct threshold; reflexivity. }
  rewrite Hdef. split; [|split; [|split]].
  - intros [Hlt|H0].
    + destruct (Nat.ltb_spec (List.length expenses) 10); [reflexivity|lia].
    + destruct (List.length expenses <? 10)%nat; [reflexivity|].
      now rewrite H0.
  - intros Hlen Hne.
    destruct (Nat.ltb_spec (List.length expenses) 10); [lia|].
    rewrite Hne.
    exists (Analytics.sort_desc (Analytics.collect mean std limit expenses)).
    split; [reflexivity|]. split; [apply sort_desc_perm|].
    split; [apply sort_desc_sorted, collect_numbers|]. split.
    + intro a. split.
      * intro Ha. apply (Permutation_in _ (sort_desc_perm _)) in Ha.
        unfold Analytics.collect in Ha. apply in_map_iff in Ha.
        destruct Ha as (e & <- & He). apply filter_In in He.
        destruct He as [He Hz]. now exists e.
      * intros (e & He & Hz & ->).
        apply (Permutation_in _ (Permutation_sym (sort_desc_perm _))).
        unfold Analytics.collect. apply in_map. apply filter_In. now split.
    + intros e _. reflexivity.
  - destruct (List.length expenses <? 10)%nat; [simpl; lia|].
    destruct (PyFloat.eq std 0); [simpl; lia|]. apply firstn_le_length.
  - destruct (List.length expenses <? 10)%nat; [constructor|].
    destruct (PyFloat.eq std 0); [constructor|].
    apply firstn_sorted, sort_desc_sorted, collect_numbers.
Qed.

(** On ten expenses of 10 and one of 1000 the ranking is that one expense,
    with the z-score 3.1622776601683795. *)
Lemma detect_anomalies_witness :
  exists ranked,
    Analytics.detect_anomalies Samples.outlier_db 1 None = firstn 20 ranked
    /\ map (fun a => (Analytics.expense_id a, Analytics.z_score a)) ranked
       = [(12, 3.1622776601683795%float)].
Proof.
  destruct (proj1 (proj2 (detect_anomalies_ranks_outliers Samples.outlier_db 1 None)))
    as (ranked & Hres & Hperm & _).
  - apply Nat.leb_le. vm_compute. reflexivity.
  - vm_compute. reflexivity.
  - exists ranked. split; [exact Hres|].
    assert (Hone : map (Analytics.to_anomaly
                          (Np64.mean (map Analytics.amount
                                        (Analytics.query_expenses Samples.outlier_db 1)))
                          (Np64.std (map Analytics.amount
                                       (Analytics.query_expenses Samples.outlier_db 1))))
                       (filter (fun e =>
                                  PyFloat.gt
                                    (PrimFloat.abs
                                       ((Analytics.amount e
                                         - Np64.mean (map Analytics.amount
                                             (Analytics.query_expenses Samples.outlier_db 1)))
                                        / Np64.std (map Analytics.amount
                                            (Analytics.query_expenses Samples.outlier_db 1)))%float)
                                    3.0%float)
                               (Analytics.query_expenses Samples.outlier_db 1))
                   = [Analytics.to_anomaly 100%float 284.60498941515414%float
                        (Samples.expense_of 12 1 1000%float)])
      by (vm_compute; reflexivity).
    rewrite Hone in Hperm. apply Permutation_sym, Permutation_length_1_inv in Hperm.
    rewrite Hperm. vm_compute. reflexivity.
Defined.

(* ----------------------------------------------------------------- *)
(** ** Scenarios *)

Example rules_walmart :
  Classifier._classify_by_rules "walmart" = ("food"%string, 1.0%float).
Proof. vm_compute. reflexivity. Qed.

Example walmart_receipt_fields :
  Parser.extract_merchant Samples.walmart_receipt = Some "WALMART"%string
  /\ Parser.extract_total Samples.walmart_receipt = Some (11 # 2)%Q.
Proof. split; vm_compute; reflexivity. Qed.

Example too_few_records :
  Prediction.predict_future_expenses Samples.two_month_series 3 None
  = Prediction.Failure "Insufficient data. Need at least 30 records.".
Proof. reflexivity. Qed.

(* ================================================================= *)
(** * Further properties *)

(* ----------------------------------------------------------------- *)
(** ** Strings *)

Section StringFacts.

Import PyStr.

Lemma map_chars_length (f : ascii -> ascii) (s : string) :
  String.length (map_chars f s) = String.length s.
Proof. induction s as [|c s IH]; simpl; [reflexivity|]. now rewrite IH. Qed.

Lemma prefix_length (a b : string) :
  String.prefix a b = true -> String.length a <= String.length b.
Proof.
  revert b; induction a as [|c a IH]; intros b H; simpl; [lia|].
  destruct b as [|d b]; simpl in H; [discriminate|].
  destruct (Ascii.ascii_dec c d); [|discriminate].
  simpl. specialize (IH b H). lia.
Qed.

Lemma contains_length (needle hay : string) :
  contains needle hay = true -> String.length needle <= String.length hay.
Proof.
  induction hay as [|c hay IH]; cbn [contains]; intro H.
  - apply orb_true_iff in H. destruct H as [H|H]; [|discriminate].
    now apply prefix_length in H.
  - apply orb_true_iff in H. destruct H as [H|H].
    + apply prefix_length in H. exact H.
    + specialize (IH H). simpl. lia.
Qed.

(** A stripped text does not start with a blank. *)
Lemma lstrip_head (s : string) (c : ascii) (r : string) :
  lstrip s = String c r -> is_space c = false.
Proof.
  induction s as [|d s IH]; simpl; [discriminate|].
  destruct (is_space d) eqn:E; [exact IH|].
  intro H. injection H as <- _. exact E.
Qed.

Lemma rstrip_head (s : string) (c : ascii) (r : string) :
  rstrip s = String c r -> exists r', s = String c r'.
Proof.
  destruct s as [|d s]; simpl; [discriminate|].
  destruct (rstrip s); [destruct (is_space d); [discriminate|]|];
    intro H; injection H as <- _; now eexists.
Qed.

Lemma strip_head (s : string) (c : ascii) (r : string) :
  strip s = String c r -> is_space c = false.
Proof.
  unfold strip. intro H. apply rstrip_head in H. destruct H as [r' H].
  now apply lstrip_head in H.
Qed.

Lemma rstrip_solid_head (c : ascii) (s : string) :
  is_space c = false -> exists r, rstrip (String c s) = String c r.
Proof.
  intro Hc. simpl. destruct (rstrip s); [rewrite Hc|]; now eexists.
Qed.

Lemma rstrip_idempotent (s : string) : rstrip (rstrip s) = rstrip s.
Proof.
  induction s as [|c s IH]; simpl; [reflexivity|].
  destruct (rstrip s) as [|d r] eqn:E.
  - destruct (is_space c) eqn:Ec; simpl; [reflexivity|]. now rewrite Ec.
  - simpl. simpl in IH. destruct (rstrip r) as [|e r'] eqn:Er.
    + destruct (is_space d); [discriminate|]. injection IH as ->. reflexivity.
    + now rewrite IH.
Qed.

(** Stripping a text that starts with a solid character keeps that
    character, and stripping twice changes nothing more. *)
Lemma strip_solid_head (c : ascii) (s : string) :
  is_space c = false ->
  exists r, strip (String c s) = String c r
            /\ strip (String c r) = String c r.
Proof.
  intro Hc. unfold strip. cbn [lstrip]. rewrite Hc.
  destruct (rstrip_solid_head c s Hc) as [r Hr]. exists r. split; [exact Hr|].
  rewrite <- Hr. apply rstrip_idempotent.
Qed.

End StringFacts.

(* ----------------------------------------------------------------- *)
(** ** The payment method *)

Lemma find_first {A : Type} (f : A -> bool) (l : list A) (x : A) :
  find f l = Some x ->
  exists before after,
    l = before ++ x :: after /\ f x = true
    /\ forall y, In y before -> f y = false.
Proof.
  induction l as [|a l IH]; simpl; [discriminate|].
  destruct (f a) eqn:E.
  - intro H. injection H as <-. exists [], l. repeat split; [exact E|contradiction].
  - intro H. destruct (IH H) as (before & after & -> & Hx & Hb).
    exists (a :: before), after. repeat split; [exact Hx|].
    intros y [<-|Hy]; [exact E|now apply Hb].
Qed.

Lemma find_nothing {A : Type} (f : A -> bool) (l : list A) :
  find f l = None <-> forall y, In y l -> f y = false.
Proof.
  induction l as [|a l IH]; simpl.
  - split; [contradiction|reflexivity].
  - destruct (f a) eqn:E; split.
    + discriminate.
    + intro H. specialize (H a (or_introl eq_refl)). congruence.
    + intros H y [<-|Hy]; [exact E|]. now apply IH.
    + intro H. apply IH. intros y Hy. apply H. now right.
Qed.

(** [X1] [extract_payment_method] returns [None] exactly when no keyword of
    the table occurs in the lower-cased text; otherwise it returns the first
    method, in the order of the table, one of whose keywords occurs, so that
    no keyword of an earlier method occurs in the text. *)
Theorem payment_method_is_first_match (text : string) :
  let t := PyStr.lower text in
  (Receipts.extract_payment_method text = None <->
   forall m kws kw, In (m, kws) Receipts.payment_keywords -> In kw kws ->
                    PyStr.contains kw t = false)
  /\ (forall m, Receipts.extract_payment_method text = Some m ->
        exists before kws after,
          Receipts.payment_keywords = before ++ (m, kws) :: after
          /\ (exists kw, In kw kws /\ PyStr.contains kw t = true)
          /\ forall m' kws' kw, In (m', kws') before -> In kw kws' ->
                                PyStr.contains kw t = false).
Proof.
  cbv zeta. unfold Receipts.extract_payment_method.
  set (t := PyStr.lower text).
  assert (Hno : forall kws, Receipts.mentions t kws = false <->
                            forall kw, In kw kws -> PyStr.contains kw t = false).
  { intro kws. unfold Receipts.mentions. split.
    - intros H kw Hkw. destruct (PyStr.contains kw t) eqn:E; [|reflexivity].
      assert (existsb (fun k => PyStr.contains k t) kws = true)
        by (apply existsb_exists; now exists kw).
      congruence.
    - intro H. destruct (existsb _ kws) eqn:E; [|reflexivity].
      apply existsb_exists in E. destruct E as (kw & Hkw & Hc).
      rewrite (H kw Hkw) in Hc. discriminate. }
  split.
  - destruct (find _ Receipts.payment_keywords) as [e|] eqn:E; split;
      try discriminate; try reflexivity.
    + intro H. apply find_first in E. destruct E as (b & a & Hl & He & _).
      destruct e as [m kws]. simpl in He.
      assert (Receipts.mentions t kws = false).
      { apply Hno. intros kw Hkw. apply (H m kws kw); [|exact Hkw].
        rewrite Hl. apply in_or_app. right. now left. }
      congruence.
    + intros _ m kws kw Hm Hkw.
      apply find_nothing with (y := (m, kws)) in E; [|exact Hm].
      simpl in E. now apply (proj1 (Hno kws) E).
  - intros m H.
    destruct (find _ Receipts.payment_keywords) as [[m0 kws]|] eqn:E; [|discriminate].
    injection H as ->. apply find_first in E.
    destruct E as (before & after & Hl & He & Hb). simpl in He.
    exists before, kws, after. split; [exact Hl|]. split.
    + unfold Receipts.mentions in He. apply existsb_exists in He.
      destruct He as (kw & Hkw & Hc). now exists kw.
    + intros m' kws' kw Hin Hkw. specialize (Hb _ Hin). simpl in Hb.
      now apply (proj1 (Hno kws') Hb).
Qed.

(** [X2] A text that contains the word "card" is never read as a debit or
    a credit card payment: the method is "cash" when a cash keyword occurs
    as well and "card" otherwise, and "card" is none of the
    [PAYMENT_METHODS]. *)
Theorem card_shadows_debit_and_credit (text : string) :
  PyStr.contains "card" (PyStr.lower text) = true ->
  (Receipts.extract_payment_method text = Some "cash"%string
   \/ Receipts.extract_payment_method text = Some "card"%string)
  /\ (Receipts.mentions (PyStr.lower text) ["efectivo"; "cash"; "metalico"]%string
      = false ->
      Receipts.extract_payment_method text = Some "card"%string)
  /\ (Receipts.mentions (PyStr.lower text) ["efectivo"; "cash"; "metalico"]%string
      = true ->
      Receipts.extract_payment_method text = Some "cash"%string)
  /\ Receipts.extract_payment_method text <> Some "debit_card"%string
  /\ Receipts.extract_payment_method text <> Some "credit_card"%string
  /\ ~ In "card"%string Constants.PAYMENT_METHODS.
Proof.
  intro Hcard.
  assert (Hm : Receipts.mentions (PyStr.lower text)
                 ["tarjeta"; "card"; "visa"; "mastercard"]%string = true).
  { unfold Receipts.mentions. cbn [existsb]. rewrite Hcard.
    now rewrite orb_true_r. }
  assert (Hcases :
    Receipts.extract_payment_method text
    = if Receipts.mentions (PyStr.lower text) ["efectivo"; "cash"; "metalico"]%string
      then Some "cash"%string else Some "card"%string).
  { unfold Receipts.extract_payment_method, Receipts.payment_keywords.
    cbn [find snd fst].
    destruct (Receipts.mentions (PyStr.lower text)
                ["efectivo"; "cash"; "metalico"]%string); [reflexivity|].
    now rewrite Hm. }
  assert (Hno : ~ In "card"%string Constants.PAYMENT_METHODS)
    by (intro H; simpl in H; intuition discriminate).
  rewrite Hcases.
  destruct (Receipts.mentions _ ["efectivo"; "cash"; "metalico"]%string).
  - split; [now left|]. split; [discriminate|]. split; [reflexivity|].
    split; [discriminate|]. split; [discriminate|exact Hno].
  - split; [now right|]. split; [reflexivity|]. split; [discriminate|].
    split; [discriminate|]. split; [discriminate|exact Hno].
Qed.

Lemma card_shadows_witness :
  Receipts.extract_payment_method "Paid by DEBIT CARD" = Some "card"%string.
Proof.
  refine (proj1 (proj2 (card_shadows_debit_and_credit "Paid by DEBIT CARD" _)) _);
    vm_compute; reflexivity.
Defined.

(* ----------------------------------------------------------------- *)
(** ** The merchant, the total and the items *)

Lemma first_long_line_none (lines : list string) :
  Parser.first_long_line lines = None <->
  forall line, In line lines -> PyStr.len (PyStr.strip line) <= 3.
Proof.
  induction lines as [|l lines IH]; simpl.
  - split; [contradiction|reflexivity].
  - destruct (Nat.ltb_spec 3 (PyStr.len (PyStr.strip l))) as [Hlt|Hle]; split.
    + discriminate.
    + intro H. specialize (H l (or_introl eq_refl)). lia.
    + intros H line [<-|Hl]; [exact Hle|]. now apply IH.
    + intro H. apply IH. intros line Hl. apply H. now right.
Qed.

Lemma first_hit_none (lines : list string) :
  Parser.first_hit lines = None <->
  forall line, In line lines -> Parser.scan_line line = None.
Proof.
  induction lines as [|l lines IH]; simpl.
  - split; [contradiction|reflexivity].
  - destruct (Parser.scan_line l) eqn:E; split.
    + discriminate.
    + intro H. specialize (H l (or_introl eq_refl)). congruence.
    + intros H line [<-|Hl]; [exact E|]. now apply IH.
    + intro H. apply IH. intros line Hl. apply H. now right.
Qed.

(** On a line of at most three characters only the merchant "dia" can be
    recognised. *)
Lemma scan_short_line (line : string) :
  PyStr.len (PyStr.strip line) <= 3 ->
  (Parser.scan_line line = None <->
   PyStr.contains "dia" (PyStr.lower (PyStr.strip line)) = false).
Proof.
  intro Hlen. unfold Parser.scan_line, Parser.uppercase_name.
  destruct (Nat.ltb_spec 3 (PyStr.len (PyStr.strip line))) as [Hlt|_]; [lia|].
  cbn [andb]. unfold Parser.known_name.
  set (t := PyStr.lower (PyStr.strip line)).
  assert (Ht : String.length t <= 3)
    by (unfold t, PyStr.lower; rewrite map_chars_length; exact Hlen).
  assert (Hlong : forall m, In m Parser.known_merchants -> m <> "dia"%string ->
                            PyStr.contains m t = false).
  { intros m Hm Hne.
    assert (Hall : forallb (fun k => String.eqb k "dia" || (4 <=? String.length k))
                           Parser.known_merchants = true) by (vm_compute; reflexivity).
    rewrite forallb_forall in Hall. specialize (Hall m Hm).
    apply orb_true_iff in Hall. destruct Hall as [Heq|H4].
    - apply String.eqb_eq in Heq. contradiction.
    - apply Nat.leb_le in H4.
      destruct (PyStr.contains m t) eqn:E; [|reflexivity].
      apply contains_length in E. lia. }
  destruct (find _ Parser.known_merchants) as [m|] eqn:E.
  - split; [discriminate|]. intro Hdia.
    apply find_some in E. destruct E as [Hm Hc].
    destruct (String.eqb_spec m "dia") as [->|Hne]; [congruence|].
    rewrite (Hlong m Hm Hne) in Hc. discriminate.
  - split; [|reflexivity]. intros _.
    apply find_nothing with (y := "dia"%string) in E; [exact E|].
    unfold Parser.known_merchants. simpl. tauto.
Qed.

(** [X3] [extract_merchant] returns [None] exactly when no line of the text
    has more than three characters once stripped and none of the first five
    lines contains "dia", the one known merchant that short. *)
Theorem extract_merchant_none_iff (text : string) :
  let lines := PyStr.split PyStr.newline text in
  Parser.extract_merchant text = None <->
  (forall line, In line lines -> PyStr.len (PyStr.strip line) <= 3)
  /\ (forall line, In line (firstn 5 lines) ->
        PyStr.contains "dia" (PyStr.lower (PyStr.strip line)) = false).
Proof.
  cbv zeta. unfold Parser.extract_merchant.
  set (lines := PyStr.split PyStr.newline text).
  assert (Hsub : forall line, In line (firstn 5 lines) -> In line lines).
  { intros line H. rewrite <- (firstn_skipn 5 lines). apply in_or_app. now left. }
  destruct (Parser.first_hit (firstn 5 lines)) as [m|] eqn:Eh.
  - split; [discriminate|]. intros [Hshort Hdia].
    assert (Parser.first_hit (firstn 5 lines) = None).
    { apply first_hit_none. intros line Hl.
      apply scan_short_line; [apply Hshort; now apply Hsub|now apply Hdia]. }
    congruence.
  - rewrite first_long_line_none. split.
    + intro Hshort. split; [exact Hshort|]. intros line Hl.
      apply scan_short_line; [apply Hshort; now apply Hsub|].
      now apply (proj1 (first_hit_none _) Eh).
    + intros [Hshort _]. exact Hshort.
Qed.

Lemma digits_value_nonneg (s : string) (acc n : Z) :
  (0 <= acc)%Z -> Parser.digits_value acc s = Some n -> (0 <= n)%Z.
Proof.
  revert acc; induction s as [|c s IH]; simpl; intros acc Hacc H.
  - injection H as <-. exact Hacc.
  - destruct (PyStr.is_digit c); [|discriminate].
    eapply IH; [|exact H]. lia.
Qed.

(** [float] of a decimal numeral is not negative. *)
Lemma float_of_string_nonneg (s : string) (q : Q) :
  Parser.float_of_string s = Some q -> (0 <= q)%Q.
Proof.
  unfold Parser.float_of_string. destruct (Parser.split_point s) as [i f].
  destruct (Nat.eqb _ 0); [discriminate|].
  destruct (Parser.digits_value 0 _) as [n|] eqn:E; [|discriminate].
  intro H.
  apply (f_equal (fun o => match o with Some x => x | None => 0%Q end)) in H.
  cbv beta iota in H. subst q.
  apply digits_value_nonneg in E; [|lia].
  match goal with |- (0 <= Qred ?x)%Q => set (q := x) end.
  assert (H0 : (0 <= q)%Q) by (unfold q, Qle; simpl; lia).
  apply (Qle_trans 0 q (Qred q) H0). apply Qle_lteq. right.
  apply Qeq_sym. apply Qred_correct.
Qed.

Lemma primary_amounts_nonneg (text : string) (x : Q) :
  In x (Parser.primary_amounts text) -> (0 <= x)%Q.
Proof.
  unfold Parser.primary_amounts. intro H.
  apply in_flat_map in H. destruct H as (pattern & _ & H).
  apply in_flat_map in H. destruct H as (amount_str & _ & H).
  unfold Parser.to_amount in H.
  destruct (Parser.float_of_string _) as [v|] eqn:E; [|contradiction].
  destruct H as [<-|[]]. now apply float_of_string_nonneg in E.
Qed.

Lemma convert_all_nonneg (matches : list string) (vs : list Q) :
  Parser.convert_all matches = Some vs -> forall x, In x vs -> (0 <= x)%Q.
Proof.
  revert vs; induction matches as [|m ms IH]; simpl; intros vs H.
  - injection H as <-. contradiction.
  - unfold Parser.to_amount in H.
    destruct (Parser.float_of_string _) as [v|] eqn:E; [|discriminate].
    destruct (Parser.convert_all ms) as [ws|]; [|discriminate].
    injection H as <-. intros x [<-|Hx].
    + now apply float_of_string_nonneg in E.
    + now apply (IH ws eq_refl).
Qed.

(** [X4] A total returned by [extract_total] is never negative, whichever
    pattern found it: the patterns capture digits only, so a sign printed
    in front of an amount is not read. *)
Theorem extract_total_is_not_negative (text : string) (t : Q) :
  Parser.extract_total text = Some t -> (0 <= t)%Q.
Proof.
  unfold Parser.extract_total.
  destruct (Parser.primary_amounts text) as [|a rest] eqn:E.
  - unfold Parser.fallback_total.
    destruct (Regex.findall Parser.currency_pattern text) as [|m ms];
      [discriminate|].
    destruct (Parser.convert_all (m :: ms)) as [[|v vs]|] eqn:Ec; try discriminate.
    intro H. injection H as <-.
    destruct (py_max_spec vs v) as [Hin _].
    now apply (convert_all_nonneg _ _ Ec).
  - intro H. injection H as <-.
    destruct (py_max_spec rest a) as [Hin _].
    apply (primary_amounts_nonneg text). now rewrite E.
Qed.

Lemma extract_total_witness : (0 <= 5)%Q.
Proof.
  apply (extract_total_is_not_negative "Total: -5.00" 5).
  vm_compute. reflexivity.
Defined.

(* ----------------------------------------------------------------- *)
(** ** The items *)

Lemma append_empty (s : string) : (s ++ "")%string = s.
Proof. induction s; simpl; congruence. Qed.

Lemma append_char (s more : string) (c : ascii) :
  ((s ++ String c "") ++ more)%string = (s ++ String c more)%string.
Proof. induction s; simpl; congruence. Qed.

Lemma lazy_description_extends (rest taken g1 g2 : string) :
  Receipts.lazy_description taken rest = Some (g1, g2) ->
  exists more, g1 = (taken ++ more)%string.
Proof.
  revert taken; induction rest as [|c rest IH]; intro taken;
    cbn [Receipts.lazy_description];
    destruct (Receipts.match_to_end Receipts.price_tail _) as [[p|]|];
    intro H; try discriminate;
    try (injection H as <- _; exists ""%string; now rewrite append_empty);
    (destruct (Ascii.eqb c PyStr.newline); [discriminate|];
     apply IH in H; destruct H as [more ->];
     exists (String c more); apply append_char).
Qed.

Lemma item_of_line_shape (line : string) (it : Parser.item) :
  In it (Receipts.item_of_line line) ->
  Parser.description it <> ""%string
  /\ PyStr.strip (Parser.description it) = Parser.description it
  /\ (0 <= Parser.price it)%Q.
Proof.
  unfold Receipts.item_of_line.
  destruct (Receipts.match_item (PyStr.strip line)) as [[g1 g2]|] eqn:E;
    [|contradiction].
  destruct (Parser.float_of_string _) as [price|] eqn:Ep; [|contradiction].
  intros [<-|[]]. cbn [Parser.description Parser.price].
  unfold Receipts.match_item in E.
  destruct (PyStr.strip line) as [|c rest] eqn:Es; [discriminate|].
  destruct (Ascii.eqb c PyStr.newline); [discriminate|].
  apply lazy_description_extends in E. destruct E as [more ->].
  apply strip_head in Es.
  destruct (strip_solid_head c more Es) as (r & Hr & Hrr).
  cbn [String.append]. rewrite Hr. split; [discriminate|].
  split; [exact Hrr|]. now apply float_of_string_nonneg in Ep.
Qed.

Lemma item_of_line_at_most_one (line : string) :
  List.length (Receipts.item_of_line line) <= 1.
Proof.
  unfold Receipts.item_of_line.
  destruct (Receipts.match_item _) as [[g1 g2]|]; [|simpl; lia].
  destruct (Parser.float_of_string _); simpl; lia.
Qed.

(** [X5] Every item of [extract_items] has a description that is not empty
    and carries no blank at either end, and a price that is not negative;
    a line gives at most one item, so there are never more items than
    lines. *)
Theorem extract_items_are_well_formed (text : string) :
  (forall it, In it (Receipts.extract_items text) ->
     Parser.description it <> ""%string
     /\ PyStr.strip (Parser.description it) = Parser.description it
     /\ (0 <= Parser.price it)%Q)
  /\ List.length (Receipts.extract_items text)
     <= List.length (PyStr.split PyStr.newline text).
Proof.
  unfold Receipts.extract_items. split.
  - intros it H. apply in_flat_map in H. destruct H as (line & _ & H).
    now apply (item_of_line_shape line).
  - induction (PyStr.split PyStr.newline text) as [|l ls IH]; simpl; [lia|].
    rewrite length_app. pose proof (item_of_line_at_most_one l). lia.
Qed.

(* ----------------------------------------------------------------- *)
(** ** Validation of a parsed receipt *)



(* ----------------------------------------------------------------- *)
(** ** The best category of the rule stage *)

Section BestCategory.

Import Classifier.
Import Retraining.

Variable text : string.

Lemma visit_keeps_first_best (seen : category_map_t) (st : option string * nat)
      (e : string * map_entry) :
  first_best text seen st
  -> first_best text (seen ++ [e])%list (visit_category text st e).
Proof.
  unfold first_best, score.
  intros [[-> Hzero]|(before & c & info & after & -> & -> & Hpos & Hb & Ha)];
    destruct e as [c' info']; cbn [visit_category snd] in *.
  - destruct (Nat.ltb_spec 0 (count_matches text (entry_keywords info')))
      as [Hlt|Hge].
    + right. exists seen, c', info', []. cbn [snd].
      split; [reflexivity|]. split; [reflexivity|]. split; [exact Hlt|].
      split.
      * intros e He. rewrite (Hzero e He). exact Hlt.
      * intros e [].
    + left. split; [reflexivity|]. intros e He.
      apply in_app_or in He. destruct He as [He|[<-|[]]]; [now apply Hzero|].
      cbn [snd]. lia.
  - destruct (Nat.ltb_spec (count_matches text (entry_keywords info))
                           (count_matches text (entry_keywords info')))
      as [Hlt|Hge].
    + right. exists (before ++ (c, info) :: after)%list, c', info', []. cbn [snd].
      split; [reflexivity|]. split; [reflexivity|]. split; [lia|].
      split.
      * intros e He. apply in_app_or in He. destruct He as [He|[<-|He]].
        -- specialize (Hb e He). lia.
        -- exact Hlt.
        -- specialize (Ha e He). lia.
      * intros e [].
    + right. exists before, c, info, (after ++ [(c', info')])%list. cbn [snd].
      split; [now rewrite <- app_assoc|]. split; [reflexivity|].
      split; [exact Hpos|]. split; [exact Hb|].
      intros e He. apply in_app_or in He.
      destruct He as [He|[<-|[]]]; [now apply Ha|exact Hge].
Qed.

Lemma scan_is_first_best (cmap : category_map_t) :
  first_best text cmap (scan_categories cmap text).
Proof.
  unfold scan_categories.
  induction cmap as [|e cmap IH] using rev_ind.
  - left. split; [reflexivity|]. intros e [].
  - rewrite fold_left_app. cbn [fold_left]. now apply visit_keeps_first_best.
Qed.

End BestCategory.

Lemma count_matches_no_keywords (text : string) : Classifier.count_matches text [] = 0.
Proof. reflexivity. Qed.

Lemma add_points_grows (text : string) (kws : list string) (acc : nat) :
  acc <= fold_left (Classifier.add_points text) kws acc.
Proof.
  revert acc. induction kws as [|k kws IH]; intro acc; cbn [fold_left]; [lia|].
  specialize (IH (Classifier.add_points text acc k)).
  assert (acc <= Classifier.add_points text acc k)
    by (unfold Classifier.add_points; lia).
  lia.
Qed.

Lemma add_points_counts (text kw : string) (kws : list string) (acc : nat) :
  In kw kws -> PyStr.contains (PyStr.lower kw) text = true ->
  acc < fold_left (Classifier.add_points text) kws acc.
Proof.
  intros Hin Hc. revert acc Hin.
  induction kws as [|k kws IH]; intros acc Hin; [contradiction|].
  cbn [fold_left]. destruct Hin as [->|Hin].
  - pose proof (add_points_grows text kws (Classifier.add_points text acc kw)).
    assert (acc < Classifier.add_points text acc kw).
    { unfold Classifier.add_points, Classifier.keyword_points.
      rewrite Hc. destruct (String.eqb _ _); lia. }
    lia.
  - specialize (IH (Classifier.add_points text acc k) Hin).
    assert (acc <= Classifier.add_points text acc k)
      by (unfold Classifier.add_points; lia).
    lia.
Qed.

(** [X7] When a keyword occurs in the text the rule stage returns the
    category with the highest score, the earliest of the table among equal
    scores, with the confidence of that score; the label is then a slug of
    the table, and never "other", which has no keyword. *)
Theorem rule_stage_picks_first_best (text : string) :
  Classifier.keyword_occurs Classifier.category_map text = true ->
  let t := PyStr.lower text in
  exists before label info after,
    Classifier.category_map = (before ++ (label, info) :: after)%list
    /\ Classifier._classify_by_rules text
       = (label, Classifier.rule_confidence
                   (Classifier.count_matches t (Classifier.entry_keywords info)))
    /\ 0 < Classifier.count_matches t (Classifier.entry_keywords info)
    /\ (forall c i, In (c, i) before ->
          Classifier.count_matches t (Classifier.entry_keywords i)
          < Classifier.count_matches t (Classifier.entry_keywords info))
    /\ (forall c i, In (c, i) after ->
          Classifier.count_matches t (Classifier.entry_keywords i)
          <= Classifier.count_matches t (Classifier.entry_keywords info))
    /\ In label Constants.category_slugs
    /\ label <> "other"%string.
Proof.
  intros Hocc t.
  destruct (scan_is_first_best t Classifier.category_map)
    as [[Hst Hzero]|(before & c & info & after & Hmap & Hst & Hpos & Hb & Ha)].
  - exfalso. unfold Classifier.keyword_occurs in Hocc.
    apply existsb_exists in Hocc. destruct Hocc as (e & He & Hkw).
    apply existsb_exists in Hkw. destruct Hkw as (kw & Hkw & Hc).
    specialize (Hzero e He). unfold Retraining.score in Hzero.
    pose proof (add_points_counts t kw _ 0 Hkw Hc) as Hpos.
    unfold Classifier.count_matches in Hzero. lia.
  - unfold Retraining.score in *. cbn [snd] in *.
    assert (Hin : In (c, info) Classifier.category_map)
      by (rewrite Hmap; apply in_or_app; right; now left).
    destruct (category_map_shape c info Hin) as [Hslug _].
    exists before, c, info, after.
    split; [exact Hmap|]. split; [|split; [exact Hpos|split; [|split; [|split]]]].
    + unfold Classifier._classify_by_rules, Classifier.rules_on. fold t.
      rewrite Hst. rewrite (category_slugs_truthy c Hslug).
      destruct (Nat.ltb_spec 0 (Classifier.count_matches t
                                  (Classifier.entry_keywords info))); [reflexivity|lia].
    + intros c' i' H. exact (Hb (c', i') H).
    + intros c' i' H. exact (Ha (c', i') H).
    + exact Hslug.
    + intros ->.
      assert (Hall : forallb (fun e => negb (String.eqb (fst e) "other")
                        || (List.length (Classifier.entry_keywords (snd e)) =? 0))
                      Classifier.category_map = true) by (vm_compute; reflexivity).
      rewrite forallb_forall in Hall. specialize (Hall _ Hin). simpl in Hall.
      apply Nat.eqb_eq in Hall.
      destruct (Classifier.entry_keywords info); [|discriminate].
      rewrite count_matches_no_keywords in Hpos. lia.
Qed.

Lemma rule_stage_witness :
  exists label, fst (Classifier._classify_by_rules "Amazon Books and bar") = label
                /\ label <> "other"%string.
Proof.
  destruct (rule_stage_picks_first_best "Amazon Books and bar")
    as (before & label & info & after & _ & Hr & _ & _ & _ & _ & Hne).
  - vm_compute. reflexivity.
  - exists label. rewrite Hr. split; [reflexivity|exact Hne].
Defined.

(** [X8] A keyword of the table, classified on its own, gets confidence 1.0
    and the first category that lists it, whatever the statistical stage
    would say: its own category, except that "target" of shopping goes to
    food and "gas" of housing to transportation. *)
Theorem keyword_alone_gets_first_owner
        (ml : option Classifier.ml_stage) (category keyword : string)
        (info : Classifier.map_entry) :
  In (category, info) Classifier.category_map ->
  In keyword (Classifier.entry_keywords info) ->
  exists owner,
    Retraining.first_owner Classifier.category_map keyword = Some owner
    /\ Classifier.classify ml keyword None None = (owner, 1.0%float)
    /\ (owner = category
        \/ (keyword = "target"%string /\ category = "shopping"%string
            /\ owner = "food"%string)
        \/ (keyword = "gas"%string /\ category = "housing"%string
            /\ owner = "transportation"%string)).
Proof.
  intros Hc Hk.
  assert (Hall : forallb
            (fun e => forallb (fun kw => Retraining.keyword_alone_ok kw
                                         && Retraining.owner_ok (fst e) kw)
                              (Classifier.entry_keywords (snd e)))
            Classifier.category_map = true) by (vm_compute; reflexivity).
  rewrite forallb_forall in Hall. specialize (Hall _ Hc). simpl in Hall.
  rewrite forallb_forall in Hall. specialize (Hall _ Hk).
  apply andb_true_iff in Hall. destruct Hall as [Hok Hown].
  unfold Retraining.keyword_alone_ok in Hok. unfold Retraining.owner_ok in Hown.
  apply andb_true_iff in Hok. destruct Hok as [H2 Hr].
  destruct (Retraining.first_owner Classifier.category_map keyword) as [owner|];
    [|discriminate].
  exists owner. split; [reflexivity|]. split.
  - apply Nat.leb_le in H2.
    rewrite (classify_short_circuit ml keyword None None H2).
    apply andb_true_iff in Hr. destruct Hr as [Hl Hf].
    apply String.eqb_eq in Hl.
    destruct (Classifier._classify_by_rules _) as [l f]. simpl in *. subst l.
    f_equal. now apply FloatAxioms.Leibniz.eqb_spec.
  - apply orb_true_iff in Hown. destruct Hown as [Hown|Hown].
    + apply orb_true_iff in Hown. destruct Hown as [Hown|Hown].
      * left. now apply String.eqb_eq in Hown.
      * right. left.
        repeat (apply andb_true_iff in Hown; destruct Hown as [Hown ?]).
        repeat split; now apply String.eqb_eq.
    + right. right.
      repeat (apply andb_true_iff in Hown; destruct Hown as [Hown ?]).
      repeat split; now apply String.eqb_eq.
Qed.

Lemma keyword_alone_witness :
  Classifier.classify None "target" None None = ("food"%string, 1.0%float).
Proof.
  destruct (keyword_alone_gets_first_owner None "food" "target" Samples.food_entry)
    as (owner & Hown & Hcl & _).
  - vm_compute. tauto.
  - vm_compute. tauto.
  - rewrite Hcl. f_equal.
    apply (f_equal (fun o => match o with Some x => x | None => ""%string end)) in Hown.
    rewrite <- Hown. vm_compute. reflexivity.
Defined.

(* ----------------------------------------------------------------- *)
(** ** Retraining on user data *)

Lemma lower_char_idempotent (c : ascii) :
  PyStr.lower_char (PyStr.lower_char c) = PyStr.lower_char c.
Proof.
  destruct c as [[] [] [] [] [] [] [] []]; vm_compute; reflexivity.
Qed.

Lemma lower_idempotent (s : string) : PyStr.lower (PyStr.lower s) = PyStr.lower s.
Proof.
  unfold PyStr.lower. induction s as [|c s IH]; [reflexivity|].
  cbn [PyStr.map_chars]. now rewrite lower_char_idempotent, IH.
Qed.

Lemma sample_rows_at_most_one (e : Retraining.labelled_expense) :
  List.length (Retraining.sample_rows e) <= 1.
Proof.
  unfold Retraining.sample_rows. destruct (PyStr.truthy _); simpl; lia.
Qed.

Lemma collect_rows_length (expenses : list Retraining.labelled_expense) :
  List.length (Retraining.collect_rows expenses) <= List.length expenses.
Proof.
  unfold Retraining.collect_rows.
  induction expenses as [|e es IH]; [simpl; lia|].
  cbn [flat_map]. rewrite length_app. cbn [List.length].
  pose proof (sample_rows_at_most_one e). lia.
Qed.

Lemma collect_rows_shape (expenses : list Retraining.labelled_expense)
      (t c : string) :
  In (t, c) (Retraining.collect_rows expenses) ->
  PyStr.lower t = t
  /\ exists e, In e expenses
       /\ PyStr.strip (Retraining.sample_text e) <> ""%string
       /\ t = PyStr.lower (Retraining.sample_text e)
       /\ c = Retraining.le_slug e.
Proof.
  intro Hin. unfold Retraining.collect_rows in Hin.
  apply in_flat_map in Hin. destruct Hin as (e & He & Hrow).
  unfold Retraining.sample_rows in Hrow.
  destruct (PyStr.strip (Retraining.sample_text e)) eqn:Hs;
    cbn [PyStr.truthy] in Hrow; [contradiction|].
  destruct Hrow as [[= <- <-]|[]].
  split; [apply lower_idempotent|].
  exists e. rewrite Hs. repeat split; [exact He|discriminate].
Qed.

(** [X9] [train_with_user_data] calls [fit] exactly when at least ten of the
    expenses have a text that is not blank; blank expenses do not count.
    The rows it fits on are, in order, the lowercased texts of the
    non-blank expenses with their category slugs.  The model is refit and
    saved only when that call returns; when it raises, the error is logged
    and nothing is saved. *)
Theorem retraining_needs_ten_usable_samples
        (fits : Classifier.training_set -> bool)
        (expenses : list Retraining.labelled_expense) :
  let rows := Retraining.collect_rows expenses in
  let result := Retraining.train_with_user_data fits expenses in
  (result = Retraining.Skipped <-> List.length rows < 10)
  /\ (result = Retraining.Refitted (Classifier.Fitted rows)
      <-> 10 <= List.length rows /\ fits rows = true)
  /\ (result = Retraining.FitFailed rows
      <-> 10 <= List.length rows /\ fits rows = false)
  /\ (forall m, result = Retraining.Refitted m -> m = Classifier.Fitted rows)
  /\ (forall fitted, result = Retraining.FitFailed fitted -> fitted = rows)
  /\ List.length rows <= List.length expenses
  /\ forall t c, In (t, c) rows ->
       PyStr.lower t = t
       /\ exists e, In e expenses
            /\ PyStr.strip (Retraining.sample_text e) <> ""%string
            /\ t = PyStr.lower (Retraining.sample_text e)
            /\ c = Retraining.le_slug e.
Proof.
  cbv zeta.
  pose proof (collect_rows_length expenses) as Hlen.
  split; [|split; [|split; [|split; [|split; [|split; [exact Hlen|]]]]]];
    try (intros t c; apply collect_rows_shape);
    unfold Retraining.train_with_user_data;
    destruct (Nat.ltb_spec (List.length expenses) 10) as [Hfew|Hmany];
    try (destruct (Nat.leb_spec 10 (List.length (Retraining.collect_rows expenses)))
          as [Hten|Hless]);
    try (destruct (fits (Retraining.collect_rows expenses)) eqn:Hfit);
    try (split; intro H; try discriminate; try reflexivity; try lia;
         try (split; [lia|reflexivity]); try (destruct H; lia);
         try (destruct H; congruence));
    try (intros m H; try discriminate; now injection H).
Qed.

(* ----------------------------------------------------------------- *)
(** ** The calendar months of a frame *)

Section Months.

Import Numpy Prediction.
Open Scope Z_scope.

Lemma fold_min_le (l : DataFrame) (a : Z) :
  fold_left (fun lo x => Z.min lo (bucket_of x)) l a <= a
  /\ forall x, In x l -> fold_left (fun lo x => Z.min lo (bucket_of x)) l a <= bucket_of x.
Proof.
  revert a. induction l as [|y l IH]; intro a; cbn [fold_left].
  - split; [lia|]. intros x [].
  - destruct (IH (Z.min a (bucket_of y))) as [H1 H2]. split; [lia|].
    intros x [<-|Hx]; [lia|now apply H2].
Qed.

Lemma fold_min_attained (l : DataFrame) (a : Z) :
  fold_left (fun lo x => Z.min lo (bucket_of x)) l a = a
  \/ exists x, In x l /\ bucket_of x = fold_left (fun lo x => Z.min lo (bucket_of x)) l a.
Proof.
  revert a. induction l as [|y l IH]; intro a; cbn [fold_left]; [now left|].
  destruct (IH (Z.min a (bucket_of y))) as [H|(x & Hx & H)].
  - rewrite H. destruct (Z.min_spec a (bucket_of y)) as [[_ E]|[_ E]]; rewrite E.
    + now left.
    + right. exists y. split; [now left|reflexivity].
  - right. exists x. split; [now right|exact H].
Qed.

Lemma fold_max_ge (l : DataFrame) (a : Z) :
  a <= fold_left (fun hi x => Z.max hi (bucket_of x)) l a
  /\ forall x, In x l -> bucket_of x <= fold_left (fun hi x => Z.max hi (bucket_of x)) l a.
Proof.
  revert a. induction l as [|y l IH]; intro a; cbn [fold_left].
  - split; [lia|]. intros x [].
  - destruct (IH (Z.max a (bucket_of y))) as [H1 H2]. split; [lia|].
    intros x [<-|Hx]; [lia|now apply H2].
Qed.

Lemma fold_max_attained (l : DataFrame) (a : Z) :
  fold_left (fun hi x => Z.max hi (bucket_of x)) l a = a
  \/ exists x, In x l /\ bucket_of x = fold_left (fun hi x => Z.max hi (bucket_of x)) l a.
Proof.
  revert a. induction l as [|y l IH]; intro a; cbn [fold_left]; [now left|].
  destruct (IH (Z.max a (bucket_of y))) as [H|(x & Hx & H)].
  - rewrite H. destruct (Z.max_spec a (bucket_of y)) as [[_ E]|[_ E]]; rewrite E.
    + right. exists y. split; [now left|reflexivity].
    + now left.
  - right. exists x. split; [now right|exact H].
Qed.

(** The earliest and the latest month of a frame that has a row. *)
Lemma month_range (r : row) (rest : DataFrame) :
  let lo := first_bucket r rest in
  let hi := last_bucket r rest in
  (exists x, In x (r :: rest) /\ bucket_of x = lo)
  /\ (exists x, In x (r :: rest) /\ bucket_of x = hi)
  /\ (forall x, In x (r :: rest) -> lo <= bucket_of x <= hi).
Proof.
  cbv zeta. unfold first_bucket, last_bucket.
  destruct (fold_min_le rest (bucket_of r)) as [Hlo Hlos].
  destruct (fold_max_ge rest (bucket_of r)) as [Hhi Hhis].
  split; [|split].
  - destruct (fold_min_attained rest (bucket_of r)) as [E|(x & Hx & E)].
    + exists r. split; [now left|now rewrite E].
    + exists x. split; [now right|exact E].
  - destruct (fold_max_attained rest (bucket_of r)) as [E|(x & Hx & E)].
    + exists r. split; [now left|now rewrite E].
    + exists x. split; [now right|exact E].
  - intros x [<-|Hx]; [lia|]. specialize (Hlos x Hx). specialize (Hhis x Hx). lia.
Qed.

Lemma buckets_of_rows (r : row) (rest : DataFrame) :
  let lo := first_bucket r rest in
  let hi := last_bucket r rest in
  List.length (buckets (r :: rest)) = Z.to_nat (hi - lo + 1)
  /\ (1 <= List.length (buckets (r :: rest)))%nat
  /\ last (buckets (r :: rest)) 0 = hi.
Proof.
  cbv zeta. destruct (month_range r rest) as (_ & _ & Hr).
  specialize (Hr r (or_introl eq_refl)). cbv zeta in Hr.
  cbn [buckets]. rewrite length_map, length_seq.
  split; [reflexivity|]. split; [lia|].
  set (lo := first_bucket r rest) in *. set (hi := last_bucket r rest) in *.
  destruct (Z.to_nat (hi - lo + 1)) as [|k] eqn:Ek; [lia|].
  rewrite seq_S, map_app. cbn [map]. rewrite last_last. cbn [Nat.add]. lia.
Qed.

Lemma buckets_empty_iff (data : DataFrame) : buckets data = [] <-> data = [].
Proof.
  destruct data as [|r rest]; [tauto|].
  destruct (buckets_of_rows r rest) as (_ & H & _).
  split; [|discriminate]. intro E. rewrite E in H. simpl in H. lia.
Qed.

Lemma format_from_months (base : Z) (margin : R) (preds : list R) (i : nat) :
  map month (format_from base margin i preds)
  = map (fun j => base + Z.of_nat j) (seq i (List.length preds)).
Proof.
  revert i. induction preds as [|x preds IH]; intro i; [reflexivity|].
  cbn [format_from map List.length seq]. now rewrite IH.
Qed.

End Months.

(** [X10] [predict_future_expenses] succeeds exactly when the frame has at
    least 30 rows, some row is left by the category filter and at least one
    period is asked for. The reported number of training samples is then
    the number of calendar months from the earliest to the latest of the
    filtered rows, months without rows included, and the points are
    labelled with the [periods] months that follow the latest one. *)
Theorem forecast_covers_the_months_after_the_last
        (data : Prediction.DataFrame) (periods : nat) (cat : option string) :
  let rows := Prediction.filter_category data cat in
  ((exists pts n, Prediction.predict_future_expenses data periods cat
                  = Prediction.Success pts n)
   <-> 30 <= List.length data /\ rows <> [] /\ 1 <= periods)
  /\ forall pts n,
       Prediction.predict_future_expenses data periods cat = Prediction.Success pts n ->
       exists lo hi : Z,
         (exists r, In r rows /\ Prediction.bucket_of r = lo)
         /\ (exists r, In r rows /\ Prediction.bucket_of r = hi)
         /\ (forall r, In r rows -> (lo <= Prediction.bucket_of r <= hi)%Z)
         /\ n = Z.to_nat (hi - lo + 1)
         /\ List.length pts = periods
         /\ map Prediction.month pts
            = map (fun i => (hi + Z.of_nat i)%Z) (seq 1 periods).
Proof.
  cbv zeta. split.
  - split.
    + intros (pts & n & H).
      destruct (predict_success_inv _ _ _ _ _ H) as (Hlen & Hp & _ & _).
      split; [exact Hlen|]. split; [|lia].
      intro E. unfold Prediction.predict_future_expenses in H.
      rewrite E in H. cbn [Prediction.buckets] in H.
      destruct (_ <? _)%nat; discriminate.
    + intros (Hlen & Hrows & Hp).
      eexists. eexists. apply predict_success; [exact Hlen| |lia].
      intro E. now apply buckets_empty_iff in E.
  - intros pts n H.
    destruct (predict_success_inv _ _ _ _ _ H) as (Hlen & Hp & Hn & Hpts).
    cbv zeta in Hn, Hpts.
    destruct (Prediction.filter_category data cat) as [|r rest] eqn:Erows.
    { unfold Prediction.predict_future_expenses in H. rewrite Erows in H.
      cbn [Prediction.buckets] in H. destruct (_ <? _)%nat; discriminate. }
    destruct (month_range r rest) as (Hlo & Hhi & Hall).
    destruct (buckets_of_rows r rest) as (Hcount & _ & Hlast).
    cbv zeta in *.
    exists (Prediction.first_bucket r rest), (Prediction.last_bucket r rest).
    split; [exact Hlo|]. split; [exact Hhi|]. split; [exact Hall|].
    split; [|split].
    + rewrite Hn. unfold Prediction.monthly_amounts. now rewrite length_map.
    + rewrite Hpts, format_from_length. apply raw_predictions_length.
    + rewrite Hpts, format_from_months, raw_predictions_length, Hlast. reflexivity.
Qed.

Lemma one_month_iff_insufficient
      (coef_ : Prediction.regression) (data : Prediction.DataFrame) :
  Prediction.detect_trend coef_ data = Prediction.InsufficientData
  <-> forall r r', In r data -> In r' data ->
        Prediction.bucket_of r = Prediction.bucket_of r'.
Proof.
  unfold Prediction.detect_trend, Prediction.monthly_amounts.
  rewrite length_map.
  destruct data as [|r rest].
  - cbn. split; [intros _ r r' []|reflexivity].
  - destruct (month_range r rest) as ((xlo & Hxlo & Elo) & (xhi & Hxhi & Ehi) & Hall).
    destruct (buckets_of_rows r rest) as (Hcount & _ & _).
    cbv zeta in *. rewrite Hcount.
    pose proof (Hall r (or_introl eq_refl)) as Hr.
    destruct (Nat.ltb_spec (Z.to_nat (Prediction.last_bucket r rest
                                      - Prediction.first_bucket r rest + 1)) 2)
      as [Hlt|Hge].
    + split; [|reflexivity]. intros _ a b Ha Hb.
      pose proof (Hall a Ha). pose proof (Hall b Hb). lia.
    + split; [discriminate|]. intro Hsame. exfalso.
      specialize (Hsame xlo xhi Hxlo Hxhi). lia.
Qed.

(** [X11] [detect_trend] reports insufficient data exactly when all the
    rows of the frame fall in one calendar month (or there is no row). *)
Theorem detect_trend_insufficient_iff_one_month
        (coef_ : Prediction.regression) (data : Prediction.DataFrame) :
  Prediction.detect_trend coef_ data = Prediction.InsufficientData
  <-> forall r r', In r data -> In r' data ->
        Prediction.bucket_of r = Prediction.bucket_of r'.
Proof. exact (one_month_iff_insufficient coef_ data). Qed.

(* ----------------------------------------------------------------- *)
(** ** Forecasts per category *)

Lemma unique_spec (l : list string) :
  NoDup (ByCategory.unique l) /\ forall c, In c (ByCategory.unique l) <-> In c l.
Proof.
  induction l as [|a l [IHn IHi]]; cbn [ByCategory.unique].
  - split; [constructor|tauto].
  - split.
    + constructor.
      * intro H. apply filter_In in H. destruct H as [_ H].
        now rewrite String.eqb_refl in H.
      * now apply NoDup_filter.
    + intro c. cbn [In]. rewrite filter_In, IHi.
      destruct (String.eqb_spec c a) as [->|Hne]; cbn [negb]; [tauto|].
      split; [tauto|]. intros [->|H]; [contradiction|tauto].
Qed.

Lemma filter_category_keeps (data : Prediction.DataFrame) (r : Prediction.row) :
  In r data -> Prediction.filter_category data (Some (Prediction.category r)) <> [].
Proof.
  intros Hin E. unfold Prediction.filter_category in E.
  destruct (PyStr.truthy _).
  - assert (H : In r (filter (fun x => String.eqb (Prediction.category x)
                                                  (Prediction.category r)) data))
      by (apply filter_In; split; [exact Hin|apply String.eqb_refl]).
    rewrite E in H. contradiction.
  - rewrite E in Hin. contradiction.
Qed.

(** [X12] [predict_by_category] has one entry per distinct category of the
    frame, the forecast of [predict_future_expenses] for that category. The
    minimum of 30 rows is that of the whole frame, not of the category:
    below it every category fails, and from it on (with a period to
    predict) every category gets its forecast, however few rows it has. *)
Theorem predict_by_category_checks_the_whole_frame
        (data : Prediction.DataFrame) (periods : nat) :
  let result := ByCategory.predict_by_category data periods in
  NoDup (map fst result)
  /\ (forall c, In c (map fst result)
                <-> exists r, In r data /\ Prediction.category r = c)
  /\ (forall c o, In (c, o) result ->
        o = Prediction.predict_future_expenses data periods (Some c))
  /\ (List.length data < 30 ->
      forall c o, In (c, o) result ->
        o = Prediction.Failure "Insufficient data. Need at least 30 records.")
  /\ (30 <= List.length data -> 1 <= periods ->
      forall c o, In (c, o) result ->
        exists pts n, o = Prediction.Success pts n /\ List.length pts = periods).
Proof.
  cbv zeta. unfold ByCategory.predict_by_category.
  destruct (unique_spec (map Prediction.category data)) as [Hnd Hin].
  assert (Hkeys : forall c o,
             In (c, o) (map (fun category =>
                               (category,
                                Prediction.predict_future_expenses data periods
                                  (Some category)))
                            (ByCategory.unique (map Prediction.category data))) ->
             o = Prediction.predict_future_expenses data periods (Some c)
             /\ exists r, In r data /\ Prediction.category r = c).
  { intros c o H. apply in_map_iff in H. destruct H as (c' & [= <- <-] & Hc).
    split; [reflexivity|]. apply Hin in Hc. apply in_map_iff in Hc.
    destruct Hc as (r & Hr & Hrin). now exists r. }
  rewrite map_map. cbn [fst]. rewrite map_id.
  split; [exact Hnd|]. split; [|split; [|split]].
  - intro c. rewrite Hin, in_map_iff. split; intros (r & H1 & H2); exists r; tauto.
  - intros c o H. now apply Hkeys.
  - intros Hfew c o H. destruct (Hkeys c o H) as [-> _].
    unfold Prediction.predict_future_expenses.
    destruct (Nat.ltb_spec (List.length data)
                           Constants.PREDICTION_CONFIG_min_data_points) as [_|Hge];
      [reflexivity|].
    unfold Constants.PREDICTION_CONFIG_min_data_points in Hge. lia.
  - intros Hlen Hp c o H. destruct (Hkeys c o H) as [-> (r & Hr & <-)].
    pose proof (filter_category_keeps data r Hr) as Hrows.
    rewrite predict_success; [|exact Hlen| |lia].
    + eexists. eexists. split; [reflexivity|].
      rewrite format_from_length. apply raw_predictions_length.
    + intro E. now apply buckets_empty_iff in E.
Qed.

(* ----------------------------------------------------------------- *)
(** ** The predictor model *)

Section PredictorIntervals.

Import Predictor.
Open Scope R_scope.

Lemma results_from_length (last_period : Z) (c : R) (preds : list R) (i : nat) (f : R -> R) :
  List.length (results_from last_period c i preds (map f preds)) = List.length preds.
Proof.
  revert i. induction preds as [|x preds IH]; intro i; [reflexivity|].
  cbn [results_from map List.length]. now rewrite IH.
Qed.

Lemma results_from_periods (last_period : Z) (c : R) (preds : list R) (i : nat) (f : R -> R) :
  map period (results_from last_period c i preds (map f preds))
  = map (fun j => (last_period + Z.of_nat j + 1)%Z) (seq i (List.length preds)).
Proof.
  revert i. induction preds as [|x preds IH]; intro i; [reflexivity|].
  cbn [results_from map List.length seq period]. now rewrite IH.
Qed.

Lemma results_from_In (last_period : Z) (c : R) (preds : list R) (i : nat) (f : R -> R)
      (p : interval) :
  In p (results_from last_period c i preds (map f preds)) ->
  exists pred, In pred preds
    /\ predicted_amount p = pred
    /\ lower_bound p = Rmax 0 (pred - f pred)
    /\ upper_bound p = pred + f pred
    /\ confidence p = c.
Proof.
  revert i. induction preds as [|x preds IH]; intros i H; [contradiction|].
  cbn [results_from map] in H. destruct H as [<-|H].
  - exists x. cbn. repeat split; now left.
  - destruct (IH (S i) H) as (pred & Hin & Hrest). exists pred. split; [now right|exact Hrest].
Qed.

End PredictorIntervals.

(** [X13] [ExpensePredictorModel.predict_future] fails exactly on a model
    that is not fitted or when no period is asked for. Otherwise it returns
    one interval for each of the periods after [last_period], and in each
    of them 0 <= lower_bound <= predicted_amount <= upper_bound; a
    prediction of 0 has the interval from 0 to 0. *)
Theorem predictor_intervals_are_ordered
        (m : Predictor.ExpensePredictorModel) (n_periods : nat)
        (last_period : Z) (confidence_level : R) :
  (Predictor.predict_future m n_periods last_period confidence_level = None
   <-> m = None \/ n_periods = 0)
  /\ forall results,
       Predictor.predict_future m n_periods last_period confidence_level
       = Some results ->
       List.length results = n_periods
       /\ map Predictor.period results
          = map (fun i => (last_period + Z.of_nat i)%Z) (seq 1 n_periods)
       /\ forall p, In p results ->
            (0 <= Predictor.lower_bound p <= Predictor.predicted_amount p)%R
            /\ (Predictor.predicted_amount p <= Predictor.upper_bound p)%R
            /\ Predictor.confidence p = confidence_level
            /\ (Predictor.predicted_amount p = 0%R ->
                Predictor.lower_bound p = 0%R /\ Predictor.upper_bound p = 0%R).
Proof.
  unfold Predictor.predict_future.
  destruct m as [lm|].
  2:{ split; [split; [now left|reflexivity]|discriminate]. }
  destruct n_periods as [|k].
  { cbn. split; [split; [now right|reflexivity]|discriminate]. }
  cbv zeta.
  set (xs := map (fun i => IZR (last_period + Z.of_nat i)) (seq 1 (S k))).
  assert (Hxs : List.length xs = S k)
    by (unfold xs; now rewrite length_map, length_seq).
  assert (Hp : Predictor.predict (Some lm) xs
               = Some (map (fun p => Rmax p 0) (Numpy.predict lm xs)))
    by reflexivity.
  rewrite Hp. clear Hp.
  remember (map (fun p => Rmax p 0) (Numpy.predict lm xs)) as preds eqn:Epreds.
  assert (Hpreds : List.length preds = S k)
    by (rewrite Epreds; unfold Numpy.predict; now rewrite !length_map).
  set (z := if Req_dec_T confidence_level 0.95 then 1.96%R else 2.576%R).
  assert (Hz : (0 < z < 10)%R) by (unfold z; destruct (Req_dec_T _ _); lra).
  rewrite map_map.
  split; [split; [discriminate|intros [H|H]; discriminate]|].
  intros results [= <-].
  split; [|split].
  - now rewrite results_from_length.
  - rewrite results_from_periods, Hpreds.
    rewrite <- (seq_shift (S k) 0), map_map. apply map_ext. intro j. lia.
  - intros p Hp. apply results_from_In in Hp.
    destruct Hp as (pred & Hin & -> & -> & -> & ->).
    assert (Hpos : (0 <= pred)%R).
    { rewrite Epreds in Hin. apply in_map_iff in Hin. destruct Hin as (x & <- & _).
      apply Rmax_r. }
    assert (Hm : (0 <= z * (pred * 0.1) <= pred)%R) by nra.
    split; [|split; [lra|split; [reflexivity|]]].
    + split; [apply Rmax_l|]. apply Rmax_lub; lra.
    + intros ->. split; [|lra].
      replace (0 - z * (0 * 0.1))%R with 0%R by lra. apply Rmax_left. lra.
Qed.

Lemma predictor_intervals_witness :
  exists results,
    Predictor.predict_future (Predictor.fit [0; 1]%R [100; 200]%R) 2 2 0.95%R
    = Some results /\ List.length results = 2.
Proof.
  eexists. split; [reflexivity|].
  apply (proj2 (predictor_intervals_are_ordered
                  (Predictor.fit [0; 1]%R [100; 200]%R) 2 2 0.95%R) _ eq_refl).
Defined.

(* ----------------------------------------------------------------- *)
(** ** Monthly totals and histories on a line *)

Section LinearHistory.

Import Numpy Prediction Samples.
Open Scope R_scope.

Lemma sum_cons (x : R) (l : list R) : sum (x :: l) = x + sum l.
Proof. reflexivity. Qed.

Lemma sum_map_plus {A : Type} (f g : A -> R) (l : list A) :
  sum (map (fun x => f x + g x) l) = sum (map f l) + sum (map g l).
Proof.
  induction l as [|x l IH]; cbn [map]; [cbn; lra|].
  rewrite !sum_cons, IH. lra.
Qed.

Lemma sum_map_scale {A : Type} (c : R) (f : A -> R) (l : list A) :
  sum (map (fun x => c * f x) l) = c * sum (map f l).
Proof.
  induction l as [|x l IH]; cbn [map]; [cbn; lra|].
  rewrite !sum_cons, IH. lra.
Qed.

Lemma sum_map_const {A : Type} (c : R) (l : list A) :
  sum (map (fun _ => c) l) = INR (List.length l) * c.
Proof.
  induction l as [|x l IH]; [cbn; lra|].
  cbn [map]. rewrite sum_cons, IH.
  change (List.length (x :: l)) with (S (List.length l)).
  rewrite S_INR. lra.
Qed.

Lemma sum_squares_nonneg (m : R) (l : list R) :
  0 <= sum (map (fun x => (x - m) * (x - m)) l).
Proof.
  induction l as [|x l IH]; cbn [map]; [cbn; lra|].
  rewrite sum_cons. pose proof (Rle_0_sqr (x - m)) as Hsq. unfold Rsqr in Hsq. lra.
Qed.

(** The months [0 .. n-1] have spread as soon as there are two of them. *)
Lemma arange_spread (n : nat) (m : R) :
  (2 <= n)%nat -> 0 < sum (map (fun x => (x - m) * (x - m)) (arange n)).
Proof.
  intro Hn. destruct n as [|[|n]]; [lia|lia|].
  unfold arange. cbn [seq map]. rewrite !sum_cons. cbn [INR].
  pose proof (sum_squares_nonneg m (map INR (seq 2 n))) as Hrest.
  set (rest := sum (map (fun x => (x - m) * (x - m)) (map INR (seq 2 n)))) in *.
  pose proof (Rle_0_sqr (2 * m - 1)) as Hsq. unfold Rsqr in Hsq. lra.
Qed.

Lemma combine_map_self {A B : Type} (g : A -> B) (l : list A) :
  combine l (map g l) = map (fun x => (x, g x)) l.
Proof. induction l as [|x l IH]; [reflexivity|]. cbn [map combine]. now rewrite IH. Qed.

(** Least squares recovers a line from points that lie on it. *)
Lemma fit_of_line (a b : R) (X : list R) :
  0 < sum (map (fun x => (x - mean X) * (x - mean X)) X) ->
  fit X (map (fun x => a + b * x) X) = {| coef := b; intercept := a |}.
Proof.
  intro Hs.
  assert (Hlen : 0 < INR (List.length X)).
  { destruct X as [|x X]; [cbn in Hs; lra|]. apply lt_0_INR. cbn. lia. }
  assert (Hmean : mean (map (fun x => a + b * x) X) = a + b * mean X).
  { unfold mean. rewrite length_map.
    rewrite (sum_map_plus (fun _ => a) (fun x => b * x)), sum_map_const.
    rewrite (sum_map_scale b (fun x => x)), map_id. field. lra. }
  unfold fit. rewrite Hmean, combine_map_self, map_map. cbn [fst snd].
  set (sxx := sum (map (fun x => (x - mean X) * (x - mean X)) X)) in *.
  assert (Hsxy : sum (map (fun x => (x - mean X) * (a + b * x - (a + b * mean X))) X)
                 = b * sxx).
  { unfold sxx. rewrite <- sum_map_scale. f_equal. apply map_ext. intro x. ring. }
  rewrite Hsxy. destruct (Req_dec_T sxx 0) as [E|_]; [lra|].
  f_equal; field; lra.
Qed.

Lemma std_of_zeros (l : list R) : (forall x, In x l -> x = 0) -> std l = 0.
Proof.
  intro H.
  assert (Hl : l = map (fun _ => 0) l).
  { induction l as [|x l IH]; [reflexivity|]. cbn [map]. f_equal.
    - apply H. now left.
    - apply IH. intros y Hy. apply H. now right. }
  assert (Hm : mean l = 0).
  { unfold mean. rewrite Hl, sum_map_const, length_map. unfold Rdiv. ring. }
  unfold std, variance. rewrite Hm.
  assert (Hsq : map (fun x => (x - 0) * (x - 0)) l = map (fun _ => 0) l).
  { apply map_ext_in. intros x Hx. rewrite (H x Hx). ring. }
  rewrite Hsq. unfold mean. rewrite sum_map_const, length_map.
  replace (INR (List.length l) * 0 / INR (List.length l)) with 0
    by (unfold Rdiv; ring).
  apply sqrt_0.
Qed.

Lemma on_line_arange (a b : R) (n : nat) :
  on_line a b n = map (fun x => a + b * x) (arange n).
Proof. unfold on_line, arange. now rewrite map_map. Qed.

Lemma fit_on_line (a b : R) (n : nat) :
  (2 <= n)%nat ->
  fit (arange (List.length (on_line a b n))) (on_line a b n)
  = {| coef := b; intercept := a |}.
Proof.
  intro Hn. unfold on_line at 1. rewrite length_map, length_seq.
  rewrite on_line_arange. apply fit_of_line. now apply arange_spread.
Qed.

Lemma residual_std_on_line (a b : R) (n : nat) :
  (2 <= n)%nat -> residual_std (on_line a b n) = 0.
Proof.
  intro Hn. unfold residual_std. rewrite (fit_on_line a b n Hn).
  assert (Hlen : List.length (on_line a b n) = n)
    by (unfold on_line; now rewrite length_map, length_seq).
  rewrite Hlen, on_line_arange. unfold predict. cbn [coef intercept].
  apply std_of_zeros. intros x Hx.
  apply in_map_iff in Hx. destruct Hx as ([u v] & <- & Huv).
  revert Huv. generalize (arange n). intro l.
  induction l as [|w l IH]; cbn [map combine]; [contradiction|].
  intros [[= <- <-]|H]; [cbn; ring|now apply IH].
Qed.

(** The totals of the months sum to the total of the rows. *)
Lemma bucket_sum_cons (r : row) (data : DataFrame) (k : Z) :
  bucket_sum (r :: data) k
  = (if Z.eqb (bucket_of r) k then amount r else 0) + bucket_sum data k.
Proof.
  unfold bucket_sum. cbn [filter].
  destruct (Z.eqb (bucket_of r) k); cbn [map]; [now rewrite sum_cons|lra].
Qed.

Lemma sum_indicator (b : Z) (x : R) (ks : list Z) :
  NoDup ks ->
  sum (map (fun k => if Z.eqb b k then x else 0) ks) = if in_dec Z.eq_dec b ks then x else 0.
Proof.
  induction 1 as [|k ks Hk Hnd IH]; [reflexivity|].
  cbn [map]. rewrite sum_cons, IH. destruct (Z.eqb_spec b k) as [->|Hne].
  - destruct (in_dec Z.eq_dec k ks) as [Hin|_]; [contradiction|].
    destruct (in_dec Z.eq_dec k (k :: ks)) as [_|Hn]; [lra|]. exfalso. apply Hn. now left.
  - destruct (in_dec Z.eq_dec b ks) as [Hin|Hn];
      destruct (in_dec Z.eq_dec b (k :: ks)) as [Hin'|Hn']; try lra.
    + exfalso. apply Hn'. now right.
    + exfalso. destruct Hin' as [E|Hin']; [now apply Hne|contradiction].
Qed.

Lemma sum_over_months (ks : list Z) (data : DataFrame) :
  NoDup ks -> (forall r, In r data -> In (bucket_of r) ks) ->
  sum (map (bucket_sum data) ks) = sum (map amount data).
Proof.
  intros Hnd. induction data as [|r data IH]; intro Hin.
  - cbn [map]. rewrite (map_ext _ (fun _ => 0)) by reflexivity.
    rewrite sum_map_const. cbn. lra.
  - rewrite (map_ext _ _ (bucket_sum_cons r data)).
    rewrite (sum_map_plus (fun k => if Z.eqb (bucket_of r) k then amount r else 0)
                          (bucket_sum data)).
    rewrite sum_indicator by exact Hnd.
    destruct (in_dec Z.eq_dec (bucket_of r) ks) as [_|Hn].
    + rewrite IH by (intros x Hx; apply Hin; now right).
      cbn [map]. now rewrite sum_cons.
    + exfalso. apply Hn. apply Hin. now left.
Qed.

Lemma buckets_cover (data : DataFrame) :
  NoDup (buckets data) /\ forall r, In r data -> In (bucket_of r) (buckets data).
Proof.
  destruct data as [|r rest]; [split; [constructor|intros x []]|].
  destruct (month_range r rest) as (_ & _ & Hall). cbv zeta in Hall.
  cbn [buckets]. split.
  - apply Finite.Injective_map_NoDup; [|apply seq_NoDup].
    intros i j Hij. lia.
  - intros x Hx. specialize (Hall x Hx). apply in_map_iff.
    exists (Z.to_nat (bucket_of x - first_bucket r rest)).
    split; [lia|]. apply in_seq. lia.
Qed.

End LinearHistory.

(** [X14] In exact arithmetic the monthly totals the forecast is fitted on
    add up to the sum of the amounts of all rows of the frame: every row is
    counted in exactly one month. *)
Theorem monthly_totals_conserve_the_sum (data : Prediction.DataFrame) :
  Numpy.sum (Prediction.monthly_amounts data)
  = Numpy.sum (map Prediction.amount data).
Proof.
  unfold Prediction.monthly_amounts.
  destruct (buckets_cover data) as [Hnd Hin].
  now apply sum_over_months.
Qed.

Lemma rising_on_line : Samples.on_line 100 100 3 = [100; 200; 300]%R.
Proof.
  unfold Samples.on_line. cbn [seq map INR]. repeat f_equal; lra.
Qed.

(** [X15] In exact arithmetic, when the monthly totals of the filtered
    frame lie on a line, total [a + b k] in the [k]-th of [n >= 2] months,
    the forecast has no margin and continues the line, but one month late:
    the point labelled with the month of index [n + i] carries the value of
    the line at index [n + i + 1]. *)
Theorem linear_history_is_forecast_one_month_late
        (data : Prediction.DataFrame) (periods : nat) (cat : option string)
        (a b : R) (n : nat) :
  30 <= List.length data -> 1 <= periods -> 2 <= n ->
  Prediction.monthly_amounts (Prediction.filter_category data cat)
  = Samples.on_line a b n ->
  exists pts lo,
    Prediction.predict_future_expenses data periods cat = Prediction.Success pts n
    /\ Prediction.buckets (Prediction.filter_category data cat)
       = map (fun k => (lo + Z.of_nat k)%Z) (seq 0 n)
    /\ List.length pts = periods
    /\ forall i, i < periods ->
         let p := nth i pts Samples.no_point in
         let value := (a + b * INR (n + i + 1))%R in
         Prediction.month p = (lo + Z.of_nat (n + i))%Z
         /\ Prediction.upper_bound p = value
         /\ Prediction.predicted_amount p = Rmax 0 value
         /\ Prediction.lower_bound p = Rmax 0 value.
Proof.
  intros Hlen Hp Hn Hy.
  assert (Hcount : List.length (Prediction.buckets (Prediction.filter_category data cat))
                   = n).
  { apply (f_equal (@List.length R)) in Hy.
    unfold Prediction.monthly_amounts, Samples.on_line in Hy.
    now rewrite !length_map, length_seq in Hy. }
  destruct (Prediction.filter_category data cat) as [|r rest] eqn:Erows.
  { cbn in Hcount. lia. }
  destruct (buckets_of_rows r rest) as (Hspan & _ & Hlast). cbv zeta in *.
  set (lo := Prediction.first_bucket r rest) in *.
  set (hi := Prediction.last_bucket r rest) in *.
  rewrite Hcount in Hspan.
  exists (Prediction.format_from hi (1.96 * Prediction.residual_std (Samples.on_line a b n)) 1
            (Prediction.raw_predictions (Samples.on_line a b n) periods)), lo.
  assert (Hlen_y : List.length (Samples.on_line a b n) = n)
    by (unfold Samples.on_line; now rewrite length_map, length_seq).
  split; [|split; [|split]].
  - rewrite predict_success; [|exact Hlen| |lia].
    + rewrite Erows, Hy, Hlast, Hlen_y. reflexivity.
    + rewrite Erows. intro E. rewrite E in Hcount. cbn in Hcount. lia.
  - cbn [Prediction.buckets]. fold lo hi. now rewrite <- Hspan.
  - rewrite format_from_length. apply raw_predictions_length.
  - intros i Hi. cbv zeta.
    rewrite format_from_nth by (now rewrite raw_predictions_length).
    rewrite raw_predictions_nth by exact Hi.
    rewrite (fit_on_line a b n Hn), (residual_std_on_line a b n Hn), Hlen_y.
    cbn [Numpy.coef Numpy.intercept].
    unfold Prediction.format_point.
    cbn [Prediction.month Prediction.upper_bound Prediction.predicted_amount
         Prediction.lower_bound].
    replace (n + (i + 1)) with (n + i + 1) by lia.
    replace (b * INR (n + i + 1) + a)%R with (a + b * INR (n + i + 1))%R by ring.
    split; [lia|]. split; [ring|]. split; [reflexivity|].
    f_equal. ring.
Qed.

Lemma linear_history_witness :
  exists pts lo,
    Prediction.predict_future_expenses Samples.rising_series 3 None
    = Prediction.Success pts 3
    /\ Prediction.buckets Samples.rising_series
       = map (fun k => (lo + Z.of_nat k)%Z) (seq 0 3)
    /\ List.length pts = 3.
Proof.
  destruct (linear_history_is_forecast_one_month_late
              Samples.rising_series 3 None 100 100 3)
    as (pts & lo & H1 & H2 & H3 & _).
  - vm_compute. lia.
  - lia.
  - lia.
  - cbn [Prediction.filter_category]. rewrite rising_monthly. symmetry.
    apply rising_on_line.
  - exists pts, lo. split; [exact H1|]. split; [exact H2|exact H3].
Defined.

(* ----------------------------------------------------------------- *)
(** ** Insights per category *)

Section CategoryInsights.

Import Numpy Insights.
Open Scope R_scope.


Lemma sum_nonneg_bound (l : list R) :
  (forall x, In x l -> 0 <= x) -> 0 <= sum l /\ forall x, In x l -> x <= sum l.
Proof.
  induction l as [|y l IH]; intro H; [split; [cbn; lra|intros x []]|].
  destruct IH as [IH0 IHb]; [intros x Hx; apply H; now right|].
  assert (0 <= y) by (apply H; now left).
  rewrite sum_cons. split; [lra|].
  intros x [<-|Hx]; [lra|]. specialize (IHb x Hx). lra.
Qed.

End CategoryInsights.


(** [X18] [calculate_category_insights] yields one insight per row of the
    grouped query, in the same order. When the totals of the rows are not
    negative and their sum is positive, every percentage lies between 0
    and 100 and, in exact arithmetic, the percentages add up to 100; when
    the sum is not positive every percentage is 0. *)
Theorem category_percentages_share_the_total
        (sum_ : Insights.sql_sum)
        (now : Z) (db : list Insights.entry) (uid : nat) (period_days : Z)
        (query : list Insights.category_row) :
  let insights :=
    Insights.calculate_category_insights sum_ now db uid period_days query in
  let total_spending := Numpy.sum (map Insights.total query) in
  map Insights.i_category_id insights = map Insights.id query
  /\ ((total_spending <= 0)%R ->
      forall i, In i insights -> Insights.percentage i = 0%R)
  /\ ((0 < total_spending)%R ->
      (forall r, In r query -> (0 <= Insights.total r)%R) ->
      (forall i, In i insights -> (0 <= Insights.percentage i <= 100)%R)
      /\ Numpy.sum (map Insights.percentage insights) = 100%R).
Proof.
  cbv zeta. unfold Insights.calculate_category_insights.
  set (T := Numpy.sum (map Insights.total query)).
  split; [|split].
  - rewrite map_map. reflexivity.
  - intros HT i Hi. apply in_map_iff in Hi. destruct Hi as (r & <- & _).
    cbn [Insights.percentage]. destruct (Rgt_dec T 0); [lra|reflexivity].
  - intros HT Hpos. split.
    + intros i Hi. apply in_map_iff in Hi. destruct Hi as (r & <- & Hr).
      cbn [Insights.percentage]. destruct (Rgt_dec T 0) as [_|Hn]; [|lra].
      destruct (sum_nonneg_bound (map Insights.total query)) as [_ Hb].
      { intros x Hx. apply in_map_iff in Hx. destruct Hx as (r' & <- & Hr').
        now apply Hpos. }
      assert (Hle : (Insights.total r <= T)%R)
        by (apply Hb, in_map_iff; now exists r).
      specialize (Hpos r Hr).
      assert (Hinv : (0 < / T)%R) by (now apply Rinv_0_lt_compat).
      assert (Hone : (T * / T = 1)%R) by (field; lra).
      unfold Rdiv. split; nra.
    + rewrite map_map. cbn [Insights.percentage].
      destruct (Rgt_dec T 0) as [_|Hn]; [|lra].
      rewrite (map_ext _ (fun r => (100 / T * Insights.total r)%R))
        by (intro r; field; lra).
      rewrite sum_map_scale. fold T. field. lra.
Qed.

(* ----------------------------------------------------------------- *)
(** ** The synthetic training data *)

Lemma row_in_spec (r : string * string) (rows : Classifier.training_set) :
  Training.row_in r rows = true <-> In r rows.
Proof.
  unfold Training.row_in. rewrite existsb_exists. split.
  - intros (x & Hx & E). unfold Classifier.row_eqb in E.
    apply andb_true_iff in E. destruct E as [E1 E2].
    apply String.eqb_eq in E1, E2. destruct r, x. cbn in *. now subst.
  - intro H. exists r. split; [exact H|apply row_eqb_refl].
Qed.

Lemma synthetic_data_length (table : list (string * Constants.category_info)) :
  List.length (Training.synthetic_data table)
  = 3 * list_sum (map (fun e => List.length (Constants.keywords (snd e))) table).
Proof.
  unfold Training.synthetic_data.
  induction table as [|e table IH]; [reflexivity|].
  assert (H : forall c kws, List.length (flat_map (Training.synthetic_rows c) kws)
                            = 3 * List.length kws).
  { intros c kws. induction kws as [|k kws IHk]; [reflexivity|].
    cbn [flat_map]. rewrite length_app, IHk.
    cbn [Training.synthetic_rows List.length]. lia. }
  cbn [flat_map map]. rewrite length_app, IH, H.
  change (list_sum (?x :: ?l)) with (x + list_sum l).
  set (rest := list_sum (map _ table)).
  cbn [list_sum fold_right]. fold rest. lia.
Qed.

(** [X19] [create_synthetic_data] of the training script gives three rows
    for every keyword of every category, the keyword, "purchase at X" and
    "X store", 198 rows on the table. Every row of the bootstrap set of the
    service is one of them, and the rows the service lacks are the "X store"
    rows. The keywords "target" and "gas", listed by two categories each,
    are the texts that occur under two labels. *)
Theorem synthetic_data_has_three_rows_per_keyword :
  (forall c info kw,
      In (c, info) Constants.EXPENSE_CATEGORIES -> In kw (Constants.keywords info) ->
      In (kw, c) Training.create_synthetic_data
      /\ In (("purchase at " ++ kw)%string, c) Training.create_synthetic_data
      /\ In ((kw ++ " store")%string, c) Training.create_synthetic_data
      /\ ~ In ((kw ++ " store")%string, c)
              (Classifier.default_training_rows Classifier.category_map))
  /\ List.length Training.create_synthetic_data
     = 3 * Classifier.keyword_count Classifier.category_map
  /\ List.length Training.create_synthetic_data = 198
  /\ (forall row, In row (Classifier.default_training_rows Classifier.category_map) ->
                  In row Training.create_synthetic_data)
  /\ Training.relabelled Training.create_synthetic_data
     = ["target"; "purchase at target"; "target store";
        "gas"; "purchase at gas"; "gas store";
        "gas"; "purchase at gas"; "gas store";
        "target"; "purchase at target"; "target store"]%string.
Proof.
  split; [|split; [|split; [|split]]].
  - intros c info kw Hc Hk.
    assert (Hall : forallb
              (fun e => forallb
                 (fun kw =>
                    Training.row_in (kw, fst e) Training.create_synthetic_data
                    && Training.row_in (("purchase at " ++ kw)%string, fst e)
                         Training.create_synthetic_data
                    && Training.row_in ((kw ++ " store")%string, fst e)
                         Training.create_synthetic_data
                    && negb (Training.row_in ((kw ++ " store")%string, fst e)
                               (Classifier.default_training_rows
                                  Classifier.category_map)))
                 (Constants.keywords (snd e)))
              Constants.EXPENSE_CATEGORIES = true) by (vm_compute; reflexivity).
    rewrite forallb_forall in Hall. specialize (Hall _ Hc). cbn [fst snd] in Hall.
    rewrite forallb_forall in Hall. specialize (Hall _ Hk).
    apply andb_true_iff in Hall. destruct Hall as [Hall H4].
    apply andb_true_iff in Hall. destruct Hall as [Hall H3].
    apply andb_true_iff in Hall. destruct Hall as [H1 H2].
    apply row_in_spec in H1, H2, H3. apply negb_true_iff in H4.
    split; [exact H1|]. split; [exact H2|]. split; [exact H3|].
    intro H. apply row_in_spec in H. congruence.
  - unfold Training.create_synthetic_data. rewrite synthetic_data_length.
    vm_compute. reflexivity.
  - vm_compute. reflexivity.
  - intros row H.
    assert (Hall : forallb (fun r => Training.row_in r Training.create_synthetic_data)
                     (Classifier.default_training_rows Classifier.category_map) = true)
      by (vm_compute; reflexivity).
    rewrite forallb_forall in Hall. now apply row_in_spec, Hall.
  - vm_compute. reflexivity.
Qed.

(* ----------------------------------------------------------------- *)
(** ** The classifier in the upload route *)

Section UploadText.

Import PyStr.
Open Scope string_scope.

Lemma lower_app (a b : string) : lower (a ++ b) = lower a ++ lower b.
Proof.
  unfold lower. induction a as [|c a IH]; [reflexivity|].
  cbn [String.append map_chars]. now rewrite IH.
Qed.

Lemma is_space_lower_char (c : ascii) : is_space (lower_char c) = is_space c.
Proof. destruct c as [[] [] [] [] [] [] [] []]; vm_compute; reflexivity. Qed.

Lemma upper_char_is_solid (c : ascii) : is_upper_char c = true -> is_space c = false.
Proof. destruct c as [[] [] [] [] [] [] [] []]; vm_compute; congruence. Qed.

Lemma rstrip_keeps (u v : string) (d : ascii) :
  is_space d = false -> exists w, rstrip (u ++ String d v) = u ++ String d w.
Proof.
  intro Hd. induction u as [|a u [w IH]].
  - cbn [String.append]. now apply rstrip_solid_head.
  - cbn [String.append rstrip]. rewrite IH.
    destruct (u ++ String d w) as [|x y] eqn:E.
    + destruct u; discriminate.
    + exists w. now rewrite E.
Qed.

Lemma append_length (a b : string) :
  String.length (a ++ b) = String.length a + String.length b.
Proof. induction a as [|c a IH]; [reflexivity|]. cbn. now rewrite IH. Qed.

Lemma take_append (a b : string) : take (String.length a) (a ++ b) = a.
Proof. induction a as [|c a IH]; [now destruct b|]. cbn. now rewrite IH. Qed.

Lemma prefix_append (a b : string) : String.prefix a (a ++ b) = true.
Proof.
  induction a as [|c a IH]; [now destruct b|]. cbn.
  destruct (Ascii.ascii_dec c c); [exact IH|contradiction].
Qed.

Lemma append_assoc (a b c : string) : (a ++ b) ++ c = a ++ (b ++ c).
Proof. induction a as [|x a IH]; [reflexivity|]. cbn. now rewrite IH. Qed.

Lemma rstrip_prefix (s : string) : exists sp, s = rstrip s ++ sp.
Proof.
  induction s as [|c s [sp IH]]; [now exists ""|].
  cbn [rstrip]. destruct (rstrip s) as [|x y] eqn:E.
  - destruct (is_space c).
    + now exists (String c s).
    + exists s. reflexivity.
  - exists sp. cbn [String.append]. cbn [String.append] in IH. now rewrite <- IH.
Qed.

Lemma rstrip_last_solid (s : string) :
  rstrip s = ""
  \/ exists core d, rstrip s = core ++ String d "" /\ is_space d = false.
Proof.
  induction s as [|c s IH]; [now left|].
  cbn [rstrip]. destruct (rstrip s) as [|x y] eqn:E.
  - destruct (is_space c) eqn:Ec; [now left|].
    right. now exists "", c.
  - right. destruct IH as [IH|(core & d & IH & Hd)]; [discriminate|].
    exists (String c core), d. split; [|exact Hd].
    cbn [String.append]. now rewrite IH.
Qed.

(** A text that is a solid-headed name, a space and the name again,
    whatever follows, starts doubled once stripped. *)
Lemma strip_of_doubled (m tail : string) (c : ascii) (r : string) :
  m = String c r -> is_space c = false ->
  Upload.doubled_start (strip (m ++ " " ++ m ++ tail)) = true.
Proof.
  intros Hm Hc. unfold strip.
  assert (Hl : lstrip (m ++ " " ++ m ++ tail) = m ++ " " ++ m ++ tail).
  { rewrite Hm. cbn [String.append lstrip]. now rewrite Hc. }
  rewrite Hl. clear Hl.
  assert (Hlen : 1 <= String.length m) by (rewrite Hm; cbn; lia).
  assert (Hsolid : rstrip m <> "").
  { rewrite Hm. destruct (rstrip_solid_head c r Hc) as [r' ->]. discriminate. }
  destruct (rstrip_prefix m) as [sp Hsp].
  destruct (rstrip_last_solid m) as [E|(core & d & Hcore & Hd)]; [contradiction|].
  remember (rstrip m) as whole eqn:Hwhole.
  assert (H2 : m ++ tail = core ++ String d (sp ++ tail)).
  { rewrite Hsp, Hcore, !append_assoc. reflexivity. }
  rewrite H2, <- !append_assoc.
  destruct (rstrip_keeps ((m ++ " ") ++ core) (sp ++ tail) d Hd) as [w ->].
  unfold Upload.doubled_start. apply existsb_exists.
  exists (String.length m). split.
  - apply in_seq. rewrite !append_length. cbn. lia.
  - rewrite !append_assoc, take_append, <- Hwhole, Hcore.
    assert (Hw : m ++ " " ++ core ++ String d w
                 = (m ++ " " ++ core ++ String d "") ++ w).
    { rewrite !append_assoc. reflexivity. }
    rewrite Hw. apply prefix_append.
Qed.

Lemma lstrip_solid (s : string) :
  any_char (fun c => negb (is_space c)) s = true -> lstrip s <> "".
Proof.
  induction s as [|c s IH]; cbn; [discriminate|].
  destruct (is_space c); cbn; [exact IH|discriminate].
Qed.

Lemma strip_solid (s : string) :
  any_char (fun c => negb (is_space c)) s = true ->
  exists c r, strip s = String c r /\ is_space c = false.
Proof.
  intro H. apply lstrip_solid in H. unfold strip.
  destruct (lstrip s) as [|c r] eqn:E; [contradiction|].
  pose proof (lstrip_head _ _ _ E) as Hc.
  destruct (rstrip_solid_head c r Hc) as [r' Hr]. now exists c, r'.
Qed.

Lemma clean_special_keeps_upper (line : string) :
  any_char is_upper_char line = true ->
  any_char (fun c => negb (is_space c)) (Parser.clean_special line) = true.
Proof.
  unfold Parser.clean_special. induction line as [|c line IH]; cbn; [discriminate|].
  destruct (is_upper_char c) eqn:Eu; cbn.
  - intros _. now rewrite (upper_char_is_solid c Eu).
  - intro H. destruct (is_space c) eqn:Es; cbn; [rewrite Es; cbn|]; now apply IH.
Qed.

Lemma scan_line_solid (line m : string) :
  Parser.scan_line line = Some m ->
  exists c r, m = String c r /\ is_space c = false.
Proof.
  unfold Parser.scan_line, Parser.uppercase_name.
  destruct ((3 <? len (strip line))%nat && isupper (strip line)) eqn:Eu.
  - apply andb_true_iff in Eu. destruct Eu as [_ Eu].
    unfold isupper in Eu. apply andb_true_iff in Eu. destruct Eu as [_ Eu].
    destruct (3 <? len (Parser.clean_special (strip line)))%nat.
    + intros [= <-].
      destruct (strip_solid _ (clean_special_keeps_upper _ Eu)) as (c & r & -> & Hc).
      now exists c, r.
    + unfold Parser.known_name.
      destruct (find _ Parser.known_merchants) as [k|] eqn:Ef; [|discriminate].
      intros [= <-]. apply find_some in Ef. destruct Ef as [Hin _].
      assert (Hall : forallb (fun k => match upper k with
                                       | String c _ => negb (is_space c)
                                       | EmptyString => false
                                       end) Parser.known_merchants = true)
        by (vm_compute; reflexivity).
      rewrite forallb_forall in Hall. specialize (Hall k Hin).
      destruct (upper k) as [|c r]; [discriminate|].
      exists c, r. split; [reflexivity|now apply negb_true_iff].
  - unfold Parser.known_name.
    destruct (find _ Parser.known_merchants) as [k|] eqn:Ef; [|discriminate].
    intros [= <-]. apply find_some in Ef. destruct Ef as [Hin _].
    assert (Hall : forallb (fun k => match upper k with
                                     | String c _ => negb (is_space c)
                                     | EmptyString => false
                                     end) Parser.known_merchants = true)
      by (vm_compute; reflexivity).
    rewrite forallb_forall in Hall. specialize (Hall k Hin).
    destruct (upper k) as [|c r]; [discriminate|].
    exists c, r. split; [reflexivity|now apply negb_true_iff].
Qed.

(** A merchant name found by [extract_merchant] starts with a character
    that is not a blank. *)
Lemma merchant_starts_solid (text m : string) :
  Parser.extract_merchant text = Some m ->
  exists c r, m = String c r /\ is_space c = false.
Proof.
  unfold Parser.extract_merchant.
  set (lines := split newline text).
  destruct (Parser.first_hit (firstn 5 lines)) as [h|] eqn:Eh.
  - intros [= <-]. revert Eh. induction (firstn 5 lines) as [|l ls IH];
      cbn [Parser.first_hit]; [discriminate|].
    destruct (Parser.scan_line l) as [x|] eqn:Es; [|exact IH].
    intros [= <-]. now apply (scan_line_solid l).
  - clear Eh. induction lines as [|l ls IH]; cbn [Parser.first_long_line];
      [discriminate|].
    destruct (3 <? len (strip l))%nat eqn:E3; [|exact IH].
    intros [= <-]. destruct (strip l) as [|c r] eqn:Es; [discriminate|].
    exists c, (take 49 r). split; [reflexivity|]. now apply (strip_head l c r).
Qed.

End UploadText.

Lemma count_matches_by_keyword (text : string) (kws : list string) (acc : nat) :
  (forall kw, In kw kws -> Classifier.keyword_points text kw <= 1) ->
  fold_left (Classifier.add_points text) kws acc <= acc + List.length kws.
Proof.
  revert acc. induction kws as [|k kws IH]; intros acc H; cbn [fold_left List.length];
    [lia|].
  specialize (IH (Classifier.add_points text acc k)
                 (fun kw Hkw => H kw (or_intror Hkw))).
  pose proof (H k (or_introl eq_refl)) as Hk.
  assert (Hstep : Classifier.add_points text acc k <= acc + 1)
    by (unfold Classifier.add_points; lia).
  lia.
Qed.

Lemma classified_text_doubled (p : Parser.parsed_data) (c : ascii) (r : string) :
  Parser.merchant p = Some (String c r) -> PyStr.is_space c = false ->
  Upload.doubled_start (PyStr.strip (Upload.classified_text p)) = true.
Proof.
  intros Hm Hc. unfold Upload.classified_text. rewrite Hm.
  assert (Hshape : exists tail,
             Classifier.combine (String c r) (Some (String c r))
                                (Some (Upload.items_text p))
             = (String c r ++ " " ++ String c r ++ tail)%string).
  { unfold Classifier.combine. cbn [PyStr.truthy app].
    destruct (Upload.items_text p) as [|d ds]; cbn [PyStr.truthy app PyStr.join].
    - exists ""%string. now rewrite append_empty.
    - exists (" " ++ String d ds)%string. reflexivity. }
  destruct Hshape as [tail ->].
  rewrite !lower_app.
  change (PyStr.lower " ") with " "%string.
  apply (strip_of_doubled _ _ (PyStr.lower_char c) (PyStr.lower r));
    [reflexivity|now rewrite is_space_lower_char].
Qed.

(** [X20] In the upload route the merchant name of the receipt is given to
    the classifier twice, as the text and as the merchant.  With a merchant
    found by [extract_merchant] the scored text is therefore never equal to
    a keyword of the table: no keyword earns the three points of an exact
    match, each keyword that occurs counts one point, and a category scores
    at most the number of its keywords. *)
Theorem upload_never_scores_an_exact_match
        (text : string) (p : Parser.parsed_data) (m : string) :
  Parser.extract_merchant text = Some m ->
  Parser.merchant p = Some m ->
  forall c info, In (c, info) Classifier.category_map ->
    (forall kw, In kw (Classifier.entry_keywords info) ->
       PyStr.lower kw <> PyStr.strip (Upload.classified_text p)
       /\ Classifier.keyword_points (Upload.classified_text p) kw <= 1)
    /\ Classifier.count_matches (Upload.classified_text p)
                                (Classifier.entry_keywords info)
       <= List.length (Classifier.entry_keywords info).
Proof.
  intros Hext Hm c info Hin.
  destruct (merchant_starts_solid text m Hext) as (a & r & -> & Ha).
  pose proof (classified_text_doubled p a r Hm Ha) as Hd.
  assert (Hkw : forall kw, In kw (Classifier.entry_keywords info) ->
            PyStr.lower kw <> PyStr.strip (Upload.classified_text p)).
  { intros kw Hk E.
    assert (Hall : forallb
              (fun e => forallb (fun kw => negb (Upload.doubled_start (PyStr.lower kw)))
                                (Classifier.entry_keywords (snd e)))
              Classifier.category_map = true) by (vm_compute; reflexivity).
    rewrite forallb_forall in Hall. specialize (Hall _ Hin). cbn [snd] in Hall.
    rewrite forallb_forall in Hall. specialize (Hall _ Hk).
    rewrite E, Hd in Hall. discriminate. }
  assert (Hpts : forall kw, In kw (Classifier.entry_keywords info) ->
            Classifier.keyword_points (Upload.classified_text p) kw <= 1).
  { intros kw Hk. unfold Classifier.keyword_points.
    destruct (PyStr.contains _ _); [|lia].
    destruct (String.eqb_spec (PyStr.lower kw)
                              (PyStr.strip (Upload.classified_text p))) as [E|_];
      [now apply Hkw in E|lia]. }
  split.
  - intros kw Hk. split; [now apply Hkw|now apply Hpts].
  - unfold Classifier.count_matches.
    pose proof (count_matches_by_keyword _ _ 0 Hpts). lia.
Qed.

Lemma upload_witness :
  Classifier.keyword_points (Upload.classified_text Samples.full_receipt) "walmart" <= 1.
Proof.
  apply (upload_never_scores_an_exact_match
           Samples.walmart_receipt Samples.full_receipt "WALMART"
           (eq_refl : Parser.extract_merchant Samples.walmart_receipt = Some "WALMART"%string)
           eq_refl "food"%string Samples.food_entry).
  - vm_compute. tauto.
  - vm_compute. tauto.
Defined.

(* ----------------------------------------------------------------- *)
(** ** The prediction routes *)

Section PredictionRoutes.

Import Prediction Routes.
Open Scope nat_scope.

Lemma predict_succeeds_iff (data : DataFrame) (periods : nat) (cat : option string) :
  (exists pts n, predict_future_expenses data periods cat = Success pts n)
  <-> 30 <= List.length data /\ filter_category data cat <> [] /\ 1 <= periods.
Proof.
  split.
  - intros (pts & n & H).
    destruct (predict_success_inv _ _ _ _ _ H) as (Hlen & Hp & _ & _).
    split; [exact Hlen|]. split; [|lia].
    intro E. unfold predict_future_expenses in H.
    rewrite E in H. cbn [buckets] in H.
    destruct (_ <? _)%nat; discriminate.
  - intros (Hlen & Hrows & Hp).
    eexists. eexists. apply predict_success; [exact Hlen| |lia].
    intro E. now apply buckets_empty_iff in E.
Qed.

Lemma to_frame_length (l : list expense_row) :
  List.length (to_frame l) = List.length l.
Proof. unfold to_frame. apply length_map. Qed.

Lemma filter_category_same (l : list expense_row) (s : string) :
  (forall e, In e l -> slug e = s) ->
  filter_category (to_frame l) (Some s) = to_frame l.
Proof.
  intro H. unfold filter_category. destruct (PyStr.truthy s); [|reflexivity].
  unfold to_frame. induction l as [|e l IH]; [reflexivity|].
  cbn [map filter category]. rewrite (H e (or_introl eq_refl)), String.eqb_refl.
  f_equal. apply IH. intros x Hx. apply H. now right.
Qed.

Lemma query_by_user (db : list expense_row) (uid : nat) (e : expense_row) :
  In e (query_expenses db uid None) <-> In e db /\ user_id e = uid.
Proof.
  unfold query_expenses. rewrite filter_In, Nat.eqb_eq. reflexivity.
Qed.

Lemma query_by_category (db : list expense_row) (uid cid : nat) (e : expense_row) :
  cid <> 0 ->
  In e (query_expenses db uid (Some cid))
  <-> In e (query_expenses db uid None) /\ category_id e = cid.
Proof.
  intro Hc. unfold query_expenses. apply Nat.eqb_neq in Hc. rewrite Hc.
  rewrite filter_In, Nat.eqb_eq. reflexivity.
Qed.

End PredictionRoutes.

(** [X21] The two forecast routes count the 30 expenses differently.  For
    a category of the table whose id is not 0, the forecast route with that
    [category_id] succeeds exactly when the user has at least 30 expenses
    in that category; the by-category route has a successful forecast for
    the same category exactly when the user has at least 30 expenses in all
    and at least one in that category. *)
Theorem forecast_routes_count_differently
        (db : list Routes.expense_row) (cats : Routes.category_table)
        (periods uid cid : nat) (s : string) :
  1 <= periods -> cid <> 0 ->
  Routes.category_slug cats cid = Some s ->
  (forall e, In e db -> (Routes.category_id e = cid <-> Routes.slug e = s)) ->
  let mine := Routes.query_expenses db uid None in
  let in_category := Routes.query_expenses db uid (Some cid) in
  ((exists pts n, Routes.get_expense_forecast db cats periods (Some cid) uid
                  = Routes.Forecast (Prediction.Success pts n))
   <-> 30 <= List.length in_category)
  /\ ((exists preds pts n,
         Routes.get_forecast_by_category db periods uid
         = Routes.ByCategory periods preds
         /\ In (s, Prediction.Success pts n) preds)
      <-> 30 <= List.length mine /\ in_category <> []).
Proof.
  intros Hp Hc Hslug Hcons. cbv zeta.
  assert (Hcat : forall e, In e (Routes.query_expenses db uid (Some cid)) ->
                           Routes.slug e = s).
  { intros e He. apply (query_by_category db uid cid e Hc) in He.
    destruct He as [He Hid]. apply query_by_user in He. now apply Hcons. }
  split.
  - unfold Routes.get_expense_forecast.
    apply Nat.eqb_neq in Hc. rewrite Hc, Hslug. apply Nat.eqb_neq in Hc.
    destruct (Routes.query_expenses db uid (Some cid)) as [|e l] eqn:Eq.
    + split; [intros (pts & n & H); discriminate|cbn; lia].
    + split.
      * intros (pts & n & H). injection H as H.
        assert (Hs : exists pts n,
                   Prediction.predict_future_expenses
                     (Routes.to_frame (e :: l)) periods (Some s)
                   = Prediction.Success pts n) by (now exists pts, n).
        apply predict_succeeds_iff in Hs. destruct Hs as (Hlen & _ & _).
        now rewrite to_frame_length in Hlen.
      * intro Hlen.
        assert (Hs : exists pts n,
                   Prediction.predict_future_expenses
                     (Routes.to_frame (e :: l)) periods (Some s)
                   = Prediction.Success pts n).
        { apply predict_succeeds_iff. rewrite to_frame_length.
          split; [exact Hlen|]. split; [|exact Hp].
          rewrite (filter_category_same (e :: l) s Hcat). discriminate. }
        destruct Hs as (pts & n & Hs). exists pts, n. now rewrite Hs.
  - unfold Routes.get_forecast_by_category.
    set (mine := Routes.query_expenses db uid None).
    assert (Hkeys : forall c, In c (ByCategory.unique
                                      (map Prediction.category (Routes.to_frame mine)))
                              <-> exists e, In e mine /\ Routes.slug e = c).
    { intro c. rewrite (proj2 (unique_spec _) c). unfold Routes.to_frame.
      rewrite map_map. cbn [Prediction.category]. rewrite in_map_iff.
      split; intros (e & H1 & H2); exists e; tauto. }
    split.
    + intros (preds & pts & n & Hresp & Hin).
      destruct mine as [|e l] eqn:Em; [discriminate|].
      injection Hresp as <-.
      unfold ByCategory.predict_by_category in Hin. apply in_map_iff in Hin.
      destruct Hin as (c & Hpair & Hc'). injection Hpair as -> Hsucc.
      assert (Hs : exists pts n,
                 Prediction.predict_future_expenses
                   (Routes.to_frame (e :: l)) periods (Some s)
                 = Prediction.Success pts n) by (now exists pts, n).
      apply predict_succeeds_iff in Hs. destruct Hs as (Hlen & _ & _).
      rewrite to_frame_length in Hlen. split; [exact Hlen|].
      apply Hkeys in Hc'. destruct Hc' as (x & Hx & Hxs).
      intro Hnil.
      assert (Hxin : In x (Routes.query_expenses db uid (Some cid))).
      { apply (query_by_category db uid cid x Hc). fold mine. rewrite Em.
        split; [exact Hx|]. apply Hcons; [|exact Hxs].
        assert (Hm : In x mine) by (now rewrite Em).
        now apply query_by_user in Hm. }
      now rewrite Hnil in Hxin.
    + intros [Hlen Hne].
      assert (Hex : exists x, In x (Routes.query_expenses db uid (Some cid))).
      { destruct (Routes.query_expenses db uid (Some cid)) as [|x xs];
          [contradiction|]. exists x. now left. }
      destruct Hex as [x Hx].
      pose proof (Hcat x Hx) as Hxs.
      apply (query_by_category db uid cid x Hc) in Hx. destruct Hx as [Hxm _].
      fold mine in Hxm.
      destruct mine as [|e l] eqn:Em; [contradiction|].
      assert (Hs : exists pts n,
                 Prediction.predict_future_expenses
                   (Routes.to_frame (e :: l)) periods (Some s)
                 = Prediction.Success pts n).
      { apply predict_succeeds_iff. rewrite to_frame_length.
        split; [exact Hlen|]. split; [|exact Hp].
        rewrite <- Hxs.
        apply (filter_category_keeps (Routes.to_frame (e :: l))
                 {| Prediction.date := Routes.date x;
                    Prediction.amount := Routes.amount x;
                    Prediction.category := Routes.slug x |}).
        unfold Routes.to_frame. apply in_map_iff. now exists x. }
      destruct Hs as (pts & n & Hs).
      eexists. exists pts, n. split; [reflexivity|].
      unfold ByCategory.predict_by_category. apply in_map_iff.
      exists s. split; [now rewrite Hs|].
      apply Hkeys. now exists x.
Qed.

Lemma forecast_routes_witness :
  ~ (exists pts n,
        Routes.get_expense_forecast Samples.route_db Samples.route_categories 3
                                    (Some 2) 1
        = Routes.Forecast (Prediction.Success pts n))
  /\ exists preds pts n,
       Routes.get_forecast_by_category Samples.route_db 3 1
       = Routes.ByCategory 3 preds
       /\ In ("shopping"%string, Prediction.Success pts n) preds.
Proof.
  destruct (forecast_routes_count_differently
              Samples.route_db Samples.route_categories 3 1 2 "shopping")
    as [Ha Hb].
  - lia.
  - lia.
  - reflexivity.
  - intros e He.
    assert (Hall : forallb (fun e => Bool.eqb (Nat.eqb (Routes.category_id e) 2)
                                              (String.eqb (Routes.slug e) "shopping"))
                     Samples.route_db = true) by (vm_compute; reflexivity).
    rewrite forallb_forall in Hall. specialize (Hall e He).
    apply Bool.eqb_prop in Hall. rewrite <- Nat.eqb_eq, <- String.eqb_eq, Hall.
    reflexivity.
  - split.
    + intro H. apply Ha in H. vm_compute in H. lia.
    + apply Hb. split; [vm_compute; lia|]. vm_compute. discriminate.
Defined.

(** [X22] The trend route reports insufficient data exactly when all the
    expenses it selected fall in one calendar month; its own test for fewer
    than two expenses is a case of that. *)
Theorem trend_route_needs_two_months
        (coef_ : Prediction.regression)
        (db : list Routes.expense_row) (category_id : option nat) (uid : nat) :
  Routes.get_spending_trend coef_ db category_id uid = Prediction.InsufficientData
  <-> forall e e', In e (Routes.query_expenses db uid category_id) ->
                   In e' (Routes.query_expenses db uid category_id) ->
                   PyDate.month_index (Routes.date e)
                   = PyDate.month_index (Routes.date e').
Proof.
  unfold Routes.get_spending_trend.
  set (expenses := Routes.query_expenses db uid category_id).
  assert (Hframe : (forall r r', In r (Routes.to_frame expenses) ->
                                 In r' (Routes.to_frame expenses) ->
                                 Prediction.bucket_of r = Prediction.bucket_of r')
                   <-> forall e e', In e expenses -> In e' expenses ->
                         PyDate.month_index (Routes.date e)
                         = PyDate.month_index (Routes.date e')).
  { unfold Routes.to_frame. split.
    - intros H e e' He He'.
      apply (H {| Prediction.date := Routes.date e;
                  Prediction.amount := Routes.amount e;
                  Prediction.category := Routes.slug e |}
               {| Prediction.date := Routes.date e';
                  Prediction.amount := Routes.amount e';
                  Prediction.category := Routes.slug e' |});
        apply in_map_iff; eexists; split; try reflexivity; assumption.
    - intros H r r' Hr Hr'. apply in_map_iff in Hr, Hr'.
      destruct Hr as (e & <- & He). destruct Hr' as (e' & <- & He').
      now apply H. }
  destruct (Nat.ltb_spec (List.length expenses) 2) as [Hfew|Hmany].
  - split; [|reflexivity]. intros _ e e' He He'.
    destruct expenses as [|x [|y l]]; [contradiction| |cbn in Hfew; lia].
    destruct He as [<-|[]], He' as [<-|[]]. reflexivity.
  - rewrite one_month_iff_insufficient. exact Hframe.
Qed.
